(** * Offline Sync Manager (class [OfflineSync]): a shallow embedding

    The development follows the JavaScript class [OfflineSync] of the
    Access Nature application.  The embedding describes an instance whose
    [initialize()] has resolved: the IndexedDB database
    [AccessNaturePending] is open, so [this.db] is never null and the
    object-store requests below do not fail.

    - IndexedDB object stores ([pending_routes], [pending_guides],
      [email_queue]) are lists of records in key order together with the
      key generator of [autoIncrement: true].
    - [localStorage] slots ([accessNature_pendingPhotos],
      [accessNature_pendingSurveys]) are lists; an absent slot is [[]].
    - Every remote operation (Firestore [addDoc]/[updateDoc], Storage
      [uploadString], [emailjs.send]) consumes one outcome of the
      [network] oracle: [Some id] when the promise resolves, [None] when it
      rejects.  The calls made are appended to [trace].
    - [setTimeout] callbacks are kept as data in [timers] and run by
      [fire]; the [await] points of [syncAllPending] are the constructors
      of [Task].
    - Toasts, console reports and DOM events are appended to [notices]. *)

From Stdlib Require Import List Arith NArith Bool String Lia PeanoNat.
Import ListNotations.
#[local] Open Scope string_scope.
#[local] Open Scope nat_scope.
#[local] Open Scope list_scope.

(** ** Values *)

(** The string literals ['pending'], ['uploaded'], ['submitted'] and
    ['failed'] written to the [status] property. *)
Inductive Status := pending | uploaded | submitted | failed.

Definition status_eqb (a b : Status) : bool :=
  match a, b with
  | pending, pending | uploaded, uploaded
  | submitted, submitted | failed, failed => true
  | _, _ => false
  end.

(** Opaque payloads (route data, guide data, survey form, base64 photo). *)
Definition Data := string.
(** [new Date().toISOString()] *)
Definition Timestamp := nat.
(** [docRef.id] *)
Definition CloudId := string.

(** The two literals passed as [type] to [queueEmailBackup]. *)
Inductive Kind := Route | Guide.

(** [auth.currentUser] *)
Record User := mkUser {
  uid : string;
  email : option string;
  displayName : option string
}.

(** JavaScript truthiness of a string, and [a || b] on strings. *)
Definition truthy (s : string) : bool :=
  match s with EmptyString => false | _ => true end.

Definition or_else (s d : string) : string := if truthy s then s else d.

Definition opt_or_else (o : option string) (d : string) : string :=
  match o with Some s => or_else s d | None => d end.

(** [user?.email || null] *)
Definition opt_or_null (o : option string) : option string :=
  match o with Some s => if truthy s then Some s else None | None => None end.

(** ** Records *)

(** A record of [pending_routes] or [pending_guides]. *)
Module Pending.
Record t := mk {
  localId : nat;
  data : Data;
  userId : string;
  userEmail : option string;
  userName : string;
  timestamp : Timestamp;
  status : Status;
  retryCount : nat;
  cloudId : option CloudId;
  uploadedAt : option Timestamp;
  lastRetryAt : option Timestamp
}.
End Pending.

(** A record of [email_queue]; [data] is the spread copy
    [{ ...pendingRoute, localId }] taken when the entry is queued. *)
Module Email.
Record t := mk {
  id : nat;
  type : Kind;
  data : Pending.t;
  timestamp : Timestamp;
  sent : bool;
  retryCount : nat;
  sentAt : option Timestamp
}.
End Email.

(** An element of the [accessNature_pendingPhotos] array.  The [id]
    [photo_${Date.now()}_${random}] is drawn from [idSupply]. *)
Module Photo.
Record t := mk {
  id : nat;
  data : Data;
  fileName : string;
  mimeType : string;
  location : option string;
  routeId : option string;
  reportId : option string;
  timestamp : Timestamp;
  status : Status;
  retryCount : nat;
  downloadUrl : option string;
  uploadedAt : option Timestamp
}.
End Photo.

(** An element of the [accessNature_pendingSurveys] array. *)
Module Survey.
Record t := mk {
  id : nat;
  data : Data;
  routeId : option string;
  location : option string;
  timestamp : Timestamp;
  status : Status;
  retryCount : nat;
  submittedAt : option Timestamp
}.
End Survey.

(** [getSettings().emailjs] *)
Record EmailJSConfig := mkConfig {
  serviceId : string;
  templateId : string;
  publicKey : string
}.

(** ** IndexedDB object stores with [keyPath] and [autoIncrement] *)

Class KeyPath (R : Type) := {
  key : R -> nat;
  with_key : nat -> R -> R;
  key_with_key : forall k r, key (with_key k r) = k
}.

#[export] Instance Pending_KeyPath : KeyPath Pending.t := {|
  key := Pending.localId;
  with_key := fun k r =>
    Pending.mk k (Pending.data r) (Pending.userId r) (Pending.userEmail r)
      (Pending.userName r) (Pending.timestamp r) (Pending.status r)
      (Pending.retryCount r) (Pending.cloudId r) (Pending.uploadedAt r)
      (Pending.lastRetryAt r);
  key_with_key := fun _ _ => eq_refl
|}.

#[export] Instance Email_KeyPath : KeyPath Email.t := {|
  key := Email.id;
  with_key := fun k r =>
    Email.mk k (Email.type r) (Email.data r) (Email.timestamp r)
      (Email.sent r) (Email.retryCount r) (Email.sentAt r);
  key_with_key := fun _ _ => eq_refl
|}.

Record ObjectStore (R : Type) := mkStore {
  keyGen : nat;
  rows : list R
}.

Arguments mkStore {R} _ _.
Arguments keyGen {R} _.
Arguments rows {R} _.

Section ObjectStoreOps.
Context {R : Type} `{KeyPath R}.

(** [db.createObjectStore(name, { keyPath, autoIncrement: true })]: the
    key generator starts at 1. *)
Definition createObjectStore : ObjectStore R := mkStore 1 [].

Definition has_key (k : nat) (r : R) : bool := key r =? k.

(** [store.add(record)] for a record without a key: the generator's
    current number becomes the key. *)
Definition add (r : R) (s : ObjectStore R) : nat * ObjectStore R :=
  (keyGen s, mkStore (S (keyGen s)) (rows s ++ [with_key (keyGen s) r])).

(** [store.get(key)] *)
Definition get (k : nat) (s : ObjectStore R) : option R :=
  find (has_key k) (rows s).

(** [store.put(record)]: replaces the record stored under the same key;
    when there is none the record is inserted at its key position. *)
Definition put (r : R) (s : ObjectStore R) : ObjectStore R :=
  if existsb (has_key (key r)) (rows s)
  then mkStore (keyGen s)
         (map (fun x => if has_key (key r) x then r else x) (rows s))
  else mkStore (Nat.max (keyGen s) (S (key r)))
         (filter (fun x => key x <? key r) (rows s) ++ r ::
          filter (fun x => key r <? key x) (rows s)).

(** The transaction written as [get(k)], then, when a record is found,
    [put] of the record changed by [f]. *)
Definition modify (k : nat) (f : R -> R) (s : ObjectStore R) : ObjectStore R :=
  match get k s with
  | Some r => put (f r) s
  | None => s
  end.

(** [store.delete(key)] *)
Definition delete (k : nat) (s : ObjectStore R) : ObjectStore R :=
  mkStore (keyGen s) (filter (fun x => negb (has_key k x)) (rows s)).

(** [store.getAll()] *)
Definition getAll (s : ObjectStore R) : list R := rows s.

(** Keys are unique and were all issued by the key generator. *)
Definition store_wf (s : ObjectStore R) : Prop :=
  NoDup (map key (rows s)) /\ Forall (fun r => key r < keyGen s) (rows s).

End ObjectStoreOps.

(** ** The environment of the instance *)

(** Remote operations, as they reach Firestore, Storage and the relay. *)
Inductive Event :=
| addDoc (collection : string) (doc : Data) (userId : string)
| updateDoc (collection : string) (docId : string) (patch : Data)
| addSurveyDoc (doc : Data) (location : option string) (queuedAt : Timestamp)
| uploadString (photoId : nat) (content : Data)
| getDownloadURL (photoId : nat)
| emailjs_send (cfg : EmailJSConfig) (item : Email.t).

Inductive Level := success | warning | error | info | log.

(** What the presentation layer and the console receive. *)
Inductive Notice :=
| toast (l : Level) (msg : string)
| toast_count (l : Level) (msg : string) (n : nat)
| console (l : Level) (msg : string)
| banner (count : nat)
| pendingItemsUpdated (photos surveys total : nat).

(** The closures handed to [setTimeout], with the variables they capture. *)
Inductive Callback :=
| autoSync
| removeBanner
| prunePhotos (pendingPhotos : list Photo.t)
| pruneSurveys (pendingSurveys : list Survey.t).

Record Timer := mkTimer {
  callback : Callback;
  delay : N
}.

Record World := mkWorld {
  (* fields of the OfflineSync instance *)
  isOnline : bool;
  syncInProgress : bool;
  emailJsLoaded : bool;
  (* IndexedDB database AccessNaturePending *)
  pending_routes : ObjectStore Pending.t;
  pending_guides : ObjectStore Pending.t;
  email_queue : ObjectStore Email.t;
  (* localStorage *)
  pendingPhotos : list Photo.t;
  pendingSurveys : list Survey.t;
  emailjs : EmailJSConfig;
  (* platform *)
  navigator_onLine : bool;
  currentUser : option User;
  now : Timestamp;
  emailjs_defined : bool;
  idSupply : nat;
  (* network *)
  network : nat -> option string;
  netCalls : nat;
  trace : list Event;
  (* event loop and presentation *)
  timers : list Timer;
  notices : list Notice
}.

Definition set_isOnline (b : bool) (w : World) : World :=
  mkWorld b (syncInProgress w) (emailJsLoaded w) (pending_routes w)
    (pending_guides w) (email_queue w) (pendingPhotos w) (pendingSurveys w)
    (emailjs w) (navigator_onLine w) (currentUser w) (now w)
    (emailjs_defined w) (idSupply w) (network w) (netCalls w) (trace w)
    (timers w) (notices w).

Definition set_syncInProgress (b : bool) (w : World) : World :=
  mkWorld (isOnline w) b (emailJsLoaded w) (pending_routes w)
    (pending_guides w) (email_queue w) (pendingPhotos w) (pendingSurveys w)
    (emailjs w) (navigator_onLine w) (currentUser w) (now w)
    (emailjs_defined w) (idSupply w) (network w) (netCalls w) (trace w)
    (timers w) (notices w).

Definition set_emailJsLoaded (b : bool) (w : World) : World :=
  mkWorld (isOnline w) (syncInProgress w) b (pending_routes w)
    (pending_guides w) (email_queue w) (pendingPhotos w) (pendingSurveys w)
    (emailjs w) (navigator_onLine w) (currentUser w) (now w)
    (emailjs_defined w) (idSupply w) (network w) (netCalls w) (trace w)
    (timers w) (notices w).

Definition set_pending_routes (s : ObjectStore Pending.t) (w : World) : World :=
  mkWorld (isOnline w) (syncInProgress w) (emailJsLoaded w) s
    (pending_guides w) (email_queue w) (pendingPhotos w) (pendingSurveys w)
    (emailjs w) (navigator_onLine w) (currentUser w) (now w)
    (emailjs_defined w) (idSupply w) (network w) (netCalls w) (trace w)
    (timers w) (notices w).

Definition set_pending_guides (s : ObjectStore Pending.t) (w : World) : World :=
  mkWorld (isOnline w) (syncInProgress w) (emailJsLoaded w) (pending_routes w)
    s (email_queue w) (pendingPhotos w) (pendingSurveys w)
    (emailjs w) (navigator_onLine w) (currentUser w) (now w)
    (emailjs_defined w) (idSupply w) (network w) (netCalls w) (trace w)
    (timers w) (notices w).

Definition set_email_queue (s : ObjectStore Email.t) (w : World) : World :=
  mkWorld (isOnline w) (syncInProgress w) (emailJsLoaded w) (pending_routes w)
    (pending_guides w) s (pendingPhotos w) (pendingSurveys w)
    (emailjs w) (navigator_onLine w) (currentUser w) (now w)
    (emailjs_defined w) (idSupply w) (network w) (netCalls w) (trace w)
    (timers w) (notices w).

Definition set_pendingPhotos (l : list Photo.t) (w : World) : World :=
  mkWorld (isOnline w) (syncInProgress w) (emailJsLoaded w) (pending_routes w)
    (pending_guides w) (email_queue w) l (pendingSurveys w)
    (emailjs w) (navigator_onLine w) (currentUser w) (now w)
    (emailjs_defined w) (idSupply w) (network w) (netCalls w) (trace w)
    (timers w) (notices w).

Definition set_pendingSurveys (l : list Survey.t) (w : World) : World :=
  mkWorld (isOnline w) (syncInProgress w) (emailJsLoaded w) (pending_routes w)
    (pending_guides w) (email_queue w) (pendingPhotos w) l
    (emailjs w) (navigator_onLine w) (currentUser w) (now w)
    (emailjs_defined w) (idSupply w) (network w) (netCalls w) (trace w)
    (timers w) (notices w).

Definition set_emailjs_defined (b : bool) (w : World) : World :=
  mkWorld (isOnline w) (syncInProgress w) (emailJsLoaded w) (pending_routes w)
    (pending_guides w) (email_queue w) (pendingPhotos w) (pendingSurveys w)
    (emailjs w) (navigator_onLine w) (currentUser w) (now w)
    b (idSupply w) (network w) (netCalls w) (trace w)
    (timers w) (notices w).

Definition set_idSupply (n : nat) (w : World) : World :=
  mkWorld (isOnline w) (syncInProgress w) (emailJsLoaded w) (pending_routes w)
    (pending_guides w) (email_queue w) (pendingPhotos w) (pendingSurveys w)
    (emailjs w) (navigator_onLine w) (currentUser w) (now w)
    (emailjs_defined w) n (network w) (netCalls w) (trace w)
    (timers w) (notices w).

Definition set_environment (online : bool) (user : option User) (t : Timestamp)
  (w : World) : World :=
  mkWorld (isOnline w) (syncInProgress w) (emailJsLoaded w) (pending_routes w)
    (pending_guides w) (email_queue w) (pendingPhotos w) (pendingSurveys w)
    (emailjs w) online user t
    (emailjs_defined w) (idSupply w) (network w) (netCalls w) (trace w)
    (timers w) (notices w).

Definition set_timers (l : list Timer) (w : World) : World :=
  mkWorld (isOnline w) (syncInProgress w) (emailJsLoaded w) (pending_routes w)
    (pending_guides w) (email_queue w) (pendingPhotos w) (pendingSurveys w)
    (emailjs w) (navigator_onLine w) (currentUser w) (now w)
    (emailjs_defined w) (idSupply w) (network w) (netCalls w) (trace w)
    l (notices w).

Definition set_notices (l : list Notice) (w : World) : World :=
  mkWorld (isOnline w) (syncInProgress w) (emailJsLoaded w) (pending_routes w)
    (pending_guides w) (email_queue w) (pendingPhotos w) (pendingSurveys w)
    (emailjs w) (navigator_onLine w) (currentUser w) (now w)
    (emailjs_defined w) (idSupply w) (network w) (netCalls w) (trace w)
    (timers w) l.

(** One remote operation: the call is recorded and the next outcome of
    the network is consumed. *)
Definition remote (e : Event) (w : World) : option string * World :=
  (network w (netCalls w),
   mkWorld (isOnline w) (syncInProgress w) (emailJsLoaded w) (pending_routes w)
     (pending_guides w) (email_queue w) (pendingPhotos w) (pendingSurveys w)
     (emailjs w) (navigator_onLine w) (currentUser w) (now w)
     (emailjs_defined w) (idSupply w) (network w) (S (netCalls w))
     (trace w ++ [e]) (timers w) (notices w)).

Definition notify (n : Notice) (w : World) : World :=
  set_notices (notices w ++ [n]) w.

(** [setTimeout(cb, ms)] *)
Definition setTimeout (cb : Callback) (ms : N) (w : World) : World :=
  set_timers (timers w ++ [mkTimer cb ms]) w.

(** A [for (const x of xs) { ... }] loop whose body only acts on the
    environment. *)
Fixpoint for_of {A : Type} (body : A -> World -> World) (xs : list A)
  (w : World) : World :=
  match xs with
  | [] => w
  | x :: rest => for_of body rest (body x w)
  end.

(** A [for ... of] loop over an array parsed from [localStorage] whose body
    mutates the element in place: the array after the loop is returned. *)
Fixpoint for_of_mut {A : Type} (body : A -> World -> A * World) (xs : list A)
  (w : World) : list A * World :=
  match xs with
  | [] => ([], w)
  | x :: rest =>
      let (x', w1) := body x w in
      let (rest', w2) := for_of_mut body rest w1 in
      (x' :: rest', w2)
  end.

(** ** IndexedDB operations *)

Definition savePendingRoute (routeData : Pending.t) (w : World) : nat * World :=
  let (k, s) := add routeData (pending_routes w) in (k, set_pending_routes s w).

Definition savePendingGuide (guideData : Pending.t) (w : World) : nat * World :=
  let (k, s) := add guideData (pending_guides w) in (k, set_pending_guides s w).

(** [r.status = 'uploaded'; r.cloudId = cloudId; r.uploadedAt = new Date()] *)
Definition set_uploaded (cloudId : CloudId) (t : Timestamp) (r : Pending.t)
  : Pending.t :=
  Pending.mk (Pending.localId r) (Pending.data r) (Pending.userId r)
    (Pending.userEmail r) (Pending.userName r) (Pending.timestamp r)
    uploaded (Pending.retryCount r) (Some cloudId) (Some t)
    (Pending.lastRetryAt r).

(** [item.retryCount = (item.retryCount || 0) + 1; item.lastRetryAt = ...];
    on a number [n || 0] is [n]. *)
Definition set_retried (t : Timestamp) (r : Pending.t) : Pending.t :=
  Pending.mk (Pending.localId r) (Pending.data r) (Pending.userId r)
    (Pending.userEmail r) (Pending.userName r) (Pending.timestamp r)
    (Pending.status r) (Pending.retryCount r + 1) (Pending.cloudId r)
    (Pending.uploadedAt r) (Some t).

Definition markRouteUploaded (localId : nat) (cloudId : CloudId) (w : World)
  : World :=
  match get localId (pending_routes w) with
  | Some route =>
      set_pending_routes (put (set_uploaded cloudId (now w) route) (pending_routes w)) w
  | None => w
  end.

Definition markGuideUploaded (localId : nat) (cloudId : CloudId) (w : World)
  : World :=
  match get localId (pending_guides w) with
  | Some guide =>
      set_pending_guides (put (set_uploaded cloudId (now w) guide) (pending_guides w)) w
  | None => w
  end.

Definition getPendingRoutes (w : World) : list Pending.t :=
  getAll (pending_routes w).

Definition getPendingGuides (w : World) : list Pending.t :=
  getAll (pending_guides w).

Definition is_pending (r : Pending.t) : bool :=
  status_eqb (Pending.status r) pending.

Definition getPendingCount (w : World) : nat :=
  List.length (filter is_pending (getPendingRoutes w)) +
  List.length (filter is_pending (getPendingGuides w)).

(** The two store names [incrementRetryCount] is called with. *)
Inductive StoreName := store_routes | store_guides.

Definition incrementRetryCount (storeName : StoreName) (localId : nat)
  (w : World) : World :=
  match storeName with
  | store_routes =>
      match get localId (pending_routes w) with
      | Some item =>
          set_pending_routes (put (set_retried (now w) item) (pending_routes w)) w
      | None => w
      end
  | store_guides =>
      match get localId (pending_guides w) with
      | Some item =>
          set_pending_guides (put (set_retried (now w) item) (pending_guides w)) w
      | None => w
      end
  end.

(** ** Cloud upload *)

(** [addDoc(collection(db, 'routes'), docData)]; the [catch] re-throws. *)
Definition uploadRouteToCloud (routeData : Data) (user : User) (w : World)
  : option CloudId * World :=
  remote (addDoc "routes" routeData (uid user)) w.

Definition uploadGuideToCloud (guideData : Data) (user : User) (w : World)
  : option CloudId * World :=
  remote (addDoc "trail_guides" guideData (uid user)) w.

(** ** Email backup *)

Definition queueEmailBackup (type : Kind) (data : Pending.t) (w : World)
  : nat * World :=
  let emailItem := Email.mk 0 type data (now w) false 0 None in
  let (k, s) := add emailItem (email_queue w) in
  (k, set_email_queue s w).

Definition configured (c : EmailJSConfig) : bool :=
  truthy (publicKey c) && truthy (serviceId c) && truthy (templateId c).

(** [Some tt] when the promise resolves, [None] when [emailjs.send]
    rejects.  With an incomplete configuration the function returns
    without sending. *)
Definition sendEmailBackup (emailItem : Email.t) (w : World)
  : option unit * World :=
  let config := emailjs w in
  if negb (configured config) then (Some tt, w)
  else
    let (r, w1) := remote (emailjs_send config emailItem) w in
    (match r with Some _ => Some tt | None => None end, w1).

Definition set_sent (t : Timestamp) (item : Email.t) : Email.t :=
  Email.mk (Email.id item) (Email.type item) (Email.data item)
    (Email.timestamp item) true (Email.retryCount item) (Some t).

Definition set_email_retried (item : Email.t) : Email.t :=
  Email.mk (Email.id item) (Email.type item) (Email.data item)
    (Email.timestamp item) (Email.sent item) (Email.retryCount item + 1)
    (Email.sentAt item).

Definition markEmailSent (id : nat) (w : World) : World :=
  match get id (email_queue w) with
  | Some item => set_email_queue (put (set_sent (now w) item) (email_queue w)) w
  | None => w
  end.

Definition incrementEmailRetry (id : nat) (w : World) : World :=
  match get id (email_queue w) with
  | Some item => set_email_queue (put (set_email_retried item) (email_queue w)) w
  | None => w
  end.

(** The body of the loop of [processEmailQueue]. *)
Definition processEmailItem (item : Email.t) (w : World) : World :=
  if 3 <=? Email.retryCount item then w
  else
    let (r, w1) := sendEmailBackup item w in
    match r with
    | Some _ => markEmailSent (Email.id item) w1
    | None => incrementEmailRetry (Email.id item) w1
    end.

(** The values the code stores under an indexed property or passes to a
    query of an index.  IndexedDB takes numbers, strings, dates, binary
    data and arrays of those as keys; a boolean is not a valid key. *)
Inductive IDBValue :=
| idb_number (n : nat)
| idb_string (s : string)
| idb_boolean (b : bool).

Definition valid_key (v : IDBValue) : bool :=
  match v with
  | idb_boolean _ => false
  | _ => true
  end.

Definition idb_eqb (a b : IDBValue) : bool :=
  match a, b with
  | idb_number n, idb_number m => n =? m
  | idb_string s, idb_string t => String.eqb s t
  | idb_boolean x, idb_boolean y => Bool.eqb x y
  | _, _ => false
  end.

(** [index.getAll(query)] on the index over the property read by [path].
    [None] is the [DataError] the call throws when [query] is not a valid
    key.  A record whose property is not a valid key is not in the index. *)
Definition index_getAll {R : Type} (path : R -> IDBValue) (query : IDBValue)
  (s : ObjectStore R) : option (list R) :=
  if valid_key query
  then Some (filter (fun r => valid_key (path r) && idb_eqb (path r) query)
               (rows s))
  else None.

(** [store.index('sent').getAll(false)]; the index was created with
    [createIndex('sent', 'sent')] over the boolean [sent]. *)
Definition unsent (w : World) : option (list Email.t) :=
  index_getAll (fun item => idb_boolean (Email.sent item)) (idb_boolean false)
    (email_queue w).

(** The [onsuccess] callback of the query is run where the query is
    issued; an exception of the query is caught and logged. *)
Definition processEmailQueue (w : World) : World :=
  if negb (emailJsLoaded w) || negb (isOnline w) then w
  else
    match unsent w with
    | Some items => for_of processEmailItem items w
    | None => notify (console error "Error processing email queue") w
    end.

(** ** Save methods *)

(** The value [{ localId, cloudId }] both save methods resolve with. *)
Record Saved := mkSaved {
  saved_localId : nat;
  saved_cloudId : option CloudId
}.

(** The object literal built at the start of [saveRoute] and
    [saveTrailGuide]; it has no [localId] yet, the store assigns one. *)
Definition newPending (payload : Data) (user : option User) (w : World)
  : Pending.t :=
  Pending.mk 0 payload
    (match user with Some u => or_else (uid u) "anonymous" | None => "anonymous" end)
    (match user with Some u => opt_or_null (email u) | None => None end)
    (match user with Some u => opt_or_else (displayName u) "Anonymous" | None => "Anonymous" end)
    (now w) pending 0 None None None.

Definition saveRoute (routeData : Data) (user : option User) (w : World)
  : Saved * World :=
  let pendingRoute := newPending routeData user w in
  let (localId, w1) := savePendingRoute pendingRoute w in
  let (_, w2) := queueEmailBackup Route (with_key localId pendingRoute) w1 in
  match isOnline w2, user with
  | true, Some u =>
      let (r, w3) := uploadRouteToCloud routeData u w2 in
      match r with
      | Some cloudId =>
          if truthy cloudId
          then (mkSaved localId (Some cloudId),
                notify (toast success "Route saved to cloud!")
                  (markRouteUploaded localId cloudId w3))
          else (mkSaved localId None, processEmailQueue w3)
      | None =>
          (mkSaved localId None,
           processEmailQueue
             (notify (toast warning "Saved locally - will sync when online") w3))
      end
  | _, _ =>
      (mkSaved localId None,
       processEmailQueue (notify (toast success "Route saved locally") w2))
  end.

Definition saveTrailGuide (guideData : Data) (user : option User) (w : World)
  : Saved * World :=
  let pendingGuide := newPending guideData user w in
  let (localId, w1) := savePendingGuide pendingGuide w in
  let (_, w2) := queueEmailBackup Guide (with_key localId pendingGuide) w1 in
  match isOnline w2, user with
  | true, Some u =>
      let (r, w3) := uploadGuideToCloud guideData u w2 in
      match r with
      | Some cloudId =>
          if truthy cloudId
          then (mkSaved localId (Some cloudId),
                notify (toast success "Trail guide saved to cloud!")
                  (markGuideUploaded localId cloudId w3))
          else (mkSaved localId None, processEmailQueue w3)
      | None =>
          (mkSaved localId None,
           processEmailQueue
             (notify (toast warning "Guide saved locally - will sync when online") w3))
      end
  | _, _ =>
      (mkSaved localId None,
       processEmailQueue (notify (toast success "Trail guide saved locally") w2))
  end.

(** ** Sync operations *)

#[local] Unset Elimination Schemes.
(** A suspended [async] call: [done] once it has returned, [await k] while
    it waits for a promise; [k] is the code that runs, without
    interruption, from the resumption to the next suspension. *)
Inductive Task :=
| done
| await (resume : World -> World * Task).
#[local] Set Elimination Schemes.

(** Code that runs from the current point to its next suspension. *)
Definition Code := World -> World * Task.

(** Runs a suspended call to its end with nothing else in between. *)
Fixpoint complete (t : Task) (w : World) : World :=
  match t with
  | done => w
  | await k => let (w1, t1) := k w in complete t1 w1
  end.

Definition run (c : Code) (w : World) : World :=
  let (w1, t) := c w in complete t w1.

(** The loop over [pendingRoutes]: one suspension for the upload, one for
    the store transaction that follows it. *)
Fixpoint syncRoutes (pendingRoutes : list Pending.t) (user : User)
  (successCount failCount : nat) (k : nat -> nat -> Code) : Code :=
  fun w =>
  match pendingRoutes with
  | [] => k successCount failCount w
  | route :: rest =>
      (w, await (fun w =>
        let (r, w1) := uploadRouteToCloud (Pending.data route) user w in
        match r with
        | Some cloudId =>
            (w1, await (fun w =>
              syncRoutes rest user (S successCount) failCount k
                (markRouteUploaded (Pending.localId route) cloudId w)))
        | None =>
            (w1, await (fun w =>
              syncRoutes rest user successCount (S failCount) k
                (incrementRetryCount store_routes (Pending.localId route) w)))
        end))
  end.

Fixpoint syncGuides (pendingGuides : list Pending.t) (user : User)
  (successCount failCount : nat) (k : nat -> nat -> Code) : Code :=
  fun w =>
  match pendingGuides with
  | [] => k successCount failCount w
  | guide :: rest =>
      (w, await (fun w =>
        let (r, w1) := uploadGuideToCloud (Pending.data guide) user w in
        match r with
        | Some cloudId =>
            (w1, await (fun w =>
              syncGuides rest user (S successCount) failCount k
                (markGuideUploaded (Pending.localId guide) cloudId w)))
        | None =>
            (w1, await (fun w =>
              syncGuides rest user successCount (S failCount) k
                (incrementRetryCount store_guides (Pending.localId guide) w)))
        end))
  end.

(** The result toasts, [await this.processEmailQueue()] and the [finally]
    block. *)
Definition syncResults (successCount failCount : nat) : Code :=
  fun w =>
  let w1 := if 0 <? successCount
            then notify (toast_count success "Uploaded items" successCount) w
            else w in
  let w2 := if 0 <? failCount
            then notify (toast_count warning "items failed - will retry later" failCount) w1
            else w1 in
  (w2, await (fun w => (set_syncInProgress false (processEmailQueue w), done))).

Definition syncAllPending : Code :=
  fun w =>
  if syncInProgress w
  then (notify (console log "Sync already in progress...") w, done)
  else if negb (isOnline w)
  then (notify (toast error "No internet connection") w, done)
  else
    (set_syncInProgress true w,
     await (fun w =>                       (* import('../../firebase-setup.js') *)
       match currentUser w with
       | None =>
           (set_syncInProgress false
              (notify (console log "No user signed in - skipping auto-sync") w),
            done)
       | Some user =>
           (w, await (fun w =>             (* getPendingRoutes() *)
             let routes := getPendingRoutes w in
             (w, await (fun w =>           (* getPendingGuides() *)
               let guides := getPendingGuides w in
               let pendingRoutes := filter is_pending routes in
               let pendingGuides := filter is_pending guides in
               let totalPending :=
                 List.length pendingRoutes + List.length pendingGuides in
               if totalPending =? 0
               then (set_syncInProgress false
                       (notify (console log "No pending items to sync") w),
                     done)
               else
                 syncRoutes pendingRoutes user 0 0
                   (fun sc fc => syncGuides pendingGuides user sc fc syncResults)
                   (notify (toast_count info "Syncing items" totalPending) w)))))
       end)).

(** ** Photo queue *)

(** [updatePendingIndicator()]: the counts dispatched with the
    [pendingItemsUpdated] event. *)
Definition updatePendingIndicator (w : World) : World :=
  let photos :=
    List.length (filter (fun p => status_eqb (Photo.status p) pending) (pendingPhotos w)) in
  let surveys :=
    List.length (filter (fun s => status_eqb (Survey.status s) pending) (pendingSurveys w)) in
  notify (pendingItemsUpdated photos surveys (photos + surveys)) w.

Definition photo_uploaded (url : string) (t : Timestamp) (p : Photo.t) : Photo.t :=
  Photo.mk (Photo.id p) (Photo.data p) (Photo.fileName p) (Photo.mimeType p)
    (Photo.location p) (Photo.routeId p) (Photo.reportId p) (Photo.timestamp p)
    uploaded (Photo.retryCount p) (Some url) (Some t).

(** The [catch] block: the count is incremented, then compared with 3. *)
Definition photo_retried (p : Photo.t) : Photo.t :=
  let n := Photo.retryCount p + 1 in
  Photo.mk (Photo.id p) (Photo.data p) (Photo.fileName p) (Photo.mimeType p)
    (Photo.location p) (Photo.routeId p) (Photo.reportId p) (Photo.timestamp p)
    (if 3 <=? n then failed else Photo.status p) n
    (Photo.downloadUrl p) (Photo.uploadedAt p).

(** The body of the loop of [processPhotoQueue]: [uploadString] and then
    [getDownloadURL]. *)
Definition processPhoto (photo : Photo.t) (w : World) : Photo.t * World :=
  if status_eqb (Photo.status photo) uploaded then (photo, w)
  else
    let (r, w1) := remote (uploadString (Photo.id photo) (Photo.data photo)) w in
    match r with
    | Some _ =>
        let (u, w2) := remote (getDownloadURL (Photo.id photo)) w1 in
        match u with
        | Some downloadUrl => (photo_uploaded downloadUrl (now w2) photo, w2)
        | None => (photo_retried photo, w2)
        end
    | None => (photo_retried photo, w1)
    end.

Definition processPhotoQueue (w : World) : World :=
  let pendingPhotos := pendingPhotos w in
  if List.length pendingPhotos =? 0 then w
  else
    let (pendingPhotos', w1) := for_of_mut processPhoto pendingPhotos w in
    setTimeout (prunePhotos pendingPhotos') 5000%N
      (set_pendingPhotos pendingPhotos' w1).

(** [photoData] and [context] as [queuePhoto] reads them.  The default
    file name [photo_${Date.now()}.jpg] is written without its time
    stamp. *)
Record PhotoData := mkPhotoData {
  content : Data;
  pd_fileName : option string;
  pd_mimeType : option string;
  pd_location : option string
}.

Record Context := mkContext {
  ctx_location : option string;
  ctx_routeId : option string;
  ctx_reportId : option string
}.

(** [a || b || null] on optional strings. *)
Definition first_truthy (a b : option string) : option string :=
  match opt_or_null a with Some s => Some s | None => opt_or_null b end.

Definition queuePhoto (photoData : PhotoData) (context : Context) (w : World)
  : nat * World :=
  let queuedPhoto :=
    Photo.mk (idSupply w) (content photoData)
      (opt_or_else (pd_fileName photoData) "photo.jpg")
      (opt_or_else (pd_mimeType photoData) "image/jpeg")
      (first_truthy (pd_location photoData) (ctx_location context))
      (opt_or_null (ctx_routeId context))
      (opt_or_null (ctx_reportId context))
      (now w) pending 0 None None in
  let w1 := set_idSupply (S (idSupply w)) w in
  let w2 := set_pendingPhotos (pendingPhotos w1 ++ [queuedPhoto]) w1 in
  let w3 := notify (toast info "Photo saved offline - will upload when connected") w2 in
  let w4 := updatePendingIndicator w3 in
  (Photo.id queuedPhoto, if isOnline w4 then processPhotoQueue w4 else w4).

(** ** Survey queue *)

Definition survey_submitted (t : Timestamp) (s : Survey.t) : Survey.t :=
  Survey.mk (Survey.id s) (Survey.data s) (Survey.routeId s)
    (Survey.location s) (Survey.timestamp s) submitted (Survey.retryCount s)
    (Some t).

Definition survey_retried (s : Survey.t) : Survey.t :=
  let n := Survey.retryCount s + 1 in
  Survey.mk (Survey.id s) (Survey.data s) (Survey.routeId s)
    (Survey.location s) (Survey.timestamp s)
    (if 3 <=? n then failed else Survey.status s) n (Survey.submittedAt s).

(** The body of the loop of [processSurveyQueue]. *)
Definition processSurvey (survey : Survey.t) (w : World) : Survey.t * World :=
  if status_eqb (Survey.status survey) submitted then (survey, w)
  else
    let call :=
      match opt_or_null (Survey.routeId survey) with
      | Some routeId => updateDoc "routes" routeId (Survey.data survey)
      | None => addSurveyDoc (Survey.data survey) (Survey.location survey)
                  (Survey.timestamp survey)
      end in
    let (r, w1) := remote call w in
    match r with
    | Some _ => (survey_submitted (now w1) survey, w1)
    | None => (survey_retried survey, w1)
    end.

Definition processSurveyQueue (w : World) : World :=
  let pendingSurveys := pendingSurveys w in
  if List.length pendingSurveys =? 0 then w
  else
    let (pendingSurveys', w1) := for_of_mut processSurvey pendingSurveys w in
    setTimeout (pruneSurveys pendingSurveys') 5000%N
      (set_pendingSurveys pendingSurveys' w1).

Definition queueSurvey (surveyData : Data) (context : Context) (w : World)
  : nat * World :=
  let queuedSurvey :=
    Survey.mk (idSupply w) surveyData
      (opt_or_null (ctx_routeId context))
      (opt_or_null (ctx_location context))
      (now w) pending 0 None in
  let w1 := set_idSupply (S (idSupply w)) w in
  let w2 := set_pendingSurveys (pendingSurveys w1 ++ [queuedSurvey]) w1 in
  let w3 := notify (toast info "Survey saved offline - will submit when connected") w2 in
  let w4 := updatePendingIndicator w3 in
  (Survey.id queuedSurvey, if isOnline w4 then processSurveyQueue w4 else w4).

(** ** Timers *)

(** The body of a [setTimeout] callback. *)
Definition fire_callback (cb : Callback) (w : World) : World :=
  match cb with
  | autoSync => if isOnline w then run syncAllPending w else w
  | removeBanner => w
  | prunePhotos pendingPhotos =>
      let remaining :=
        filter (fun p => negb (status_eqb (Photo.status p) uploaded)) pendingPhotos in
      updatePendingIndicator (set_pendingPhotos remaining w)
  | pruneSurveys pendingSurveys =>
      let remaining :=
        filter (fun s => negb (status_eqb (Survey.status s) submitted)) pendingSurveys in
      updatePendingIndicator (set_pendingSurveys remaining w)
  end.

Fixpoint remove_nth {A : Type} (n : nat) (l : list A) : list A :=
  match n, l with
  | _, [] => []
  | 0, _ :: rest => rest
  | S m, x :: rest => x :: remove_nth m rest
  end.

(** The [n]-th scheduled timer elapses. *)
Definition fire (n : nat) (w : World) : World :=
  match nth_error (timers w) n with
  | Some t => fire_callback (callback t) (set_timers (remove_nth n (timers w)) w)
  | None => w
  end.

(** ** Connectivity *)

(** [showPendingNotification(count)]: the banner and its auto-dismiss. *)
Definition showPendingNotification (count : nat) (w : World) : World :=
  let show c w := setTimeout removeBanner 10000%N (notify (banner c) w) in
  if count =? 0
  then (let c := getPendingCount w in if 0 <? c then show c w else w)
  else show count w.

(** The listener of the [online] event. *)
Definition onOnline (w : World) : World :=
  let w1 := set_isOnline true w in
  let pendingCount := getPendingCount w1 in
  let w2 :=
    if 0 <? pendingCount
    then setTimeout autoSync 3000%N (showPendingNotification pendingCount w1)
    else w1 in
  processEmailQueue w2.

(** The listener of the [offline] event. *)
Definition onOffline (w : World) : World :=
  notify (toast warning "Offline - data will sync when connected")
    (set_isOnline false w).

(** The [setInterval] callback, every 30000 ms. *)
Definition connectivityPoll (w : World) : World :=
  let wasOnline := isOnline w in
  let w1 := set_isOnline (navigator_onLine w) w in
  if negb wasOnline && isOnline w1
  then
    let pendingCount := getPendingCount w1 in
    let w2 :=
      if 0 <? pendingCount
      then run syncAllPending (showPendingNotification pendingCount w1)
      else w1 in
    processEmailQueue w2
  else w1.

(** ** EmailJS loading *)

(** [scriptLoads] tells whether the script element fires [onload]. *)
Definition loadEmailJS (scriptLoads : bool) (w : World) : World :=
  if emailJsLoaded w then w
  else if emailjs_defined w then set_emailJsLoaded true w
  else if scriptLoads
  then
    let w1 := set_emailjs_defined true w in
    if truthy (publicKey (emailjs w1))
    then set_emailJsLoaded true w1
    else notify (console warning "EmailJS not configured - email backups disabled") w1
  else notify (console warning "Failed to load EmailJS") w.

(** ** Properties kept by every step of a pass *)

(** Induction on suspended calls. *)
Fixpoint Task_induction (P : Task -> Prop) (Hdone : P done)
  (Hawait : forall k, (forall w, P (snd (k w))) -> P (await k)) (t : Task)
  : P t :=
  match t with
  | done => Hdone
  | await k => Hawait k (fun w => Task_induction P Hdone Hawait (snd (k w)))
  end.

Section StableDefinitions.
Variable P : World -> Prop.

(** [P] survives whatever the loop of the drain does. *)
Record email_stable : Prop := {
  stable_remote : forall e w, P w -> P (snd (remote e w));
  stable_markEmailSent : forall id w, P w -> P (markEmailSent id w);
  stable_incrementEmailRetry : forall id w, P w -> P (incrementEmailRetry id w)
}.

(** [P] survives whatever a sync pass does. *)
Record sync_stable : Prop := {
  stable_email : email_stable;
  stable_notify : forall n w, P w -> P (notify n w);
  stable_flag : forall b w, P w -> P (set_syncInProgress b w);
  stable_markRouteUploaded : forall id c w, P w -> P (markRouteUploaded id c w);
  stable_markGuideUploaded : forall id c w, P w -> P (markGuideUploaded id c w);
  stable_incrementRetryCount : forall sn id w, P w -> P (incrementRetryCount sn id w)
}.

(** Every state a suspended call goes through satisfies [P]. *)
Fixpoint task_preserves (t : Task) : Prop :=
  match t with
  | done => True
  | await k => forall w, P w -> P (fst (k w)) /\ task_preserves (snd (k w))
  end.

Definition code_preserves (c : Code) : Prop :=
  forall w, P w -> P (fst (c w)) /\ task_preserves (snd (c w)).

(** [P] speaks of the three object stores only and survives every
    operation of the instance. *)
Record op_stable : Prop := {
  op_sync : sync_stable;
  op_stores : forall w w',
    pending_routes w' = pending_routes w ->
    pending_guides w' = pending_guides w ->
    email_queue w' = email_queue w ->
    P w -> P w';
  op_savePendingRoute : forall r w,
    Pending.status r = pending -> Pending.cloudId r = None ->
    P w -> P (snd (savePendingRoute r w));
  op_savePendingGuide : forall r w,
    Pending.status r = pending -> Pending.cloudId r = None ->
    P w -> P (snd (savePendingGuide r w));
  op_queueEmailBackup : forall type data w,
    P w -> P (snd (queueEmailBackup type data w))
}.

End StableDefinitions.

Arguments stable_remote {P} _ _ _ _.
Arguments stable_markEmailSent {P} _ _ _ _.
Arguments stable_incrementEmailRetry {P} _ _ _ _.
Arguments stable_email {P} _.
Arguments stable_notify {P} _ _ _ _.
Arguments stable_flag {P} _ _ _ _.
Arguments stable_markRouteUploaded {P} _ _ _ _ _.
Arguments stable_markGuideUploaded {P} _ _ _ _ _.
Arguments stable_incrementRetryCount {P} _ _ _ _ _.
Arguments op_sync {P} _.
Arguments op_stores {P} _ _ _ _ _ _ _.
Arguments op_savePendingRoute {P} _ _ _ _ _ _.
Arguments op_savePendingGuide {P} _ _ _ _ _ _.
Arguments op_queueEmailBackup {P} _ _ _ _ _.

(** ** Sequences of operations *)

(** The operations of the instance, and what its surroundings can do
    between two of them: the platform changes [navigator.onLine], the user
    signs in or out, time passes. *)
Inductive Op :=
| op_saveRoute (routeData : Data) (user : option User)
| op_saveTrailGuide (guideData : Data) (user : option User)
| op_markRouteUploaded (localId : nat) (cloudId : CloudId)
| op_markGuideUploaded (localId : nat) (cloudId : CloudId)
| op_incrementRetryCount (storeName : StoreName) (localId : nat)
| op_syncAllPending
| op_processEmailQueue
| op_onOnline
| op_onOffline
| op_connectivityPoll
| op_fire (n : nat)
| op_environment (online : bool) (user : option User) (t : Timestamp).

Definition exec (o : Op) (w : World) : World :=
  match o with
  | op_saveRoute routeData user => snd (saveRoute routeData user w)
  | op_saveTrailGuide guideData user => snd (saveTrailGuide guideData user w)
  | op_markRouteUploaded localId cloudId => markRouteUploaded localId cloudId w
  | op_markGuideUploaded localId cloudId => markGuideUploaded localId cloudId w
  | op_incrementRetryCount storeName localId => incrementRetryCount storeName localId w
  | op_syncAllPending => run syncAllPending w
  | op_processEmailQueue => processEmailQueue w
  | op_onOnline => onOnline w
  | op_onOffline => onOffline w
  | op_connectivityPoll => connectivityPoll w
  | op_fire n => fire n w
  | op_environment online user t => set_environment online user t w
  end.

Definition exec_all (ops : list Op) (w : World) : World :=
  fold_left (fun w o => exec o w) ops w.

(** The state of a record of [pending_routes] or [pending_guides]. *)
Definition is_pending_state (r : Pending.t) : Prop :=
  Pending.status r = pending /\ Pending.cloudId r = None.

Definition is_uploaded_state (r : Pending.t) : Prop :=
  Pending.status r = uploaded /\ Pending.cloudId r <> None /\
  Pending.uploadedAt r <> None.

Definition exactly_one (A B : Prop) : Prop := (A /\ ~ B) \/ (~ A /\ B).

Definition artifact_ok (r : Pending.t) : Prop :=
  exactly_one (is_pending_state r) (is_uploaded_state r).

Definition artifacts_ok (w : World) : Prop :=
  Forall artifact_ok (rows (pending_routes w)) /\
  Forall artifact_ok (rows (pending_guides w)).

(** The three object stores have unique keys issued by their generators. *)
Definition world_wf (w : World) : Prop :=
  store_wf (pending_routes w) /\
  store_wf (pending_guides w) /\
  store_wf (email_queue w).

(** ** Interleaved invocations of [syncAllPending] *)

(** An invocation: what is left of it, and the number of remote calls its
    own steps have made. *)
Record Pass := mkPass {
  task : Task;
  writes : nat
}.

Inductive Action :=
| Call              (* syncAllPending() is invoked *)
| Resume (i : nat). (* the promise awaited by the i-th invocation settles *)

Definition Config := (World * list Pass)%type.

Fixpoint set_nth {A : Type} (n : nat) (x : A) (l : list A) : list A :=
  match n, l with
  | _, [] => []
  | 0, _ :: rest => x :: rest
  | S m, y :: rest => y :: set_nth m x rest
  end.

Definition act (a : Action) (c : Config) : Config :=
  let (w, pool) := c in
  match a with
  | Call =>
      let (w1, t) := syncAllPending w in
      (w1, pool ++ [mkPass t (netCalls w1 - netCalls w)])
  | Resume i =>
      match nth_error pool i with
      | Some (mkPass (await k) n) =>
          let (w1, t) := k w in
          (w1, set_nth i (mkPass t (n + (netCalls w1 - netCalls w))) pool)
      | _ => c
      end
  end.

Definition interleave (acts : list Action) (c : Config) : Config :=
  fold_left (fun c a => act a c) acts c.

Definition is_done (t : Task) : bool :=
  match t with done => true | await _ => false end.

(** Some invocation of the pool has not returned yet. *)
Definition running (c : Config) : bool :=
  existsb (fun p => negb (is_done (task p))) (snd c).

(** The number of invocations that made at least one remote call. *)
Definition writers (c : Config) : nat :=
  List.length (filter (fun p => 0 <? writes p) (snd c)).

(** A suspended pass keeps [syncInProgress] set across each of its steps
    and clears it with the step after which it returns. *)
Fixpoint holds_flag (t : Task) : Prop :=
  match t with
  | done => True
  | await k =>
      forall w, syncInProgress w = true ->
        let (w1, t1) := k w in
        syncInProgress w1 = negb (is_done t1) /\ holds_flag t1
  end.

(** ** A sync pass that nothing interrupts *)

Definition store_of (sn : StoreName) (w : World) : ObjectStore Pending.t :=
  match sn with
  | store_routes => pending_routes w
  | store_guides => pending_guides w
  end.

Definition collection_of (sn : StoreName) : string :=
  match sn with
  | store_routes => "routes"
  | store_guides => "trail_guides"
  end.

Definition markUploaded (sn : StoreName) : nat -> CloudId -> World -> World :=
  match sn with
  | store_routes => markRouteUploaded
  | store_guides => markGuideUploaded
  end.

(** One turn of the loop over [pendingRoutes] or over [pendingGuides]. *)
Definition syncItem (sn : StoreName) (user : User) (item : Pending.t)
  (w : World) : World :=
  let (r, w1) :=
    remote (addDoc (collection_of sn) (Pending.data item) (uid user)) w in
  match r with
  | Some cloudId => markUploaded sn (Pending.localId item) cloudId w1
  | None => incrementRetryCount sn (Pending.localId item) w1
  end.

(** What the outcome of the upload does to the stored record. *)
Definition settle (outcome : option CloudId) (t : Timestamp) (r : Pending.t)
  : Pending.t :=
  match outcome with
  | Some cloudId => set_uploaded cloudId t r
  | None => set_retried t r
  end.

(** The two result toasts of [syncAllPending]. *)
Definition report (successCount failCount : nat) (w : World) : World :=
  fst (syncResults successCount failCount w).

(** The [addDoc] calls of a pass over the given records. *)
Definition uploads (sn : StoreName) (user : User) (l : list Pending.t)
  : list Event :=
  map (fun r => addDoc (collection_of sn) (Pending.data r) (uid user)) l.

(** What the relay pump leaves alone: it only writes [email_queue] and
    only adds remote calls and console output. *)
Definition relay_frame (w w' : World) : Prop :=
  pending_routes w' = pending_routes w /\
  pending_guides w' = pending_guides w /\
  timers w' = timers w /\
  (exists said, notices w' = notices w ++ said) /\
  isOnline w' = isOnline w /\
  syncInProgress w' = syncInProgress w /\
  emailJsLoaded w' = emailJsLoaded w /\
  emailjs w' = emailjs w /\
  network w' = network w /\
  now w' = now w /\
  currentUser w' = currentUser w /\
  pendingPhotos w' = pendingPhotos w /\
  pendingSurveys w' = pendingSurveys w /\
  exists rest, trace w' = trace w ++ rest.

(** What a sync pass leaves alone. *)
Definition sync_frame (w w' : World) : Prop :=
  timers w' = timers w /\
  isOnline w' = isOnline w /\
  emailJsLoaded w' = emailJsLoaded w /\
  emailjs w' = emailjs w /\
  network w' = network w /\
  now w' = now w /\
  currentUser w' = currentUser w /\
  navigator_onLine w' = navigator_onLine w /\
  pendingPhotos w' = pendingPhotos w /\
  pendingSurveys w' = pendingSurveys w.

(** ** The loop of the drain *)

(** [item.retryCount >= 3] does not hold. *)
Definition eligible (item : Email.t) : bool :=
  negb (3 <=? Email.retryCount item).

(** The [emailjs.send] calls of a pass over the given entries. *)
Definition relay_calls (cfg : EmailJSConfig) (l : list Email.t) : list Event :=
  if configured cfg then map (emailjs_send cfg) (filter eligible l) else [].

(** Whether [sendEmailBackup] resolves for an entry that is reached after
    the entries [before]. *)
Definition relay_resolves (w : World) (before : list Email.t) : bool :=
  if configured (emailjs w)
  then match network w (netCalls w + List.length (filter eligible before)) with
       | Some _ => true
       | None => false
       end
  else true.

Definition relay_settle (resolved : bool) (t : Timestamp) (item : Email.t)
  : Email.t :=
  if resolved then set_sent t item else set_email_retried item.

Definition is_send_for (id : nat) (e : Event) : bool :=
  match e with
  | emailjs_send _ item => Email.id item =? id
  | _ => false
  end.

(** How often the relay was asked to send the entry [id]. *)
Definition sends_for (id : nat) (tr : list Event) : nat :=
  List.length (filter (is_send_for id) tr).

(** Code that is entered with [syncInProgress] set keeps it set until it
    returns. *)
Definition code_holds_flag (c : Code) : Prop :=
  forall w, syncInProgress w = true ->
    syncInProgress (fst (c w)) = negb (is_done (snd (c w))) /\
    holds_flag (snd (c w)).

(** At most one invocation of the pool has not returned; it holds the
    flag. *)
Definition pool_ok (c : Config) : Prop :=
  forall i p,
    nth_error (snd c) i = Some p ->
    is_done (task p) = false ->
    syncInProgress (fst c) = true /\
    holds_flag (task p) /\
    forall j q, nth_error (snd c) j = Some q -> j <> i -> is_done (task q) = true.

(** A user is signed in and the routes and guides are those of [w0]. *)
Definition has_work (w0 w : World) : Prop :=
  currentUser w <> None /\
  pending_routes w = pending_routes w0 /\
  pending_guides w = pending_guides w0.

(** A suspended pass that, resumed where [R] holds, makes a remote call
    before it returns. *)
Fixpoint calls_before_done (R : World -> Prop) (t : Task) : Prop :=
  match t with
  | done => False
  | await k =>
      forall w, R w ->
        let (w1, t1) := k w in
        netCalls w < netCalls w1 \/
        (netCalls w1 = netCalls w /\ R w1 /\ calls_before_done R t1)
  end.

(** The first invocation of the pool has made a remote call, or still
    has the work of [w0] before it and will make one before it returns. *)
Definition first_will_call (w0 : World) (c : Config) : Prop :=
  exists p,
    nth_error (snd c) 0 = Some p /\
    (0 < writes p \/
     (has_work w0 (fst c) /\ calls_before_done (has_work w0) (task p))).

(** [P] holds now and after every step any invocation of the pool can
    still take. *)
Definition pool_preserves (P : World -> Prop) (c : Config) : Prop :=
  P (fst c) /\ Forall (fun p => task_preserves P (task p)) (snd c).

(** Two invocations: the first is resumed along [rs1], the second is made
    while the first has not returned, and both are then resumed along
    [rs2].  The property: exactly one of the two made a remote call. *)
Definition one_pass_writes (w : World) (rs1 rs2 : list nat) : Prop :=
  let c1 := interleave (Call :: map Resume rs1) (w, []) in
  running c1 = true ->
  writers (interleave (Call :: map Resume rs2) c1) = 1.

(** ** Connectivity handlers compared *)

Definition is_autoSync (t : Timer) : bool :=
  match callback t with
  | autoSync => true
  | _ => false
  end.

(** The timers that will call [syncAllPending]. *)
Definition scheduled_syncs (w : World) : list Timer :=
  filter is_autoSync (timers w).

(** The poll handles an offline-to-online flip with pending items as the
    [online] listener does: one sync scheduled after 3000 ms, and no remote
    call that the listener would not have made. *)
Definition poll_like_push (w : World) : Prop :=
  isOnline w = false ->
  navigator_onLine w = true ->
  0 < getPendingCount w ->
  scheduled_syncs (connectivityPoll w) =
    scheduled_syncs w ++ [mkTimer autoSync 3000%N] /\
  trace (connectivityPoll w) = trace (onOnline w).

(** ** Sample worlds *)

Definition no_config : EmailJSConfig := mkConfig "" "" "".

Definition full_config : EmailJSConfig := mkConfig "service" "template" "key".

Definition alice : User := mkUser "u1" (Some "alice@example.org") (Some "Alice").

(** A fresh instance: empty database, empty queues, online, nobody signed
    in, every remote call rejected. *)
Definition fresh : World :=
  mkWorld true false false createObjectStore createObjectStore
    createObjectStore [] [] no_config true None 7 false 100
    (fun _ => None) 0 [] [] [].

(** A signed-in, online instance with one pending route and a network
    that rejects every call. *)
Definition ready : World :=
  set_isOnline true
    (set_environment true (Some alice) 9
      (snd (saveRoute "Loop Trail" None (set_isOnline false fresh)))).

(** The instance [ready] with the EmailJS global already defined by the
    page and no EmailJS settings, after [loadEmailJS]. *)
Definition loaded_unconfigured : World :=
  loadEmailJS false (set_emailjs_defined true ready).

(** The same instance with a network that accepts every call. *)
Definition fresh_up : World :=
  mkWorld true false false createObjectStore createObjectStore
    createObjectStore [] [] no_config true None 7 false 100
    (fun _ => Some "doc") 0 [] [] [].

(** An online instance with the relay loaded and configured, and a
    network that accepts every call. *)
Definition relay_ready : World :=
  mkWorld true false true createObjectStore createObjectStore
    createObjectStore [] [] full_config true None 7 true 100
    (fun _ => Some "doc") 0 [] [] [].

(** Alice is signed in, the instance is online and has nothing to upload. *)
Definition nothing_pending : World :=
  set_environment true (Some alice) 9 fresh_up.

(** A photo and a survey that reached the retry cap. *)
Definition failed_photo : Photo.t :=
  Photo.mk 1 "data:image/jpeg;base64" "a.jpg" "image/jpeg" None None None 5
    failed 3 None None.

Definition failed_survey : Survey.t :=
  Survey.mk 2 "answers" None None 5 failed 3 None.

Definition pending_photo : Photo.t :=
  Photo.mk 1 "data:image/jpeg;base64" "a.jpg" "image/jpeg" None None None 5
    pending 0 None None.

(** A signed-in, online instance with one pending route and a network
    that accepts every call. *)
Definition ready_up : World :=
  set_isOnline true
    (set_environment true (Some alice) 9
      (snd (saveRoute "Loop Trail" None (set_isOnline false fresh_up)))).

(** One route saved while offline by nobody, then Alice signs in and the
    platform reports connectivity again; the instance has not noticed yet. *)
Definition one_pending_route : World :=
  set_environment true (Some alice) 9
    (snd (saveRoute "Loop Trail" None (set_isOnline false fresh))).

(** ** Deleting, single uploads and clean-up *)

Definition deleteLocalRoute (localId : nat) (w : World) : World :=
  set_pending_routes (delete localId (pending_routes w)) w.

Definition deleteLocalGuide (localId : nat) (w : World) : World :=
  set_pending_guides (delete localId (pending_guides w)) w.

(** [uploadSingleRoute(localId)]; the refresh of the modal is left out. *)
Definition uploadSingleRoute (localId : nat) (w : World) : World :=
  match currentUser w with
  | None => notify (toast error "Please sign in to upload") w
  | Some user =>
      match find (fun r => Pending.localId r =? localId) (getPendingRoutes w) with
      | None => notify (toast error "Route not found") w
      | Some route =>
          let w1 := notify (toast info "Uploading...") w in
          let (r, w2) := uploadRouteToCloud (Pending.data route) user w1 in
          match r with
          | Some cloudId =>
              notify (toast success "Route uploaded!")
                (markRouteUploaded localId cloudId w2)
          | None => notify (toast error "Upload failed") w2
          end
      end
  end.

Definition uploadSingleGuide (localId : nat) (w : World) : World :=
  match currentUser w with
  | None => notify (toast error "Please sign in to upload") w
  | Some user =>
      match find (fun g => Pending.localId g =? localId) (getPendingGuides w) with
      | None => notify (toast error "Guide not found") w
      | Some guide =>
          let w1 := notify (toast info "Uploading...") w in
          let (r, w2) := uploadGuideToCloud (Pending.data guide) user w1 in
          match r with
          | Some cloudId =>
              notify (toast success "Trail guide uploaded!")
                (markGuideUploaded localId cloudId w2)
          | None => notify (toast error "Upload failed") w2
          end
      end
  end.

(** [deleteRoute(localId)]; [confirmed] is the answer to [confirm(...)]. *)
Definition deleteRoute (confirmed : bool) (localId : nat) (w : World) : World :=
  if negb confirmed then w
  else notify (toast success "Route deleted") (deleteLocalRoute localId w).

Definition deleteGuide (confirmed : bool) (localId : nat) (w : World) : World :=
  if negb confirmed then w
  else notify (toast success "Guide deleted") (deleteLocalGuide localId w).

Definition is_uploaded (r : Pending.t) : bool :=
  status_eqb (Pending.status r) uploaded.

(** [clearUploaded()] *)
Definition clearUploaded (confirmed : bool) (w : World) : World :=
  if negb confirmed then w
  else
    let routes := getPendingRoutes w in
    let guides := getPendingGuides w in
    let w1 :=
      for_of (fun route => deleteLocalRoute (Pending.localId route))
        (filter is_uploaded routes) w in
    let w2 :=
      for_of (fun guide => deleteLocalGuide (Pending.localId guide))
        (filter is_uploaded guides) w1 in
    notify (toast success "Cleared uploaded items") w2.

(** [initialize()] on an instance whose database is open and whose
    listeners are the handlers above: [loadEmailJS], then the banner when
    something is pending and the instance is online. *)
Definition initialize (scriptLoads : bool) (w : World) : World :=
  let w1 := loadEmailJS scriptLoads w in
  let pendingCount := getPendingCount w1 in
  if 0 <? pendingCount
  then (if isOnline w1 then showPendingNotification pendingCount w1 else w1)
  else w1.

(** ** The variables of the email template *)

(** [content.substring(0, 5000)] *)
Definition content_limit : nat := N.to_nat 5000%N.

Record TemplateParams := mkParams {
  to_email : string;
  content_type : Kind;
  user_name : string;
  user_email : string;
  backup_data : string;
  template_timestamp : Timestamp;
  local_id : nat
}.

(** The object passed to [emailjs.send]; [stringify] stands for
    [JSON.stringify(data, null, 2)] and [backupEmail] for
    [getBackupEmail()].  The [subject], a formatted date, is left out. *)
Definition templateParams (stringify : Pending.t -> string)
  (backupEmail : string) (emailItem : Email.t) : TemplateParams :=
  let data := Email.data emailItem in
  mkParams backupEmail (Email.type emailItem)
    (or_else (Pending.userName data) "Anonymous")
    (opt_or_else (Pending.userEmail data) "Not provided")
    (substring 0 content_limit (stringify data))
    (Pending.timestamp data)
    (Pending.localId data).

(** ** Every operation of the instance *)

Inductive Command :=
| cmd_op (o : Op)
| cmd_uploadSingleRoute (localId : nat)
| cmd_uploadSingleGuide (localId : nat)
| cmd_deleteRoute (confirmed : bool) (localId : nat)
| cmd_deleteGuide (confirmed : bool) (localId : nat)
| cmd_clearUploaded (confirmed : bool)
| cmd_queuePhoto (photoData : PhotoData) (context : Context)
| cmd_queueSurvey (surveyData : Data) (context : Context)
| cmd_processPhotoQueue
| cmd_processSurveyQueue
| cmd_loadEmailJS (scriptLoads : bool)
| cmd_initialize (scriptLoads : bool).

Definition perform (c : Command) (w : World) : World :=
  match c with
  | cmd_op o => exec o w
  | cmd_uploadSingleRoute localId => uploadSingleRoute localId w
  | cmd_uploadSingleGuide localId => uploadSingleGuide localId w
  | cmd_deleteRoute confirmed localId => deleteRoute confirmed localId w
  | cmd_deleteGuide confirmed localId => deleteGuide confirmed localId w
  | cmd_clearUploaded confirmed => clearUploaded confirmed w
  | cmd_queuePhoto photoData context => snd (queuePhoto photoData context w)
  | cmd_queueSurvey surveyData context => snd (queueSurvey surveyData context w)
  | cmd_processPhotoQueue => processPhotoQueue w
  | cmd_processSurveyQueue => processSurveyQueue w
  | cmd_loadEmailJS scriptLoads => loadEmailJS scriptLoads w
  | cmd_initialize scriptLoads => initialize scriptLoads w
  end.

Definition perform_all (cs : list Command) (w : World) : World :=
  fold_left (fun w c => perform c w) cs w.

(** Two worlds with the same object stores. *)
Definition same_stores (w w' : World) : Prop :=
  pending_routes w' = pending_routes w /\
  pending_guides w' = pending_guides w /\
  email_queue w' = email_queue w.

(** Two worlds with the same stores, queues and timers. *)
Definition same_data (w w' : World) : Prop :=
  pending_routes w' = pending_routes w /\
  pending_guides w' = pending_guides w /\
  email_queue w' = email_queue w /\
  pendingPhotos w' = pendingPhotos w /\
  pendingSurveys w' = pendingSurveys w /\
  timers w' = timers w.

Definition not_uploaded (p : Photo.t) : bool :=
  negb (status_eqb (Photo.status p) uploaded).

Definition not_submitted (s : Survey.t) : bool :=
  negb (status_eqb (Survey.status s) submitted).

(** [P] speaks of the stores, the queues and the timers only, and
    survives every write the instance makes to them. *)
Record cmd_stable (P : World -> Prop) : Prop := {
  c_sync : sync_stable P;
  c_frame : forall w w', same_data w w' -> P w -> P w';
  c_savePendingRoute : forall r w,
    Pending.status r = pending -> Pending.cloudId r = None ->
    P w -> P (snd (savePendingRoute r w));
  c_savePendingGuide : forall r w,
    Pending.status r = pending -> Pending.cloudId r = None ->
    P w -> P (snd (savePendingGuide r w));
  c_queueEmailBackup : forall type data w,
    P w -> P (snd (queueEmailBackup type data w));
  c_deleteLocalRoute : forall id w, P w -> P (deleteLocalRoute id w);
  c_deleteLocalGuide : forall id w, P w -> P (deleteLocalGuide id w);
  c_setTimeout : forall cb ms w,
    cb = autoSync \/ cb = removeBanner -> P w -> P (setTimeout cb ms w);
  c_remove_timer : forall n w,
    P w -> P (set_timers (remove_nth n (timers w)) w);
  c_prunePhotos : forall n t l w,
    nth_error (timers w) n = Some t -> callback t = prunePhotos l ->
    P w ->
    P (set_pendingPhotos (filter not_uploaded l)
         (set_timers (remove_nth n (timers w)) w));
  c_pruneSurveys : forall n t l w,
    nth_error (timers w) n = Some t -> callback t = pruneSurveys l ->
    P w ->
    P (set_pendingSurveys (filter not_submitted l)
         (set_timers (remove_nth n (timers w)) w));
  c_push_photo : forall p w,
    Photo.status p = pending -> Photo.retryCount p = 0 ->
    P w -> P (set_pendingPhotos (pendingPhotos w ++ [p]) w);
  c_push_survey : forall s w,
    Survey.status s = pending -> Survey.retryCount s = 0 ->
    P w -> P (set_pendingSurveys (pendingSurveys w ++ [s]) w);
  c_processPhotoQueue : forall w, P w -> P (processPhotoQueue w);
  c_processSurveyQueue : forall w, P w -> P (processSurveyQueue w)
}.

Arguments c_sync {P} _.
Arguments c_frame {P} _ _ _ _ _.
Arguments c_savePendingRoute {P} _ _ _ _ _ _.
Arguments c_savePendingGuide {P} _ _ _ _ _ _.
Arguments c_queueEmailBackup {P} _ _ _ _ _.
Arguments c_deleteLocalRoute {P} _ _ _ _.
Arguments c_deleteLocalGuide {P} _ _ _ _.
Arguments c_setTimeout {P} _ _ _ _ _ _.
Arguments c_remove_timer {P} _ _ _ _.
Arguments c_prunePhotos {P} _ _ _ _ _ _ _ _.
Arguments c_pruneSurveys {P} _ _ _ _ _ _ _ _.
Arguments c_push_photo {P} _ _ _ _ _ _.
Arguments c_push_survey {P} _ _ _ _ _ _.
Arguments c_processPhotoQueue {P} _ _ _.
Arguments c_processSurveyQueue {P} _ _ _.

(** ** The history of a record *)

(** [r] is a later state of the record [r0]: what was written when it
    was saved is the same, the retry count has not gone down, and once
    uploaded it is still uploaded. *)
Definition evolves (r0 r : Pending.t) : Prop :=
  Pending.localId r = Pending.localId r0 /\
  Pending.data r = Pending.data r0 /\
  Pending.userId r = Pending.userId r0 /\
  Pending.userEmail r = Pending.userEmail r0 /\
  Pending.userName r = Pending.userName r0 /\
  Pending.timestamp r = Pending.timestamp r0 /\
  Pending.retryCount r0 <= Pending.retryCount r /\
  (Pending.status r0 = uploaded -> Pending.status r = uploaded).

(** The key [id] has been issued by the store and the record stored under
    it, if it is still stored, is a later state of [r0]. *)
Definition store_history (id : nat) (r0 : Pending.t) (s : ObjectStore Pending.t)
  : Prop :=
  store_wf s /\ id < keyGen s /\
  forall r, get id s = Some r -> evolves r0 r.

Definition history (sn : StoreName) (id : nat) (r0 : Pending.t) (w : World)
  : Prop :=
  store_history id r0 (store_of sn w).

(** Membership in a list of keys. *)
Definition in_keys (k : nat) (ids : list nat) : bool := existsb (Nat.eqb k) ids.

(** ** The life of an outbox entry *)

(** A step that leaves the outbox alone: the store [email_queue] is the
    same and the relay was not asked to send anything. *)
Definition outbox_quiet (w w' : World) : Prop :=
  email_queue w' = email_queue w /\
  forall id, sends_for id (trace w') = sends_for id (trace w).

(** The entry [id] of the outbox is stored as [e0], and the relay has
    been asked to send as often as in the trace [t0]. *)
Definition outbox_kept (id : nat) (e0 : Email.t) (t0 : list Event) (w : World)
  : Prop :=
  store_wf (email_queue w) /\
  get id (email_queue w) = Some e0 /\
  forall k, sends_for k (trace w) = sends_for k t0.

(** An online instance with the relay loaded and configured, a network
    that rejects every call, and one route saved by Alice. *)
Definition relay_down : World :=
  snd (saveRoute "Loop Trail" (Some alice)
    (mkWorld true false true createObjectStore createObjectStore
       createObjectStore [] [] full_config true (Some alice) 7 true 100
       (fun _ => None) 0 [] [] [])).

(** ** The state of a queued photo or survey *)

(** What the status of a queued photo says about its other fields. *)
Definition photo_ok (p : Photo.t) : Prop :=
  match Photo.status p with
  | pending => Photo.retryCount p < 3
  | failed => 3 <= Photo.retryCount p
  | uploaded => Photo.downloadUrl p <> None /\ Photo.uploadedAt p <> None
  | submitted => False
  end.

Definition survey_ok (s : Survey.t) : Prop :=
  match Survey.status s with
  | pending => Survey.retryCount s < 3
  | failed => 3 <= Survey.retryCount s
  | submitted => Survey.submittedAt s <> None
  | uploaded => False
  end.

(** The array a scheduled prune will write back. *)
Definition timer_ok (t : Timer) : Prop :=
  match callback t with
  | prunePhotos l => Forall photo_ok l
  | pruneSurveys l => Forall survey_ok l
  | _ => True
  end.

Definition queues_ok (w : World) : Prop :=
  Forall photo_ok (pendingPhotos w) /\
  Forall survey_ok (pendingSurveys w) /\
  Forall timer_ok (timers w).

(** ** Commands that look at [isOnline] *)

(** The commands that neither set [isOnline] nor call the network without
    looking at it.  Left out: the two connectivity handlers, which set the
    flag, and [uploadSingleRoute], [uploadSingleGuide], [processPhotoQueue]
    and [processSurveyQueue], which do not test it. *)
Definition respects_offline (c : Command) : bool :=
  match c with
  | cmd_op op_onOnline => false
  | cmd_op op_connectivityPoll => false
  | cmd_uploadSingleRoute _ => false
  | cmd_uploadSingleGuide _ => false
  | cmd_processPhotoQueue => false
  | cmd_processSurveyQueue => false
  | _ => true
  end.

(** The instance holds itself offline and has made the remote calls [t0],
    [n0] of them. *)
Definition offline_at (t0 : list Event) (n0 : nat) (w : World) : Prop :=
  isOnline w = false /\ trace w = t0 /\ netCalls w = n0.

(** * Properties *)

(** ** Object stores *)

Lemma status_eqb_eq a b : status_eqb a b = true <-> a = b.
Proof. destruct a, b; simpl; split; congruence. Qed.

Lemma status_eqb_neq a b : status_eqb a b = false <-> a <> b.
Proof. destruct a, b; simpl; split; congruence. Qed.

Lemma NoDup_snoc {A : Type} (l : list A) (a : A) :
  NoDup l -> ~ In a l -> NoDup (l ++ [a]).
Proof.
  induction l as [|x l IH]; simpl; intros Hnd Hn.
  - constructor; [intros []|constructor].
  - inversion Hnd as [|? ? Hx Hnd']; subst. constructor.
    + rewrite in_app_iff. simpl. intros [Hin|[->|[]]]; tauto.
    + apply IH; tauto.
Qed.

Lemma find_app {A : Type} (p : A -> bool) (l1 l2 : list A) :
  find p (l1 ++ l2) =
  match find p l1 with Some x => Some x | None => find p l2 end.
Proof.
  induction l1 as [|x l1 IH]; simpl; [reflexivity|].
  destruct (p x); [reflexivity|exact IH].
Qed.

Section ObjectStoreFacts.
Context {R : Type} `{KeyPath R}.

Lemma has_key_true k (r : R) : has_key k r = true <-> key r = k.
Proof. unfold has_key. apply Nat.eqb_eq. Qed.

Lemma has_key_false k (r : R) : has_key k r = false <-> key r <> k.
Proof. unfold has_key. apply Nat.eqb_neq. Qed.

Lemma get_Some k (s : ObjectStore R) r :
  get k s = Some r -> In r (rows s) /\ key r = k.
Proof.
  unfold get. intros Hf. apply find_some in Hf.
  destruct Hf as [Hin Hk]. now apply has_key_true in Hk.
Qed.

Lemma get_None k (s : ObjectStore R) :
  get k s = None <-> ~ In k (map key (rows s)).
Proof.
  unfold get. split.
  - intros Hf Hin. apply in_map_iff in Hin. destruct Hin as [r [Hk Hr]].
    pose proof (find_none _ _ Hf _ Hr) as Hn.
    apply has_key_false in Hn. contradiction.
  - intros Hn. destruct (find (has_key k) (rows s)) eqn:Hf; [|reflexivity].
    apply find_some in Hf. destruct Hf as [Hin Hk].
    apply has_key_true in Hk. exfalso. apply Hn. rewrite <- Hk.
    now apply in_map.
Qed.

Lemma find_unique k (l : list R) r :
  NoDup (map key l) -> In r l -> key r = k -> find (has_key k) l = Some r.
Proof.
  induction l as [|x l IH]; simpl; intros Hnd Hin Hk; [contradiction|].
  inversion Hnd as [|? ? Hx Hnd']; subst.
  destruct Hin as [->|Hin].
  - now rewrite (proj2 (has_key_true _ _) eq_refl).
  - destruct (has_key (key r) x) eqn:Hx'.
    + apply has_key_true in Hx'. exfalso. apply Hx. rewrite Hx'.
      now apply in_map.
    + now apply IH.
Qed.

Lemma In_get (s : ObjectStore R) r :
  store_wf s -> In r (rows s) -> get (key r) s = Some r.
Proof. intros [Hnd _] Hin. unfold get. now apply find_unique. Qed.

Lemma existsb_has_key k (l : list R) r :
  find (has_key k) l = Some r -> existsb (has_key k) l = true.
Proof.
  intros Hf. apply find_some in Hf. apply existsb_exists. now exists r.
Qed.

(** [put] of a record whose key is stored replaces in place. *)
Lemma put_present r r0 (s : ObjectStore R) :
  get (key r) s = Some r0 ->
  put r s =
  mkStore (keyGen s) (map (fun x => if has_key (key r) x then r else x) (rows s)).
Proof.
  unfold get, put. intros Hf. now rewrite (existsb_has_key _ _ _ Hf).
Qed.

Lemma find_replace_same r (l : list R) r0 :
  find (has_key (key r)) l = Some r0 ->
  find (has_key (key r)) (map (fun x => if has_key (key r) x then r else x) l)
  = Some r.
Proof.
  induction l as [|x l IH]; simpl; [discriminate|].
  destruct (has_key (key r) x) eqn:Hx; simpl.
  - intros _. now rewrite (proj2 (has_key_true _ _) eq_refl).
  - rewrite Hx. exact IH.
Qed.

Lemma find_replace_other k r (l : list R) :
  k <> key r ->
  find (has_key k) (map (fun x => if has_key (key r) x then r else x) l)
  = find (has_key k) l.
Proof.
  intros Hk. induction l as [|x l IH]; simpl; [reflexivity|].
  destruct (has_key (key r) x) eqn:Hx.
  - apply has_key_true in Hx.
    assert (has_key k r = false) as -> by (apply has_key_false; congruence).
    assert (has_key k x = false) as -> by (apply has_key_false; congruence).
    exact IH.
  - destruct (has_key k x); [reflexivity|exact IH].
Qed.

Lemma keys_replace r (l : list R) :
  map key (map (fun x => if has_key (key r) x then r else x) l) = map key l.
Proof.
  induction l as [|x l IH]; simpl; [reflexivity|].
  rewrite IH. destruct (has_key (key r) x) eqn:Hx; [|reflexivity].
  apply has_key_true in Hx. now rewrite Hx.
Qed.

Lemma get_put_same r r0 (s : ObjectStore R) :
  get (key r) s = Some r0 -> get (key r) (put r s) = Some r.
Proof.
  intros Hg. rewrite (put_present _ _ _ Hg). unfold get in *. simpl.
  eapply find_replace_same; eauto.
Qed.

Lemma get_put_other k r r0 (s : ObjectStore R) :
  get (key r) s = Some r0 -> k <> key r -> get k (put r s) = get k s.
Proof.
  intros Hg Hk. rewrite (put_present _ _ _ Hg). unfold get. simpl.
  now apply find_replace_other.
Qed.

Lemma Forall_put (P : R -> Prop) r (s : ObjectStore R) :
  Forall P (rows s) -> P r -> Forall P (rows (put r s)).
Proof.
  intros Hall Hr. unfold put.
  destruct (existsb (has_key (key r)) (rows s)); simpl.
  - apply Forall_forall. intros x Hx. apply in_map_iff in Hx.
    destruct Hx as [y [<- Hy]]. destruct (has_key (key r) y); [assumption|].
    eapply Forall_forall; eauto.
  - apply Forall_app. split; [|constructor; [assumption|]];
      apply Forall_forall; intros x Hx; apply filter_In in Hx;
      destruct Hx as [Hx _]; eapply Forall_forall; eauto.
Qed.

Lemma store_wf_put r r0 (s : ObjectStore R) :
  get (key r) s = Some r0 -> store_wf s -> store_wf (put r s).
Proof.
  intros Hg [Hnd Hlt]. rewrite (put_present _ _ _ Hg). split; simpl.
  - now rewrite keys_replace.
  - apply Forall_forall. intros x Hx. apply in_map_iff in Hx.
    destruct Hx as [y [<- Hy]].
    destruct (has_key (key r) y) eqn:Hk.
    + apply has_key_true in Hk. rewrite <- Hk.
      eapply Forall_forall in Hlt; eauto.
    + eapply Forall_forall in Hlt; eauto.
Qed.

(** *** Read-modify-write *)

Section Modify.
Variable f : R -> R.
Hypothesis f_key : forall r, key (f r) = key r.

Lemma get_modify_same k (s : ObjectStore R) :
  get k (modify k f s) = option_map f (get k s).
Proof.
  unfold modify. destruct (get k s) as [r|] eqn:Hg; simpl; [|assumption].
  destruct (get_Some _ _ _ Hg) as [_ Hk].
  rewrite <- Hk in Hg |- *. rewrite <- (f_key r) in Hg |- *.
  eapply get_put_same; eauto.
Qed.

Lemma get_modify_other k k' (s : ObjectStore R) :
  k' <> k -> get k' (modify k f s) = get k' s.
Proof.
  intros Hk. unfold modify. destruct (get k s) as [r|] eqn:Hg; [|reflexivity].
  destruct (get_Some _ _ _ Hg) as [_ Hkr].
  rewrite <- Hkr, <- (f_key r) in Hg.
  eapply get_put_other; eauto. rewrite f_key. congruence.
Qed.

Lemma modify_absent k (s : ObjectStore R) :
  get k s = None -> modify k f s = s.
Proof. unfold modify. now intros ->. Qed.

Lemma store_wf_modify k (s : ObjectStore R) :
  store_wf s -> store_wf (modify k f s).
Proof.
  intros Hwf. unfold modify. destruct (get k s) as [r|] eqn:Hg; [|assumption].
  destruct (get_Some _ _ _ Hg) as [_ Hkr].
  rewrite <- Hkr, <- (f_key r) in Hg.
  eapply store_wf_put; eauto.
Qed.

Lemma Forall_modify (P : R -> Prop) k (s : ObjectStore R) :
  (forall r, P r -> P (f r)) ->
  Forall P (rows s) -> Forall P (rows (modify k f s)).
Proof.
  intros Hf Hall. unfold modify. destruct (get k s) as [r|] eqn:Hg; [|assumption].
  apply Forall_put; [assumption|]. apply Hf.
  destruct (get_Some _ _ _ Hg) as [Hin _]. eapply Forall_forall; eauto.
Qed.

Lemma keyGen_modify k (s : ObjectStore R) :
  keyGen (modify k f s) = keyGen s.
Proof.
  unfold modify. destruct (get k s) as [r|] eqn:Hg; [|reflexivity].
  destruct (get_Some _ _ _ Hg) as [_ Hkr].
  rewrite <- Hkr, <- (f_key r) in Hg. now rewrite (put_present _ _ _ Hg).
Qed.

Lemma keys_modify k (s : ObjectStore R) :
  map key (rows (modify k f s)) = map key (rows s).
Proof.
  unfold modify. destruct (get k s) as [r|] eqn:Hg; [|reflexivity].
  destruct (get_Some _ _ _ Hg) as [_ Hkr].
  rewrite <- Hkr, <- (f_key r) in Hg. rewrite (put_present _ _ _ Hg). simpl.
  apply keys_replace.
Qed.

End Modify.

(** *** Adding a record *)

Lemma store_wf_create : store_wf (@createObjectStore R).
Proof. split; simpl; constructor. Qed.

Lemma store_wf_add r (s : ObjectStore R) :
  store_wf s -> store_wf (snd (add r s)).
Proof.
  intros [Hnd Hlt]. split; simpl.
  - rewrite map_app. simpl. rewrite key_with_key.
    apply NoDup_snoc; [assumption|]. intros Hin. apply in_map_iff in Hin.
    destruct Hin as [x [Hk Hx]]. eapply Forall_forall in Hlt; eauto.
    simpl in Hlt. lia.
  - apply Forall_app. split.
    + eapply Forall_impl; [|exact Hlt]. simpl. intros; lia.
    + constructor; [|constructor]. rewrite key_with_key. lia.
Qed.

Lemma get_add_new r (s : ObjectStore R) :
  store_wf s ->
  get (keyGen s) (snd (add r s)) = Some (with_key (keyGen s) r).
Proof.
  intros [_ Hlt]. unfold get. simpl. rewrite find_app.
  destruct (find (has_key (keyGen s)) (rows s)) as [x|] eqn:Hf.
  - apply find_some in Hf. destruct Hf as [Hin Hk].
    apply has_key_true in Hk. eapply Forall_forall in Hlt; eauto. lia.
  - simpl. now rewrite (proj2 (has_key_true _ _) (key_with_key _ _)).
Qed.

Lemma get_add_old k r (s : ObjectStore R) :
  k <> keyGen s -> get k (snd (add r s)) = get k s.
Proof.
  intros Hk. unfold get. simpl. rewrite find_app.
  destruct (find (has_key k) (rows s)); [reflexivity|]. simpl.
  assert (has_key k (with_key (keyGen s) r) = false) as ->; [|reflexivity].
  apply has_key_false. rewrite key_with_key. congruence.
Qed.

Lemma Forall_add (P : R -> Prop) r (s : ObjectStore R) :
  Forall P (rows s) -> P (with_key (keyGen s) r) ->
  Forall P (rows (snd (add r s))).
Proof.
  intros Hall Hr. simpl. apply Forall_app. split; [assumption|].
  now constructor.
Qed.

End ObjectStoreFacts.

(** ** Store transactions seen as read-modify-write *)

Lemma set_uploaded_key c t r : key (set_uploaded c t r) = key r.
Proof. reflexivity. Qed.

Lemma set_retried_key t r : key (set_retried t r) = key r.
Proof. reflexivity. Qed.

Lemma set_sent_key t r : key (set_sent t r) = key r.
Proof. reflexivity. Qed.

Lemma set_email_retried_key r : key (set_email_retried r) = key r.
Proof. reflexivity. Qed.

Lemma markRouteUploaded_modify localId cloudId w :
  markRouteUploaded localId cloudId w =
  set_pending_routes
    (modify localId (set_uploaded cloudId (now w)) (pending_routes w)) w.
Proof.
  unfold markRouteUploaded, modify.
  destruct (get localId (pending_routes w)); [reflexivity|].
  now destruct w.
Qed.

Lemma markGuideUploaded_modify localId cloudId w :
  markGuideUploaded localId cloudId w =
  set_pending_guides
    (modify localId (set_uploaded cloudId (now w)) (pending_guides w)) w.
Proof.
  unfold markGuideUploaded, modify.
  destruct (get localId (pending_guides w)); [reflexivity|].
  now destruct w.
Qed.

Lemma incrementRetryCount_routes localId w :
  incrementRetryCount store_routes localId w =
  set_pending_routes (modify localId (set_retried (now w)) (pending_routes w)) w.
Proof.
  unfold incrementRetryCount, modify.
  destruct (get localId (pending_routes w)); [reflexivity|].
  now destruct w.
Qed.

Lemma incrementRetryCount_guides localId w :
  incrementRetryCount store_guides localId w =
  set_pending_guides (modify localId (set_retried (now w)) (pending_guides w)) w.
Proof.
  unfold incrementRetryCount, modify.
  destruct (get localId (pending_guides w)); [reflexivity|].
  now destruct w.
Qed.

Lemma markEmailSent_modify id w :
  markEmailSent id w =
  set_email_queue (modify id (set_sent (now w)) (email_queue w)) w.
Proof.
  unfold markEmailSent, modify.
  destruct (get id (email_queue w)); [reflexivity|].
  now destruct w.
Qed.

Lemma incrementEmailRetry_modify id w :
  incrementEmailRetry id w =
  set_email_queue (modify id set_email_retried (email_queue w)) w.
Proof.
  unfold incrementEmailRetry, modify.
  destruct (get id (email_queue w)); [reflexivity|].
  now destruct w.
Qed.

(** ** Stable properties *)

Section Stable.
Variable P : World -> Prop.

Lemma complete_preserves t :
  task_preserves P t -> forall w, P w -> P (complete t w).
Proof.
  induction t as [|k IH] using Task_induction; simpl; intros Ht w Hw.
  - assumption.
  - destruct (Ht w Hw) as [H1 H2]. specialize (IH w).
    destruct (k w) as [w1 t1]. simpl in *. now apply IH.
Qed.

Lemma run_preserves c :
  code_preserves P c -> forall w, P w -> P (run c w).
Proof.
  intros Hc w Hw. unfold run. destruct (Hc w Hw) as [H1 H2].
  destruct (c w) as [w1 t]. simpl in *. now apply complete_preserves.
Qed.

Lemma for_of_preserves {A : Type} (body : A -> World -> World) xs :
  (forall x w, P w -> P (body x w)) ->
  forall w, P w -> P (for_of body xs w).
Proof.
  intros Hb. induction xs as [|x xs IH]; simpl; intros w Hw; [assumption|].
  apply IH. now apply Hb.
Qed.

Lemma sendEmailBackup_preserves item w :
  email_stable P -> P w -> P (snd (sendEmailBackup item w)).
Proof.
  intros Hs Hw. unfold sendEmailBackup.
  destruct (negb (configured (emailjs w))); [assumption|].
  pose proof (stable_remote Hs (emailjs_send (emailjs w) item) w Hw) as Hr.
  destruct (remote (emailjs_send (emailjs w) item) w) as [r w1]. exact Hr.
Qed.

Lemma processEmailItem_preserves item w :
  email_stable P -> P w -> P (processEmailItem item w).
Proof.
  intros Hs Hw. unfold processEmailItem.
  destruct (3 <=? Email.retryCount item); [assumption|].
  pose proof (sendEmailBackup_preserves item w Hs Hw) as Hr.
  destruct (sendEmailBackup item w) as [[[]|] w1]; simpl in Hr.
  - now apply (stable_markEmailSent Hs).
  - now apply (stable_incrementEmailRetry Hs).
Qed.

(** The query of the drain throws: the loop is not entered and the
    exception is logged. *)
Lemma processEmailQueue_throws w :
  processEmailQueue w =
  if negb (emailJsLoaded w) || negb (isOnline w) then w
  else notify (console error "Error processing email queue") w.
Proof. reflexivity. Qed.

Lemma processEmailQueue_preserves w :
  (forall n w', P w' -> P (notify n w')) -> P w -> P (processEmailQueue w).
Proof.
  intros Hn Hw. rewrite processEmailQueue_throws.
  destruct (negb (emailJsLoaded w) || negb (isOnline w)); [assumption|].
  now apply Hn.
Qed.

Lemma syncResults_preserves sc fc :
  sync_stable P -> code_preserves P (syncResults sc fc).
Proof.
  intros Hs w Hw. unfold syncResults. cbn [fst snd task_preserves].
  assert (Hn : forall n (b : bool) w, P w -> P (if b then notify n w else w)).
  { intros n [] w' Hw'; [now apply (stable_notify Hs)|assumption]. }
  split; [now apply Hn, Hn|].
  intros w' Hw'. cbn [fst snd task_preserves]. split; [|exact I].
  apply (stable_flag Hs).
  now apply processEmailQueue_preserves; [apply (stable_notify Hs)|].
Qed.

Lemma syncRoutes_preserves l user k :
  sync_stable P ->
  (forall sc fc, code_preserves P (k sc fc)) ->
  forall sc fc, code_preserves P (syncRoutes l user sc fc k).
Proof.
  intros Hs Hk. induction l as [|r l IH]; intros sc fc w Hw;
    cbn [syncRoutes fst snd task_preserves].
  - now apply Hk.
  - split; [assumption|]. intros w1 Hw1.
    unfold uploadRouteToCloud.
    pose proof (stable_remote (stable_email Hs)
                  (addDoc "routes" (Pending.data r) (uid user)) w1 Hw1) as Hr.
    destruct (remote (addDoc "routes" (Pending.data r) (uid user)) w1)
      as [[c|] w2]; cbn [fst snd task_preserves] in *;
      (split; [assumption|]); intros w3 Hw3.
    + apply IH. now apply (stable_markRouteUploaded Hs).
    + apply IH. now apply (stable_incrementRetryCount Hs).
Qed.

Lemma syncGuides_preserves l user k :
  sync_stable P ->
  (forall sc fc, code_preserves P (k sc fc)) ->
  forall sc fc, code_preserves P (syncGuides l user sc fc k).
Proof.
  intros Hs Hk. induction l as [|r l IH]; intros sc fc w Hw;
    cbn [syncGuides fst snd task_preserves].
  - now apply Hk.
  - split; [assumption|]. intros w1 Hw1.
    unfold uploadGuideToCloud.
    pose proof (stable_remote (stable_email Hs)
                  (addDoc "trail_guides" (Pending.data r) (uid user)) w1 Hw1) as Hr.
    destruct (remote (addDoc "trail_guides" (Pending.data r) (uid user)) w1)
      as [[c|] w2]; cbn [fst snd task_preserves] in *;
      (split; [assumption|]); intros w3 Hw3.
    + apply IH. now apply (stable_markGuideUploaded Hs).
    + apply IH. now apply (stable_incrementRetryCount Hs).
Qed.

Lemma syncAllPending_preserves :
  sync_stable P -> code_preserves P syncAllPending.
Proof.
  intros Hs w Hw. unfold syncAllPending.
  destruct (syncInProgress w); cbn [fst snd task_preserves].
  { split; [now apply (stable_notify Hs)|exact I]. }
  destruct (negb (isOnline w)); cbn [fst snd task_preserves].
  { split; [now apply (stable_notify Hs)|exact I]. }
  split; [now apply (stable_flag Hs)|].
  intros w1 Hw1. destruct (currentUser w1) as [user|];
    cbn [fst snd task_preserves].
  2:{ split; [|exact I]. now apply (stable_flag Hs), (stable_notify Hs). }
  split; [assumption|]. intros w2 Hw2. cbn [fst snd task_preserves].
  split; [assumption|]. intros w3 Hw3.
  match goal with |- context [if ?b then _ else _] => destruct b end.
  { cbn [fst snd task_preserves]. split; [|exact I].
    now apply (stable_flag Hs), (stable_notify Hs). }
  apply syncRoutes_preserves; [assumption| |now apply (stable_notify Hs)].
  intros sc fc. apply syncGuides_preserves; [assumption|].
  intros sc' fc'. now apply syncResults_preserves.
Qed.

Lemma run_syncAllPending_preserves w :
  sync_stable P -> P w -> P (run syncAllPending w).
Proof.
  intros Hs. apply run_preserves. now apply syncAllPending_preserves.
Qed.

End Stable.

(** ** Stable properties and overlapping invocations *)

Lemma Forall_set_nth {A : Type} (Q : A -> Prop) i x l :
  Forall Q l -> Q x -> Forall Q (set_nth i x l).
Proof.
  revert i. induction l as [|y l IH]; intros [|i] Hl Hx; cbn [set_nth];
    try exact Hl; inversion Hl; subst; constructor; auto.
Qed.

Lemma pool_preserves_act (P : World -> Prop) a c :
  sync_stable P -> pool_preserves P c -> pool_preserves P (act a c).
Proof.
  intros Hs [Hw Hpool]. destruct c as [w pool]. cbn [fst snd] in *.
  destruct a as [|i]; cbn [act].
  - destruct (syncAllPending_preserves P Hs w Hw) as [H1 H2].
    destruct (syncAllPending w) as [w1 t]. cbn [fst snd] in *.
    split; [exact H1|]. apply Forall_app. split; [exact Hpool|].
    constructor; [exact H2|constructor].
  - destruct (nth_error pool i) as [[[|k] n]|] eqn:Hi; try (split; assumption).
    pose proof (proj1 (Forall_forall _ _) Hpool _ (nth_error_In _ _ Hi)) as Hk.
    cbn [task task_preserves] in Hk. destruct (Hk w Hw) as [H1 H2].
    destruct (k w) as [w1 t1]. cbn [fst snd] in *.
    split; [exact H1|]. now apply Forall_set_nth.
Qed.

(** A property that every step of a pass keeps holds throughout every
    interleaving of invocations. *)
Lemma pool_preserves_interleave (P : World -> Prop) acts w :
  sync_stable P -> P w -> P (fst (interleave acts (w, []))).
Proof.
  intros Hs Hw.
  assert (H : forall c, pool_preserves P c -> pool_preserves P (interleave acts c)).
  { unfold interleave.
    induction acts as [|a acts IH]; intros c Hc; cbn [fold_left]; [exact Hc|].
    apply IH. now apply pool_preserves_act. }
  apply (H (w, [])). split; [exact Hw|constructor].
Qed.

(** ** Properties kept by every operation *)

Section OpStable.
Variable P : World -> Prop.
Hypothesis HP : op_stable P.

Ltac same_stores :=
  match goal with
  | H : P ?w |- P _ =>
      apply (op_stores HP w); [reflexivity|reflexivity|reflexivity|exact H]
  end.

Lemma newPending_pending payload user w :
  Pending.status (newPending payload user w) = pending /\
  Pending.cloudId (newPending payload user w) = None.
Proof. now split. Qed.

Lemma saveRoute_preserves routeData user w :
  P w -> P (snd (saveRoute routeData user w)).
Proof.
  intros Hw. unfold saveRoute.
  pose proof (op_savePendingRoute HP (newPending routeData user w) w
                eq_refl eq_refl Hw) as H1.
  destruct (savePendingRoute (newPending routeData user w) w) as [localId w1].
  cbn [snd] in H1.
  pose proof (op_queueEmailBackup HP Route
                (with_key localId (newPending routeData user w)) w1 H1) as H2.
  destruct (queueEmailBackup Route _ w1) as [k w2]. cbn [snd] in H2.
  assert (Hlocal : forall n, P (processEmailQueue (notify n w2))).
  { intros n. apply processEmailQueue_preserves;
      [apply (stable_notify (op_sync HP))|].
    now apply (stable_notify (op_sync HP)). }
  destruct (isOnline w2); [|apply Hlocal].
  destruct user as [u|]; [|apply Hlocal].
  unfold uploadRouteToCloud.
  pose proof (stable_remote (stable_email (op_sync HP))
                (addDoc "routes" routeData (uid u)) w2 H2) as H3.
  destruct (remote (addDoc "routes" routeData (uid u)) w2) as [[c|] w3];
    cbn [fst snd] in *.
  - destruct (truthy c); cbn [snd].
    + apply (stable_notify (op_sync HP)).
      now apply (stable_markRouteUploaded (op_sync HP)).
    + now apply processEmailQueue_preserves;
        [apply (stable_notify (op_sync HP))|].
  - apply processEmailQueue_preserves; [apply (stable_notify (op_sync HP))|].
    now apply (stable_notify (op_sync HP)).
Qed.

Lemma saveTrailGuide_preserves guideData user w :
  P w -> P (snd (saveTrailGuide guideData user w)).
Proof.
  intros Hw. unfold saveTrailGuide.
  pose proof (op_savePendingGuide HP (newPending guideData user w) w
                eq_refl eq_refl Hw) as H1.
  destruct (savePendingGuide (newPending guideData user w) w) as [localId w1].
  cbn [snd] in H1.
  pose proof (op_queueEmailBackup HP Guide
                (with_key localId (newPending guideData user w)) w1 H1) as H2.
  destruct (queueEmailBackup Guide _ w1) as [k w2]. cbn [snd] in H2.
  assert (Hlocal : forall n, P (processEmailQueue (notify n w2))).
  { intros n. apply processEmailQueue_preserves;
      [apply (stable_notify (op_sync HP))|].
    now apply (stable_notify (op_sync HP)). }
  destruct (isOnline w2); [|apply Hlocal].
  destruct user as [u|]; [|apply Hlocal].
  unfold uploadGuideToCloud.
  pose proof (stable_remote (stable_email (op_sync HP))
                (addDoc "trail_guides" guideData (uid u)) w2 H2) as H3.
  destruct (remote (addDoc "trail_guides" guideData (uid u)) w2) as [[c|] w3];
    cbn [fst snd] in *.
  - destruct (truthy c); cbn [snd].
    + apply (stable_notify (op_sync HP)).
      now apply (stable_markGuideUploaded (op_sync HP)).
    + now apply processEmailQueue_preserves;
        [apply (stable_notify (op_sync HP))|].
  - apply processEmailQueue_preserves; [apply (stable_notify (op_sync HP))|].
    now apply (stable_notify (op_sync HP)).
Qed.

Lemma showPendingNotification_preserves count w :
  P w -> P (showPendingNotification count w).
Proof.
  intros Hw. unfold showPendingNotification.
  destruct (count =? 0); [destruct (0 <? getPendingCount w)|];
    try assumption; same_stores.
Qed.

Lemma onOnline_preserves w : P w -> P (onOnline w).
Proof.
  intros Hw. unfold onOnline.
  apply processEmailQueue_preserves; [apply (stable_notify (op_sync HP))|].
  assert (H1 : P (set_isOnline true w)) by same_stores.
  destruct (0 <? getPendingCount (set_isOnline true w)); [|assumption].
  pose proof (showPendingNotification_preserves
                (getPendingCount (set_isOnline true w)) _ H1) as H2.
  same_stores.
Qed.

Lemma connectivityPoll_preserves w : P w -> P (connectivityPoll w).
Proof.
  intros Hw. unfold connectivityPoll.
  assert (H1 : P (set_isOnline (navigator_onLine w) w)) by same_stores.
  destruct (negb (isOnline w) && _); [|assumption].
  apply processEmailQueue_preserves; [apply (stable_notify (op_sync HP))|].
  destruct (0 <? _); [|assumption].
  apply run_syncAllPending_preserves; [exact (op_sync HP)|].
  now apply showPendingNotification_preserves.
Qed.

Lemma fire_preserves n w : P w -> P (fire n w).
Proof.
  intros Hw. unfold fire.
  destruct (nth_error (timers w) n) as [t|]; [|assumption].
  assert (H1 : P (set_timers (remove_nth n (timers w)) w)) by same_stores.
  destruct (callback t); cbn [fire_callback].
  - destruct (isOnline _); [|assumption].
    now apply run_syncAllPending_preserves; [exact (op_sync HP)|].
  - assumption.
  - same_stores.
  - same_stores.
Qed.

Lemma exec_preserves o w : P w -> P (exec o w).
Proof.
  intros Hw. destruct o; cbn [exec].
  - now apply saveRoute_preserves.
  - now apply saveTrailGuide_preserves.
  - now apply (stable_markRouteUploaded (op_sync HP)).
  - now apply (stable_markGuideUploaded (op_sync HP)).
  - now apply (stable_incrementRetryCount (op_sync HP)).
  - now apply run_syncAllPending_preserves; [exact (op_sync HP)|].
  - now apply processEmailQueue_preserves; [apply (stable_notify (op_sync HP))|].
  - now apply onOnline_preserves.
  - same_stores.
  - now apply connectivityPoll_preserves.
  - now apply fire_preserves.
  - same_stores.
Qed.

Lemma exec_all_preserves ops w : P w -> P (exec_all ops w).
Proof.
  unfold exec_all. revert w.
  induction ops as [|o ops IH]; intros w Hw; cbn [fold_left]; [assumption|].
  apply IH. now apply exec_preserves.
Qed.

End OpStable.

(** ** Well-formed stores *)

Lemma world_wf_op_stable : op_stable world_wf.
Proof.
  constructor; [constructor; [constructor|..]|..].
  - intros e w Hw. exact Hw.
  - intros id w (H1 & H2 & H3). rewrite markEmailSent_modify.
    split; [exact H1|split; [exact H2|]]. now apply store_wf_modify.
  - intros id w (H1 & H2 & H3). rewrite incrementEmailRetry_modify.
    split; [exact H1|split; [exact H2|]]. now apply store_wf_modify.
  - intros n w Hw. exact Hw.
  - intros b w Hw. exact Hw.
  - intros id c w (H1 & H2 & H3). rewrite markRouteUploaded_modify.
    split; [|split; [exact H2|exact H3]]. now apply store_wf_modify.
  - intros id c w (H1 & H2 & H3). rewrite markGuideUploaded_modify.
    split; [exact H1|split; [|exact H3]]. now apply store_wf_modify.
  - intros sn id w (H1 & H2 & H3). destruct sn.
    + rewrite incrementRetryCount_routes.
      split; [|split; [exact H2|exact H3]]. now apply store_wf_modify.
    + rewrite incrementRetryCount_guides.
      split; [exact H1|split; [|exact H3]]. now apply store_wf_modify.
  - unfold world_wf. intros w w' -> -> ->. tauto.
  - intros r w _ _ (H1 & H2 & H3).
    split; [|split; [exact H2|exact H3]]. now apply (store_wf_add r).
  - intros r w _ _ (H1 & H2 & H3).
    split; [exact H1|split; [|exact H3]]. now apply (store_wf_add r).
  - intros type data w (H1 & H2 & H3).
    split; [exact H1|split; [exact H2|]].
    now apply (store_wf_add (Email.mk 0 type data (now w) false 0 None)).
Qed.

Lemma world_wf_fresh : world_wf fresh.
Proof. repeat split; constructor. Qed.

(** Every world reached from a well-formed one is well-formed. *)
Lemma world_wf_exec_all ops w : world_wf w -> world_wf (exec_all ops w).
Proof. apply exec_all_preserves. exact world_wf_op_stable. Qed.

(** ** The state of route and guide records *)

Lemma artifact_ok_pending r :
  Pending.status r = pending -> Pending.cloudId r = None -> artifact_ok r.
Proof.
  intros Hs Hc. left. split; [now split|]. intros [Hu _]. congruence.
Qed.

Lemma artifact_ok_uploaded c t r : artifact_ok (set_uploaded c t r).
Proof.
  right. split.
  - intros [Hs _]. discriminate.
  - repeat split; discriminate.
Qed.

Lemma artifact_ok_retried t r : artifact_ok r -> artifact_ok (set_retried t r).
Proof. intros Hr. exact Hr. Qed.

Lemma artifacts_ok_op_stable : op_stable artifacts_ok.
Proof.
  constructor; [constructor; [constructor|..]|..].
  - intros e w Hw. exact Hw.
  - intros id w Hw. rewrite markEmailSent_modify. exact Hw.
  - intros id w Hw. rewrite incrementEmailRetry_modify. exact Hw.
  - intros n w Hw. exact Hw.
  - intros b w Hw. exact Hw.
  - intros id c w [Hr Hg]. rewrite markRouteUploaded_modify.
    split; [|exact Hg]. cbn. apply Forall_modify; [|assumption].
    intros r _. apply artifact_ok_uploaded.
  - intros id c w [Hr Hg]. rewrite markGuideUploaded_modify.
    split; [exact Hr|]. cbn. apply Forall_modify; [|assumption].
    intros r _. apply artifact_ok_uploaded.
  - intros sn id w [Hr Hg]. destruct sn.
    + rewrite incrementRetryCount_routes. split; [|exact Hg].
      cbn. apply Forall_modify; [|assumption].
      intros r. apply artifact_ok_retried.
    + rewrite incrementRetryCount_guides. split; [exact Hr|].
      cbn. apply Forall_modify; [|assumption].
      intros r. apply artifact_ok_retried.
  - unfold artifacts_ok. intros w w' -> -> _. tauto.
  - intros r w Hs Hc [Hr Hg]. split; [|exact Hg]. cbn.
    apply Forall_app. split; [assumption|].
    constructor; [|constructor]. now apply artifact_ok_pending.
  - intros r w Hs Hc [Hr Hg]. split; [exact Hr|]. cbn.
    apply Forall_app. split; [assumption|].
    constructor; [|constructor]. now apply artifact_ok_pending.
  - intros type data w Hw. exact Hw.
Qed.

Lemma artifacts_ok_exec_all ops w :
  artifacts_ok w -> artifacts_ok (exec_all ops w).
Proof. apply exec_all_preserves. exact artifacts_ok_op_stable. Qed.

Lemma artifacts_ok_fresh : artifacts_ok fresh.
Proof. split; constructor. Qed.

(** The invariant also holds between any two steps of a sync pass,
    whatever else runs at its suspension points. *)
Lemma artifacts_ok_every_step : code_preserves artifacts_ok syncAllPending.
Proof.
  apply syncAllPending_preserves. exact (op_sync artifacts_ok_op_stable).
Qed.

(** It holds as well while invocations of [syncAllPending] overlap, at
    each of their suspension points. *)
Lemma artifacts_ok_interleave acts w :
  artifacts_ok w -> artifacts_ok (fst (interleave acts (w, []))).
Proof.
  apply pool_preserves_interleave. exact (op_sync artifacts_ok_op_stable).
Qed.

(** C1.  After any sequence of [saveRoute], [saveTrailGuide],
    [markRouteUploaded], [markGuideUploaded], [incrementRetryCount] and
    [syncAllPending] (and of the connectivity handlers, timers and changes
    of the surroundings), every record of [pending_routes] and of
    [pending_guides] is in exactly one of the two states: pending without a
    cloud id, or uploaded with a cloud id and an upload time. *)
Theorem artifact_state_invariant :
  forall (ops : list Op) (w : World),
    artifacts_ok w ->
    forall r,
      In r (rows (pending_routes (exec_all ops w))) \/
      In r (rows (pending_guides (exec_all ops w))) ->
      exactly_one
        (Pending.status r = pending /\ Pending.cloudId r = None)
        (Pending.status r = uploaded /\ Pending.cloudId r <> None /\
         Pending.uploadedAt r <> None).
Proof.
  intros ops w Hw r Hin.
  destruct (artifacts_ok_exec_all ops w Hw) as [Hr Hg].
  destruct Hin as [Hin|Hin].
  - exact (proj1 (Forall_forall _ _) Hr r Hin).
  - exact (proj1 (Forall_forall _ _) Hg r Hin).
Qed.

Lemma artifact_state_invariant_witness :
  artifacts_ok fresh /\
  forall r,
    In r (rows (pending_routes
      (exec_all [op_saveRoute "Loop Trail" None; op_saveTrailGuide "Guide" (Some alice);
                 op_environment true (Some alice) 9; op_syncAllPending] fresh_up))) \/
    In r (rows (pending_guides
      (exec_all [op_saveRoute "Loop Trail" None; op_saveTrailGuide "Guide" (Some alice);
                 op_environment true (Some alice) 9; op_syncAllPending] fresh_up))) ->
    exactly_one
      (Pending.status r = pending /\ Pending.cloudId r = None)
      (Pending.status r = uploaded /\ Pending.cloudId r <> None /\
       Pending.uploadedAt r <> None).
Proof.
  split.
  - split; constructor.
  - apply (artifact_state_invariant
             [op_saveRoute "Loop Trail" None; op_saveTrailGuide "Guide" (Some alice);
              op_environment true (Some alice) 9; op_syncAllPending] fresh_up).
    split; constructor.
Defined.

(** ** Identifiers that are not stored *)

(** C10.  [markRouteUploaded], [markGuideUploaded], [incrementRetryCount],
    [markEmailSent] and [incrementEmailRetry] called with an identifier
    their collection does not hold resolve and change nothing at all. *)
Theorem absent_identifier_is_noop :
  forall (w : World) (id : nat) (cloudId : CloudId),
    (get id (pending_routes w) = None ->
       markRouteUploaded id cloudId w = w /\
       incrementRetryCount store_routes id w = w) /\
    (get id (pending_guides w) = None ->
       markGuideUploaded id cloudId w = w /\
       incrementRetryCount store_guides id w = w) /\
    (get id (email_queue w) = None ->
       markEmailSent id w = w /\ incrementEmailRetry id w = w).
Proof.
  intros w id cloudId. split; [|split]; intros Hg; split.
  - unfold markRouteUploaded. now rewrite Hg.
  - unfold incrementRetryCount. now rewrite Hg.
  - unfold markGuideUploaded. now rewrite Hg.
  - unfold incrementRetryCount. now rewrite Hg.
  - unfold markEmailSent. now rewrite Hg.
  - unfold incrementEmailRetry. now rewrite Hg.
Qed.

Lemma absent_identifier_is_noop_witness :
  (markRouteUploaded 5 "doc" one_pending_route = one_pending_route /\
   incrementRetryCount store_routes 5 one_pending_route = one_pending_route) /\
  (markGuideUploaded 1 "doc" one_pending_route = one_pending_route /\
   incrementRetryCount store_guides 1 one_pending_route = one_pending_route) /\
  (markEmailSent 2 one_pending_route = one_pending_route /\
   incrementEmailRetry 2 one_pending_route = one_pending_route).
Proof.
  destruct (absent_identifier_is_noop one_pending_route 5 "doc") as [H1 _].
  destruct (absent_identifier_is_noop one_pending_route 1 "doc") as [_ [H2 _]].
  destruct (absent_identifier_is_noop one_pending_route 2 "doc") as [_ [_ H3]].
  split; [apply H1; reflexivity|].
  split; [apply H2; reflexivity|apply H3; reflexivity].
Defined.

(** ** Saving while offline *)

Lemma processEmailQueue_offline w :
  isOnline w = false -> processEmailQueue w = w.
Proof.
  intros Hoff. unfold processEmailQueue. rewrite Hoff.
  now rewrite orb_true_r.
Qed.

(** C4.  While offline, [saveRoute] and [saveTrailGuide] append one record
    with [status = 'pending'], [retryCount = 0] and [cloudId = null] to
    their store, resolve with [{ localId, cloudId: null }] where [localId]
    is the key of that record, and make no remote call. *)
Theorem offline_save_is_local :
  forall (payload : Data) (user : option User) (w : World),
    isOnline w = false ->
    (exists r,
       fst (saveRoute payload user w) = mkSaved (Pending.localId r) None /\
       rows (pending_routes (snd (saveRoute payload user w))) =
         rows (pending_routes w) ++ [r] /\
       Pending.localId r = keyGen (pending_routes w) /\
       Pending.data r = payload /\
       Pending.status r = pending /\
       Pending.retryCount r = 0 /\
       Pending.cloudId r = None /\
       trace (snd (saveRoute payload user w)) = trace w /\
       netCalls (snd (saveRoute payload user w)) = netCalls w) /\
    (exists r,
       fst (saveTrailGuide payload user w) = mkSaved (Pending.localId r) None /\
       rows (pending_guides (snd (saveTrailGuide payload user w))) =
         rows (pending_guides w) ++ [r] /\
       Pending.localId r = keyGen (pending_guides w) /\
       Pending.data r = payload /\
       Pending.status r = pending /\
       Pending.retryCount r = 0 /\
       Pending.cloudId r = None /\
       trace (snd (saveTrailGuide payload user w)) = trace w /\
       netCalls (snd (saveTrailGuide payload user w)) = netCalls w).
Proof.
  intros payload user w Hoff. split.
  - exists (with_key (keyGen (pending_routes w)) (newPending payload user w)).
    unfold saveRoute, savePendingRoute, queueEmailBackup.
    cbn [add fst snd]. cbn [isOnline set_email_queue set_pending_routes].
    rewrite Hoff. rewrite processEmailQueue_offline by exact Hoff.
    cbn. repeat split; reflexivity.
  - exists (with_key (keyGen (pending_guides w)) (newPending payload user w)).
    unfold saveTrailGuide, savePendingGuide, queueEmailBackup.
    cbn [add fst snd]. cbn [isOnline set_email_queue set_pending_guides].
    rewrite Hoff. rewrite processEmailQueue_offline by exact Hoff.
    cbn. repeat split; reflexivity.
Qed.

Lemma offline_save_is_local_witness :
  isOnline (set_isOnline false fresh) = false /\
  fst (saveRoute "Loop Trail" None (set_isOnline false fresh)) = mkSaved 1 None /\
  fst (saveTrailGuide "Guide" None (set_isOnline false fresh)) = mkSaved 1 None.
Proof.
  split; [reflexivity|].
  destruct (offline_save_is_local "Loop Trail" None (set_isOnline false fresh) eq_refl)
    as [[r (H1 & _ & H3 & _)] _].
  destruct (offline_save_is_local "Guide" None (set_isOnline false fresh) eq_refl)
    as [_ [g (G1 & _ & G3 & _)]].
  rewrite H1, H3, G1, G3. split; reflexivity.
Defined.

(** ** The sync pass, run without interruption *)

Lemma run_syncRoutes l user k :
  forall sc fc w, exists sc' fc',
    run (syncRoutes l user sc fc k) w =
    run (k sc' fc') (for_of (syncItem store_routes user) l w).
Proof.
  induction l as [|r l IH]; intros sc fc w.
  - exists sc, fc. reflexivity.
  - unfold run at 1. cbn [syncRoutes complete for_of]. unfold uploadRouteToCloud.
    replace (syncItem store_routes user r w) with
      (let (o, w1) := remote (addDoc "routes" (Pending.data r) (uid user)) w in
       match o with
       | Some c => markRouteUploaded (Pending.localId r) c w1
       | None => incrementRetryCount store_routes (Pending.localId r) w1
       end) by reflexivity.
    destruct (remote (addDoc "routes" (Pending.data r) (uid user)) w)
      as [[c|] w1]; cbn [complete].
    + apply (IH (S sc) fc).
    + apply (IH sc (S fc)).
Qed.

Lemma run_syncGuides l user k :
  forall sc fc w, exists sc' fc',
    run (syncGuides l user sc fc k) w =
    run (k sc' fc') (for_of (syncItem store_guides user) l w).
Proof.
  induction l as [|r l IH]; intros sc fc w.
  - exists sc, fc. reflexivity.
  - unfold run at 1. cbn [syncGuides complete for_of]. unfold uploadGuideToCloud.
    replace (syncItem store_guides user r w) with
      (let (o, w1) := remote (addDoc "trail_guides" (Pending.data r) (uid user)) w in
       match o with
       | Some c => markGuideUploaded (Pending.localId r) c w1
       | None => incrementRetryCount store_guides (Pending.localId r) w1
       end) by reflexivity.
    destruct (remote (addDoc "trail_guides" (Pending.data r) (uid user)) w)
      as [[c|] w1]; cbn [complete].
    + apply (IH (S sc) fc).
    + apply (IH sc (S fc)).
Qed.

Lemma run_syncResults sc fc w :
  run (syncResults sc fc) w =
  set_syncInProgress false (processEmailQueue (report sc fc w)).
Proof. reflexivity. Qed.

(** A pass that finds the instance idle, online, signed in and with
    something to upload. *)
Lemma run_syncAllPending_busy w user :
  syncInProgress w = false ->
  isOnline w = true ->
  currentUser w = Some user ->
  0 < getPendingCount w ->
  exists sc fc,
    run syncAllPending w =
    set_syncInProgress false
      (processEmailQueue
        (report sc fc
          (for_of (syncItem store_guides user)
             (filter is_pending (getPendingGuides w))
             (for_of (syncItem store_routes user)
                (filter is_pending (getPendingRoutes w))
                (notify (toast_count info "Syncing items" (getPendingCount w))
                   (set_syncInProgress true w)))))).
Proof.
  intros Hflag Hon Huser Hcount.
  unfold run at 1, syncAllPending. rewrite Hflag, Hon. cbn [negb complete].
  cbn [currentUser set_syncInProgress]. rewrite Huser. cbn [complete].
  change (getPendingRoutes (set_syncInProgress true w)) with (getPendingRoutes w).
  change (getPendingGuides (set_syncInProgress true w)) with (getPendingGuides w).
  fold (getPendingCount w).
  destruct (getPendingCount w =? 0) eqn:Hz.
  { apply Nat.eqb_eq in Hz. lia. }
  match goal with
  | |- exists sc fc, (let (w1, t) := ?c ?w0 in complete t w1) = _ =>
      change (let (w1, t) := c w0 in complete t w1) with (run c w0)
  end.
  edestruct run_syncRoutes as [sc1 [fc1 ->]].
  edestruct run_syncGuides as [sc2 [fc2 ->]].
  exists sc2, fc2. now rewrite run_syncResults.
Qed.

(** *** One turn of the upload loops *)

Lemma syncItem_store sn user r w :
  store_of sn (syncItem sn user r w) =
  modify (Pending.localId r) (settle (network w (netCalls w)) (now w))
    (store_of sn w).
Proof.
  unfold syncItem, remote. destruct sn; destruct (network w (netCalls w));
    cbn [markUploaded settle];
    rewrite ?markRouteUploaded_modify, ?markGuideUploaded_modify,
      ?incrementRetryCount_routes, ?incrementRetryCount_guides; reflexivity.
Qed.

Lemma syncItem_other_store sn sn' user r w :
  sn' <> sn -> store_of sn' (syncItem sn user r w) = store_of sn' w.
Proof.
  intros Hne. unfold syncItem, remote.
  destruct sn, sn'; try congruence; destruct (network w (netCalls w));
    cbn [markUploaded];
    rewrite ?markRouteUploaded_modify, ?markGuideUploaded_modify,
      ?incrementRetryCount_routes, ?incrementRetryCount_guides; reflexivity.
Qed.

Lemma syncItem_net sn user r w :
  network (syncItem sn user r w) = network w /\
  now (syncItem sn user r w) = now w /\
  netCalls (syncItem sn user r w) = S (netCalls w) /\
  trace (syncItem sn user r w) =
    trace w ++ [addDoc (collection_of sn) (Pending.data r) (uid user)].
Proof.
  unfold syncItem, remote. destruct sn; destruct (network w (netCalls w));
    cbn [markUploaded];
    rewrite ?markRouteUploaded_modify, ?markGuideUploaded_modify,
      ?incrementRetryCount_routes, ?incrementRetryCount_guides;
    repeat split; reflexivity.
Qed.

Lemma settle_key o t r : key (settle o t r) = key r.
Proof. now destruct o. Qed.

(** *** The upload loops *)

Lemma for_of_syncItem_net sn user l :
  forall w,
    network (for_of (syncItem sn user) l w) = network w /\
    now (for_of (syncItem sn user) l w) = now w /\
    netCalls (for_of (syncItem sn user) l w) = netCalls w + List.length l /\
    trace (for_of (syncItem sn user) l w) = trace w ++ uploads sn user l.
Proof.
  induction l as [|r l IH]; intros w; cbn [for_of List.length uploads map].
  - rewrite app_nil_r, Nat.add_0_r. now repeat split.
  - destruct (IH (syncItem sn user r w)) as (H1 & H2 & H3 & H4).
    destruct (syncItem_net sn user r w) as (G1 & G2 & G3 & G4).
    rewrite H1, H2, H3, H4, G1, G2, G3, G4. repeat split; try lia.
    now rewrite <- app_assoc.
Qed.

Lemma for_of_syncItem_other_store sn sn' user l :
  sn' <> sn ->
  forall w, store_of sn' (for_of (syncItem sn user) l w) = store_of sn' w.
Proof.
  intros Hne. induction l as [|r l IH]; intros w; cbn [for_of]; [reflexivity|].
  rewrite IH. now apply syncItem_other_store.
Qed.

(** A record the loop does not visit is left as it was. *)
Lemma for_of_syncItem_untouched sn user k l :
  ~ In k (map key l) ->
  forall w,
    get k (store_of sn (for_of (syncItem sn user) l w)) = get k (store_of sn w).
Proof.
  induction l as [|r l IH]; intros Hk w; cbn [for_of]; [reflexivity|].
  cbn [map In] in Hk. rewrite IH by tauto.
  rewrite syncItem_store. apply get_modify_other.
  - intros x. apply settle_key.
  - intros ->. apply Hk. now left.
Qed.

(** The [i]-th record visited is changed by the outcome of the [i]-th
    remote call of the loop, and by nothing else. *)
Lemma for_of_syncItem_nth sn user l :
  NoDup (map key l) ->
  forall i r w,
    nth_error l i = Some r ->
    get (key r) (store_of sn (for_of (syncItem sn user) l w)) =
    option_map (settle (network w (netCalls w + i)) (now w))
      (get (key r) (store_of sn w)).
Proof.
  induction l as [|x l IH]; intros Hnd i r w Hi.
  - destruct i; discriminate.
  - cbn [map] in Hnd. inversion Hnd as [|? ? Hx Hnd']; subst.
    cbn [for_of]. destruct i as [|i]; cbn [nth_error] in Hi.
    + injection Hi as ->.
      rewrite for_of_syncItem_untouched by exact Hx.
      rewrite syncItem_store, Nat.add_0_r.
      apply get_modify_same. intros y. apply settle_key.
    + rewrite (IH Hnd' i r _ Hi).
      destruct (syncItem_net sn user x w) as (G1 & G2 & G3 & _).
      rewrite G1, G2, G3, syncItem_store.
      replace (S (netCalls w) + i) with (netCalls w + S i) by lia.
      f_equal. apply get_modify_other.
      * intros y. apply settle_key.
      * intros Heq. apply Hx. change (key x) with (Pending.localId x).
        rewrite <- Heq. apply in_map. eapply nth_error_In; eauto.
Qed.

(** *** Frames *)

Ltac unfold_transactions :=
  rewrite ?markRouteUploaded_modify, ?markGuideUploaded_modify,
    ?incrementRetryCount_routes, ?incrementRetryCount_guides,
    ?markEmailSent_modify, ?incrementEmailRetry_modify.

Lemma relay_frame_stable w : email_stable (relay_frame w).
Proof.
  constructor.
  - intros e w1 (H1 & H2 & H3 & H4 & H5 & H6 & H7 & H8 & H9 & H10 & H11 & H12 & H13 & rest & H14).
    repeat (split; [assumption|]). exists (rest ++ [e]).
    cbn. rewrite H14. now rewrite app_assoc.
  - intros id w1 Hw. unfold_transactions. exact Hw.
  - intros id w1 Hw. unfold_transactions. exact Hw.
Qed.

Lemma relay_frame_refl w : relay_frame w w.
Proof.
  do 3 (split; [reflexivity|]).
  split; [exists []; now rewrite app_nil_r|].
  repeat (split; [reflexivity|]). exists []. now rewrite app_nil_r.
Qed.

Lemma processEmailQueue_frame w : relay_frame w (processEmailQueue w).
Proof.
  rewrite processEmailQueue_throws.
  destruct (negb (emailJsLoaded w) || negb (isOnline w));
    [apply relay_frame_refl|].
  do 3 (split; [reflexivity|]).
  split; [now exists [console error "Error processing email queue"]|].
  repeat (split; [reflexivity|]). exists []. now rewrite app_nil_r.
Qed.

(** A drain never writes the outbox and never calls the network. *)
Lemma processEmailQueue_inert w :
  email_queue (processEmailQueue w) = email_queue w /\
  trace (processEmailQueue w) = trace w /\
  netCalls (processEmailQueue w) = netCalls w.
Proof.
  rewrite processEmailQueue_throws.
  now destruct (negb (emailJsLoaded w) || negb (isOnline w)).
Qed.

Lemma sync_frame_stable w : sync_stable (sync_frame w).
Proof.
  constructor; [constructor|..]; intros; unfold_transactions;
    try destruct sn; unfold_transactions; assumption.
Qed.

Lemma sync_frame_refl w : sync_frame w w.
Proof. repeat split. Qed.

Lemma run_syncAllPending_frame w : sync_frame w (run syncAllPending w).
Proof.
  apply run_syncAllPending_preserves;
    [apply sync_frame_stable|apply sync_frame_refl].
Qed.

Lemma report_frame sc fc w :
  pending_routes (report sc fc w) = pending_routes w /\
  pending_guides (report sc fc w) = pending_guides w /\
  email_queue (report sc fc w) = email_queue w /\
  trace (report sc fc w) = trace w /\
  netCalls (report sc fc w) = netCalls w.
Proof.
  unfold report, syncResults. cbn [fst].
  destruct (0 <? sc), (0 <? fc); repeat split.
Qed.

(** A pass that finds nothing to do, or may not run, makes no remote call
    and writes no store. *)
Lemma run_syncAllPending_idle w :
  syncInProgress w = true \/ isOnline w = false \/ currentUser w = None \/
  getPendingCount w = 0 ->
  trace (run syncAllPending w) = trace w /\
  netCalls (run syncAllPending w) = netCalls w /\
  pending_routes (run syncAllPending w) = pending_routes w /\
  pending_guides (run syncAllPending w) = pending_guides w /\
  email_queue (run syncAllPending w) = email_queue w.
Proof.
  intros Hidle. unfold run, syncAllPending.
  destruct (syncInProgress w) eqn:Hflag; [now repeat split|].
  destruct (isOnline w) eqn:Hon; cbn [negb]; [|now repeat split].
  cbn [complete currentUser set_syncInProgress].
  destruct (currentUser w) as [user|] eqn:Huser; [|now repeat split].
  cbn [complete].
  change (getPendingRoutes (set_syncInProgress true w)) with (getPendingRoutes w).
  change (getPendingGuides (set_syncInProgress true w)) with (getPendingGuides w).
  fold (getPendingCount w).
  destruct Hidle as [H|[H|[H|H]]]; try discriminate.
  rewrite H. cbn [Nat.eqb complete]. now repeat split.
Qed.

Lemma NoDup_map_filter {A B : Type} (f : A -> B) (p : A -> bool) l :
  NoDup (map f l) -> NoDup (map f (filter p l)).
Proof.
  induction l as [|x l IH]; cbn [map filter]; intros Hnd; [constructor|].
  inversion Hnd as [|? ? Hx Hnd']; subst.
  destruct (p x); cbn [map]; [|now apply IH].
  constructor; [|now apply IH].
  intros Hin. apply Hx. apply in_map_iff in Hin.
  destruct Hin as [y [Hy Hin]]. apply filter_In in Hin.
  rewrite <- Hy. apply in_map. tauto.
Qed.

(** The stores and the trace after a pass that has something to upload. *)
Lemma run_syncAllPending_effect w user :
  syncInProgress w = false ->
  isOnline w = true ->
  currentUser w = Some user ->
  0 < getPendingCount w ->
  let pendingRoutes := filter is_pending (getPendingRoutes w) in
  let pendingGuides := filter is_pending (getPendingGuides w) in
  let w0 := notify (toast_count info "Syncing items" (getPendingCount w))
              (set_syncInProgress true w) in
  let w1 := for_of (syncItem store_routes user) pendingRoutes w0 in
  let w2 := for_of (syncItem store_guides user) pendingGuides w1 in
  pending_routes (run syncAllPending w) = pending_routes w1 /\
  pending_guides (run syncAllPending w) = pending_guides w2 /\
  exists rest,
    trace (run syncAllPending w) =
    trace w ++ uploads store_routes user pendingRoutes ++
      uploads store_guides user pendingGuides ++ rest.
Proof.
  intros Hflag Hon Huser Hcount pendingRoutes pendingGuides w0 w1 w2.
  destruct (run_syncAllPending_busy w user Hflag Hon Huser Hcount)
    as [sc [fc ->]].
  fold pendingRoutes pendingGuides w0 w1 w2.
  destruct (processEmailQueue_frame (report sc fc w2))
    as (E1 & E2 & _ & _ & _ & _ & _ & _ & _ & _ & _ & _ & _ & rest & E3).
  destruct (report_frame sc fc w2) as (R1 & R2 & _ & R3 & _).
  cbn [pending_routes pending_guides trace set_syncInProgress].
  rewrite E1, E2, E3, R1, R2, R3.
  split; [|split].
  - exact (for_of_syncItem_other_store store_guides store_routes user
             pendingGuides ltac:(discriminate) w1).
  - reflexivity.
  - exists rest. unfold w2, w1.
    destruct (for_of_syncItem_net store_guides user pendingGuides
                (for_of (syncItem store_routes user) pendingRoutes w0))
      as (_ & _ & _ & ->).
    destruct (for_of_syncItem_net store_routes user pendingRoutes w0)
      as (_ & _ & _ & ->).
    change (trace w0) with (trace w). now rewrite <- !app_assoc.
Qed.

(** ** Failures during a sync pass *)

(** C5.  In a pass of [syncAllPending] every pending route and guide is
    uploaded in turn, whatever happened to the records before it; a record
    whose upload fails has its [retryCount] incremented by one, keeps
    [status = 'pending'] and is selected again by the next pass, however
    large its [retryCount]. *)
Theorem sync_failure_isolation :
  forall (w : World) (user : User),
    syncInProgress w = false ->
    isOnline w = true ->
    currentUser w = Some user ->
    store_wf (pending_routes w) ->
    store_wf (pending_guides w) ->
    let pendingRoutes := filter is_pending (getPendingRoutes w) in
    let pendingGuides := filter is_pending (getPendingGuides w) in
    let w' := run syncAllPending w in
    (exists rest,
       trace w' =
       trace w ++ uploads store_routes user pendingRoutes ++
         uploads store_guides user pendingGuides ++ rest) /\
    (forall i r,
       nth_error pendingRoutes i = Some r ->
       network w (netCalls w + i) = None ->
       exists r',
         get (Pending.localId r) (pending_routes w') = Some r' /\
         Pending.retryCount r' = Pending.retryCount r + 1 /\
         Pending.status r' = pending /\
         In r' (filter is_pending (getPendingRoutes w'))) /\
    (forall i g,
       nth_error pendingGuides i = Some g ->
       network w (netCalls w + List.length pendingRoutes + i) = None ->
       exists g',
         get (Pending.localId g) (pending_guides w') = Some g' /\
         Pending.retryCount g' = Pending.retryCount g + 1 /\
         Pending.status g' = pending /\
         In g' (filter is_pending (getPendingGuides w'))).
Proof.
  intros w user Hflag Hon Huser Hwr Hwg pendingRoutes pendingGuides w'.
  destruct (Nat.eq_dec (getPendingCount w) 0) as [Hzero|Hpos].
  { assert (Hr : pendingRoutes = []).
    { apply length_zero_iff_nil. unfold getPendingCount in Hzero.
      fold pendingRoutes in Hzero. lia. }
    assert (Hg : pendingGuides = []).
    { apply length_zero_iff_nil. unfold getPendingCount in Hzero.
      fold pendingGuides in Hzero. lia. }
    rewrite Hr, Hg. split; [|split].
    - exists []. cbn [uploads map app]. rewrite app_nil_r.
      apply run_syncAllPending_idle. tauto.
    - intros [|i] r Hi; discriminate.
    - intros [|i] r Hi; discriminate. }
  assert (Hcount : 0 < getPendingCount w) by lia.
  destruct (run_syncAllPending_effect w user Hflag Hon Huser Hcount)
    as (Hroutes & Hguides & Htrace).
  fold pendingRoutes pendingGuides in Hroutes, Hguides, Htrace.
  set (w0 := notify (toast_count info "Syncing items" (getPendingCount w))
               (set_syncInProgress true w)) in *.
  set (w1 := for_of (syncItem store_routes user) pendingRoutes w0) in *.
  assert (Hsel : forall s (l := filter is_pending (rows s)) i r,
            store_wf s -> nth_error l i = Some r ->
            get (Pending.localId r) s = Some r /\ Pending.status r = pending).
  { intros s l i r Hwf Hi. apply nth_error_In in Hi. apply filter_In in Hi.
    destruct Hi as [Hin Hp]. split.
    - exact (In_get s r Hwf Hin).
    - now apply status_eqb_eq. }
  assert (Hagain : forall s r',
            get (Pending.localId r') s = Some r' ->
            Pending.status r' = pending ->
            In r' (filter is_pending (rows s))).
  { intros s r' Hget Hst. apply filter_In. split.
    - now destruct (get_Some _ _ _ Hget).
    - now apply status_eqb_eq. }
  split; [exact Htrace|split].
  - intros i r Hi Hfail.
    destruct (Hsel (pending_routes w) i r Hwr Hi) as [Hget Hst].
    exists (set_retried (now w) r).
    assert (Hget' : get (Pending.localId r) (pending_routes w') =
                    Some (set_retried (now w) r)).
    { unfold w'. rewrite Hroutes. unfold w1.
      change (pending_routes ?x) with (store_of store_routes x).
      change (Pending.localId r) with (key r).
      rewrite (for_of_syncItem_nth store_routes user pendingRoutes
                 (NoDup_map_filter _ _ _ (proj1 Hwr)) i r w0 Hi).
      change (network w0) with (network w). change (netCalls w0) with (netCalls w).
      change (store_of store_routes w0) with (pending_routes w).
      change (key r) with (Pending.localId r).
      now rewrite Hfail, Hget. }
    repeat split; [exact Hget'|exact Hst|].
    apply Hagain; [exact Hget'|exact Hst].
  - intros i g Hi Hfail.
    destruct (Hsel (pending_guides w) i g Hwg Hi) as [Hget Hst].
    exists (set_retried (now w) g).
    assert (Hget' : get (Pending.localId g) (pending_guides w') =
                    Some (set_retried (now w) g)).
    { unfold w'. rewrite Hguides.
      change (pending_guides ?x) with (store_of store_guides x).
      change (Pending.localId g) with (key g).
      rewrite (for_of_syncItem_nth store_guides user pendingGuides
                 (NoDup_map_filter _ _ _ (proj1 Hwg)) i g w1 Hi).
      destruct (for_of_syncItem_net store_routes user pendingRoutes w0)
        as (N1 & N2 & N3 & _). fold w1 in N1, N2, N3.
      rewrite N1, N2, N3.
      unfold w1 at 1.
      rewrite (for_of_syncItem_other_store store_routes store_guides user
                 pendingRoutes ltac:(discriminate) w0).
      change (network w0) with (network w). change (netCalls w0) with (netCalls w).
      change (store_of store_guides w0) with (pending_guides w).
      change (now w0) with (now w).
      change (key g) with (Pending.localId g).
      now rewrite Hfail, Hget. }
    repeat split; [exact Hget'|exact Hst|].
    apply Hagain; [exact Hget'|exact Hst].
Qed.

Lemma sync_failure_isolation_witness :
  syncInProgress ready = false /\
  isOnline ready = true /\
  currentUser ready = Some alice /\
  store_wf (pending_routes ready) /\
  store_wf (pending_guides ready) /\
  exists r',
    get 1 (pending_routes (run syncAllPending ready)) = Some r' /\
    Pending.retryCount r' = 1 /\
    Pending.status r' = pending.
Proof.
  assert (Hwr : store_wf (pending_routes ready)).
  { split; cbn.
    - constructor; [intros []|constructor].
    - constructor; [cbn; lia|constructor]. }
  assert (Hwg : store_wf (pending_guides ready)) by (split; constructor).
  repeat (split; [first [reflexivity|assumption]|]).
  destruct (sync_failure_isolation ready alice eq_refl eq_refl eq_refl Hwr Hwg)
    as (_ & H & _).
  destruct (H 0 _ eq_refl eq_refl) as (r' & H1 & H2 & H3 & _).
  exists r'. repeat split; assumption.
Defined.

(** ** The loop of the drain *)

Lemma processEmailItem_queue item w :
  email_queue (processEmailItem item w) =
  if eligible item
  then modify (Email.id item) (relay_settle (relay_resolves w []) (now w))
         (email_queue w)
  else email_queue w.
Proof.
  unfold processEmailItem, eligible, relay_resolves, sendEmailBackup, remote.
  destruct (3 <=? Email.retryCount item); cbn [negb]; [reflexivity|].
  destruct (configured (emailjs w)); cbn [negb].
  - cbn [filter List.length]. rewrite Nat.add_0_r.
    destruct (network w (netCalls w)); unfold_transactions; reflexivity.
  - unfold_transactions. reflexivity.
Qed.

Lemma processEmailItem_net item w :
  network (processEmailItem item w) = network w /\
  now (processEmailItem item w) = now w /\
  emailjs (processEmailItem item w) = emailjs w /\
  netCalls (processEmailItem item w) =
    netCalls w + List.length (relay_calls (emailjs w) [item]) /\
  trace (processEmailItem item w) = trace w ++ relay_calls (emailjs w) [item].
Proof.
  unfold processEmailItem, relay_calls, sendEmailBackup, remote.
  cbn [filter]. unfold eligible.
  destruct (3 <=? Email.retryCount item); cbn [negb].
  { destruct (configured (emailjs w)); cbn [map List.length];
      rewrite app_nil_r, Nat.add_0_r; now repeat split. }
  destruct (configured (emailjs w)); cbn [negb map List.length].
  - destruct (network w (netCalls w)); unfold_transactions;
      repeat split; cbn; lia.
  - unfold_transactions. rewrite app_nil_r, Nat.add_0_r. now repeat split.
Qed.

Lemma relay_settle_key b t x : key (relay_settle b t x) = key x.
Proof. now destruct b. Qed.

(** The query of a drain throws, whatever the queue holds. *)
Lemma unsent_throws w : unsent w = None.
Proof. reflexivity. Qed.

Lemma filter_nil_when {A : Type} (p : A -> bool) l :
  (forall x, In x l -> p x = false) -> filter p l = [].
Proof.
  induction l as [|x l IH]; intros Hp; cbn [filter]; [reflexivity|].
  rewrite (Hp x (or_introl eq_refl)). apply IH.
  intros y Hy. apply Hp. now right.
Qed.

Lemma sends_for_app id tr1 tr2 :
  sends_for id (tr1 ++ tr2) = sends_for id tr1 + sends_for id tr2.
Proof. unfold sends_for. now rewrite filter_app, length_app. Qed.

Lemma nth_error_length_app {A : Type} (l : list A) (x : A) :
  nth_error (l ++ [x]) (List.length l) = Some x.
Proof. induction l as [|y l IH]; [reflexivity|exact IH]. Qed.

Lemma loadEmailJS_preloaded scriptLoads w :
  emailjs_defined w = true -> emailJsLoaded (loadEmailJS scriptLoads w) = true.
Proof.
  intros Hd. unfold loadEmailJS.
  destruct (emailJsLoaded w) eqn:Hl; [assumption|]. now rewrite Hd.
Qed.

(** The loop body, handed an entry while the configuration is
    incomplete: [sendEmailBackup] returns without a call and the entry is
    marked sent. *)
Lemma processEmailItem_unconfigured item w :
  configured (emailjs w) = false ->
  eligible item = true ->
  get (Email.id item) (email_queue w) = Some item ->
  get (Email.id item) (email_queue (processEmailItem item w)) =
    Some (set_sent (now w) item) /\
  trace (processEmailItem item w) = trace w.
Proof.
  intros Hcfg Hel Hget.
  destruct (processEmailItem_net item w) as (_ & _ & _ & _ & Ht).
  rewrite Ht, processEmailItem_queue, Hel. unfold relay_calls, relay_resolves.
  rewrite Hcfg, app_nil_r. split; [|reflexivity].
  rewrite get_modify_same by (intros y; apply relay_settle_key).
  now rewrite Hget.
Qed.

(** ** The drain of the backup outbox *)

(** C6.  The drain never sends a queued backup.  [processEmailQueue] asks
    the index over [sent] for the key [false]; a boolean is not a valid
    key, so the query throws, the exception is caught, and the loop that
    sends and marks is not entered.  An entry created by [queueEmailBackup]
    is still [sent = false] with [retryCount = 0] after one drain and after
    two, and no remote call was made, also with the relay loaded and
    configured and the instance online. *)
Theorem queued_backup_is_never_sent :
  forall (w : World) (type : Kind) (data : Pending.t),
    store_wf (email_queue w) ->
    let id := fst (queueEmailBackup type data w) in
    let w1 := snd (queueEmailBackup type data w) in
    let w2 := processEmailQueue w1 in
    let w3 := processEmailQueue w2 in
    let entry := Email.mk id type data (now w) false 0 None in
    unsent w1 = None /\
    get id (email_queue w1) = Some entry /\
    get id (email_queue w2) = Some entry /\
    get id (email_queue w3) = Some entry /\
    trace w2 = trace w /\
    trace w3 = trace w /\
    netCalls w3 = netCalls w.
Proof.
  intros w type data Hwf id w1 w2 w3 entry.
  destruct (processEmailQueue_inert w1) as (E2 & T2 & N2).
  destruct (processEmailQueue_inert w2) as (E3 & T3 & N3).
  fold w2 in E2, T2, N2. fold w3 in E3, T3, N3.
  assert (H1 : get id (email_queue w1) = Some entry).
  { exact (get_add_new (Email.mk 0 type data (now w) false 0 None)
             (email_queue w) Hwf). }
  split; [reflexivity|]. split; [exact H1|].
  split; [now rewrite E2|]. split; [now rewrite E3, E2|].
  split; [exact T2|]. split; [now rewrite T3, T2|].
  now rewrite N3, N2.
Qed.

Lemma queued_backup_is_never_sent_witness :
  let data := newPending "Loop Trail" None fresh in
  let w2 := processEmailQueue (snd (queueEmailBackup Route data relay_ready)) in
  emailJsLoaded relay_ready = true /\
  isOnline relay_ready = true /\
  configured (emailjs relay_ready) = true /\
  network relay_ready 0 = Some "doc" /\
  get 1 (email_queue w2) = Some (Email.mk 1 Route data 7 false 0 None) /\
  trace w2 = [].
Proof.
  cbn zeta. do 4 (split; [reflexivity|]).
  assert (Hwf : store_wf (email_queue relay_ready)) by (split; constructor).
  destruct (queued_backup_is_never_sent relay_ready Route
              (newPending "Loop Trail" None fresh) Hwf)
    as (_ & _ & H2 & _ & T2 & _).
  split; [exact H2|exact T2].
Defined.

(** ** A relay that is loaded but not configured *)

(** C9.  With an incomplete configuration [sendEmailBackup] resolves
    without calling [emailjs.send], and the loop of the drain, handed an
    entry with [retryCount < 3], goes on to mark it sent.  The drain does
    not get there: its query throws, so it marks no entry, calls nothing,
    and every entry of the queue stays unsent, also with the library
    loaded and the instance online. *)
Theorem unconfigured_drain_marks_nothing :
  forall (w : World),
    configured (emailjs w) = false ->
    (forall item, sendEmailBackup item w = (Some tt, w)) /\
    (forall item,
       eligible item = true ->
       get (Email.id item) (email_queue w) = Some item ->
       get (Email.id item) (email_queue (processEmailItem item w)) =
         Some (set_sent (now w) item) /\
       trace (processEmailItem item w) = trace w) /\
    unsent w = None /\
    email_queue (processEmailQueue w) = email_queue w /\
    trace (processEmailQueue w) = trace w /\
    netCalls (processEmailQueue w) = netCalls w.
Proof.
  intros w Hcfg. split.
  { intros item. unfold sendEmailBackup. now rewrite Hcfg. }
  split; [intros item; now apply processEmailItem_unconfigured|].
  split; [reflexivity|]. apply processEmailQueue_inert.
Qed.

Lemma unconfigured_drain_marks_nothing_witness :
  emailJsLoaded loaded_unconfigured = true /\
  isOnline loaded_unconfigured = true /\
  configured (emailjs loaded_unconfigured) = false /\
  (exists item,
     get 1 (email_queue loaded_unconfigured) = Some item /\
     Email.sent item = false /\ Email.retryCount item = 0 /\
     get 1 (email_queue (processEmailQueue loaded_unconfigured)) = Some item) /\
  trace (processEmailQueue loaded_unconfigured) = [].
Proof.
  do 3 (split; [reflexivity|]).
  destruct (unconfigured_drain_marks_nothing loaded_unconfigured eq_refl)
    as (_ & _ & _ & E & T & _).
  split; [|exact T].
  eexists. split; [reflexivity|]. split; [reflexivity|].
  split; [reflexivity|]. rewrite E. reflexivity.
Defined.

(** ** Overlapping invocations of [syncAllPending] *)

Lemma holds_flag_await k : code_holds_flag k -> holds_flag (await k).
Proof.
  intros Hk w Hw. cbn [holds_flag]. specialize (Hk w Hw).
  now destruct (k w).
Qed.

Lemma syncResults_holds_flag sc fc : code_holds_flag (syncResults sc fc).
Proof.
  intros w Hw. unfold syncResults. cbn [fst snd is_done negb]. split.
  - destruct (0 <? sc), (0 <? fc); exact Hw.
  - apply holds_flag_await. intros w' Hw'. cbn [fst snd is_done negb holds_flag].
    split; [reflexivity|exact I].
Qed.

Lemma syncInProgress_syncItem sn user r w :
  syncInProgress (syncItem sn user r w) = syncInProgress w.
Proof.
  unfold syncItem, remote. destruct sn; destruct (network w (netCalls w));
    cbn [markUploaded]; unfold_transactions; reflexivity.
Qed.

Lemma syncRoutes_holds_flag l user k :
  (forall sc fc, code_holds_flag (k sc fc)) ->
  forall sc fc, code_holds_flag (syncRoutes l user sc fc k).
Proof.
  intros Hk. induction l as [|r l IH]; intros sc fc w Hw; cbn [syncRoutes].
  - now apply Hk.
  - cbn [fst snd is_done negb]. split; [exact Hw|].
    apply holds_flag_await. intros w1 Hw1. unfold uploadRouteToCloud, remote.
    destruct (network w1 (netCalls w1)); cbn [fst snd is_done negb];
      (split; [exact Hw1|]); apply holds_flag_await; intros w2 Hw2; apply IH;
      unfold_transactions; exact Hw2.
Qed.

Lemma syncGuides_holds_flag l user k :
  (forall sc fc, code_holds_flag (k sc fc)) ->
  forall sc fc, code_holds_flag (syncGuides l user sc fc k).
Proof.
  intros Hk. induction l as [|r l IH]; intros sc fc w Hw; cbn [syncGuides].
  - now apply Hk.
  - cbn [fst snd is_done negb]. split; [exact Hw|].
    apply holds_flag_await. intros w1 Hw1. unfold uploadGuideToCloud, remote.
    destruct (network w1 (netCalls w1)); cbn [fst snd is_done negb];
      (split; [exact Hw1|]); apply holds_flag_await; intros w2 Hw2; apply IH;
      unfold_transactions; exact Hw2.
Qed.

(** An invocation that finds the flag set is a report and nothing else. *)
Lemma syncAllPending_busy w :
  syncInProgress w = true ->
  syncAllPending w = (notify (console log "Sync already in progress...") w, done).
Proof. intros Hflag. unfold syncAllPending. now rewrite Hflag. Qed.

(** An invocation that finds the flag clear either returns at once, with
    the flag still clear, or sets the flag and holds it. *)
Lemma syncAllPending_idle w :
  syncInProgress w = false ->
  syncInProgress (fst (syncAllPending w)) = negb (is_done (snd (syncAllPending w))) /\
  holds_flag (snd (syncAllPending w)).
Proof.
  intros Hflag. unfold syncAllPending. rewrite Hflag.
  destruct (negb (isOnline w)); cbn [fst snd is_done negb].
  { split; [exact Hflag|exact I]. }
  split; [reflexivity|]. apply holds_flag_await. intros w1 Hw1.
  destruct (currentUser w1) as [user|]; cbn [fst snd is_done negb].
  2:{ split; [reflexivity|exact I]. }
  split; [exact Hw1|]. apply holds_flag_await. intros w2 Hw2.
  cbn [fst snd is_done negb]. split; [exact Hw2|].
  apply holds_flag_await. intros w3 Hw3.
  match goal with |- context [if ?b then _ else _] => destruct b end.
  { cbn [fst snd is_done negb]. split; [reflexivity|exact I]. }
  apply syncRoutes_holds_flag; [|exact Hw3].
  intros sc fc. apply syncGuides_holds_flag.
  intros sc' fc'. apply syncResults_holds_flag.
Qed.

(** *** The pool of invocations *)

Lemma nth_error_set_nth_same {A : Type} i (x : A) l :
  i < List.length l -> nth_error (set_nth i x l) i = Some x.
Proof.
  revert i. induction l as [|y l IH]; intros [|i] Hi; cbn in *; try lia.
  - reflexivity.
  - apply IH. lia.
Qed.

Lemma nth_error_set_nth_other {A : Type} i j (x : A) l :
  j <> i -> nth_error (set_nth i x l) j = nth_error l j.
Proof.
  revert i j. induction l as [|y l IH]; intros [|i] [|j] Hj; cbn;
    try reflexivity; try congruence.
  apply IH. congruence.
Qed.

Lemma length_set_nth {A : Type} i (x : A) l :
  List.length (set_nth i x l) = List.length l.
Proof.
  revert i. induction l as [|y l IH]; intros [|i]; cbn; try reflexivity.
  now rewrite IH.
Qed.

Lemma pool_ok_flag_clear w pool :
  pool_ok (w, pool) -> syncInProgress w = false ->
  forall j q, nth_error pool j = Some q -> is_done (task q) = true.
Proof.
  intros Hok Hflag j q Hq. destruct (is_done (task q)) eqn:Hd; [reflexivity|].
  destruct (Hok j q Hq Hd) as [Hf _]. cbn in Hf. congruence.
Qed.

Lemma nth_error_snoc {A : Type} (l : list A) x j y :
  nth_error (l ++ [x]) j = Some y ->
  (j < List.length l /\ nth_error l j = Some y) \/ (j = List.length l /\ y = x).
Proof.
  intros Hj. destruct (Nat.lt_ge_cases j (List.length l)) as [Hlt|Hge].
  - left. split; [assumption|]. now rewrite nth_error_app1 in Hj.
  - right. rewrite nth_error_app2 in Hj by assumption.
    destruct (j - List.length l) as [|m] eqn:Hm; cbn in Hj.
    + split; [lia|congruence].
    + destruct m; discriminate.
Qed.

Lemma pool_ok_act a c : pool_ok c -> pool_ok (act a c).
Proof.
  destruct c as [w pool]. intros Hok. destruct a as [|i]; cbn [act].
  - (* Call *)
    destruct (syncInProgress w) eqn:Hflag.
    + rewrite (syncAllPending_busy w Hflag).
      intros j q Hq Hd. cbn [fst snd] in *.
      apply nth_error_snoc in Hq. destruct Hq as [[Hlt Hq]|[_ ->]];
        [|discriminate].
      destruct (Hok j q Hq Hd) as (_ & Hh & Hothers).
      split; [exact Hflag|split; [exact Hh|]].
      intros j' q' Hq' Hne. apply nth_error_snoc in Hq'.
      destruct Hq' as [[_ Hq']|[_ ->]]; [|reflexivity].
      exact (Hothers j' q' Hq' Hne).
    + pose proof (syncAllPending_idle w Hflag) as [Hf Hh].
      pose proof (pool_ok_flag_clear w pool Hok Hflag) as Hall.
      destruct (syncAllPending w) as [w1 t]. cbn [fst snd] in *.
      intros j q Hq Hd. apply nth_error_snoc in Hq.
      destruct Hq as [[_ Hq]|[Hj ->]].
      { rewrite (Hall j q Hq) in Hd. discriminate. }
      cbn [task] in *. rewrite Hd in Hf.
      split; [exact Hf|split; [exact Hh|]].
      intros j' q' Hq' Hne. apply nth_error_snoc in Hq'.
      destruct Hq' as [[_ Hq']|[Hj' _]]; [|congruence].
      exact (Hall j' q' Hq').
  - (* Resume i *)
    destruct (nth_error pool i) as [[[|k] n]|] eqn:Hi; try exact Hok.
    destruct (Hok i _ Hi eq_refl) as (Hflag & Hh & Hothers).
    cbn [fst snd task] in *. specialize (Hh w Hflag).
    destruct (k w) as [w1 t1]. destruct Hh as [Hf Hh1].
    assert (Hlen : i < List.length pool).
    { apply nth_error_Some. congruence. }
    intros j q Hq Hd. cbn [fst snd] in *.
    destruct (Nat.eq_dec j i) as [->|Hne].
    + rewrite nth_error_set_nth_same in Hq by assumption.
      injection Hq as <-. cbn [task] in *. rewrite Hd in Hf.
      split; [exact Hf|split; [exact Hh1|]].
      intros j' q' Hq' Hne'. rewrite nth_error_set_nth_other in Hq' by assumption.
      exact (Hothers j' q' Hq' Hne').
    + rewrite nth_error_set_nth_other in Hq by assumption.
      rewrite (Hothers j q Hq Hne) in Hd. discriminate.
Qed.

Lemma pool_ok_interleave acts c : pool_ok c -> pool_ok (interleave acts c).
Proof.
  unfold interleave. revert c.
  induction acts as [|a acts IH]; intros c Hok; cbn [fold_left]; [assumption|].
  apply IH. now apply pool_ok_act.
Qed.

Lemma pool_ok_empty w : pool_ok (w, []).
Proof. intros [|i] p Hp; discriminate. Qed.

Lemma running_flag c : pool_ok c -> running c = true -> syncInProgress (fst c) = true.
Proof.
  intros Hok Hrun. unfold running in Hrun. apply existsb_exists in Hrun.
  destruct Hrun as [p [Hin Hd]]. apply negb_true_iff in Hd.
  destruct (In_nth_error _ _ Hin) as [i Hi].
  now destruct (Hok i p Hi Hd).
Qed.

(** An invocation that has returned stays as it is. *)
Lemma returned_stays a c i n :
  nth_error (snd c) i = Some (mkPass done n) ->
  nth_error (snd (act a c)) i = Some (mkPass done n).
Proof.
  destruct c as [w pool]. intros Hi. destruct a as [|j]; cbn [act].
  - destruct (syncAllPending w) as [w1 t]. cbn [snd] in *.
    rewrite nth_error_app1; [assumption|]. apply nth_error_Some. congruence.
  - destruct (nth_error pool j) as [[[|k] m]|] eqn:Hj; try assumption.
    destruct (k w) as [w1 t1]. cbn [snd] in *.
    rewrite nth_error_set_nth_other; [assumption|]. intros ->. congruence.
Qed.

Lemma returned_stays_interleave acts c i n :
  nth_error (snd c) i = Some (mkPass done n) ->
  nth_error (snd (interleave acts c)) i = Some (mkPass done n).
Proof.
  unfold interleave. revert c.
  induction acts as [|a acts IH]; intros c Hi; cbn [fold_left]; [assumption|].
  apply IH. now apply returned_stays.
Qed.

Lemma length_resume rs c :
  List.length (snd (interleave (map Resume rs) c)) = List.length (snd c).
Proof.
  unfold interleave. revert c.
  induction rs as [|i rs IH]; intros [w pool]; cbn [map fold_left]; [reflexivity|].
  rewrite IH. cbn [act].
  destruct (nth_error pool i) as [[[|k] m]|]; try reflexivity.
  destruct (k w) as [w1 t1]. cbn [snd]. apply length_set_nth.
Qed.

Lemma interleave_cons a acts c :
  interleave (a :: acts) c = interleave acts (act a c).
Proof. reflexivity. Qed.

Lemma first_call_pool w rs :
  List.length (snd (interleave (Call :: map Resume rs) (w, []))) = 1.
Proof.
  rewrite interleave_cons, length_resume. cbn [act].
  now destruct (syncAllPending w).
Qed.

(** Whatever was invoked and resumed before, an invocation made while a
    pass is running only leaves the report and has returned. *)
Lemma call_while_running acts w :
  let c := interleave acts (w, []) in
  running c = true ->
  act Call c =
  (notify (console log "Sync already in progress...") (fst c),
   snd c ++ [mkPass done 0]).
Proof.
  intros c Hrun.
  assert (Hok : pool_ok c) by apply pool_ok_interleave, pool_ok_empty.
  pose proof (running_flag c Hok Hrun) as Hflag.
  destruct c as [w1 pool]. cbn [act fst snd] in *.
  rewrite (syncAllPending_busy w1 Hflag). cbn [netCalls notify set_notices].
  now rewrite Nat.sub_diag.
Qed.

(** With nothing to upload, two overlapping invocations both return
    without a single remote call: not one of them performs remote writes. *)
Lemma concurrent_sync_no_writer :
  running (interleave [Call; Call; Resume 0; Resume 1; Resume 0; Resume 0]
             (nothing_pending, [])) = false /\
  ~ one_pass_writes nothing_pending [] [0; 1; 0; 0].
Proof.
  split; [reflexivity|].
  intros H. specialize (H eq_refl). vm_compute in H. discriminate.
Qed.

(** *** The pass that has work uploads *)

Section FirstPass.
Variable w0 : World.
Let R := has_work w0.

Lemma syncGuides_calls l user sc fc k w :
  l <> [] ->
  R w ->
  netCalls (fst (syncGuides l user sc fc k w)) = netCalls w /\
  R (fst (syncGuides l user sc fc k w)) /\
  calls_before_done R (snd (syncGuides l user sc fc k w)).
Proof.
  intros Hl Hw. destruct l as [|g rest]; [contradiction|].
  cbn [syncGuides fst snd]. split; [reflexivity|]. split; [exact Hw|].
  cbn [calls_before_done]. intros w' Hw'.
  unfold uploadGuideToCloud, remote.
  destruct (network w' (netCalls w')); left; cbn [netCalls]; lia.
Qed.

Lemma syncRoutes_calls l user sc fc k w :
  (l <> [] \/
   forall sc' fc' w', R w' ->
     netCalls (fst (k sc' fc' w')) = netCalls w' /\
     R (fst (k sc' fc' w')) /\
     calls_before_done R (snd (k sc' fc' w'))) ->
  R w ->
  netCalls (fst (syncRoutes l user sc fc k w)) = netCalls w /\
  R (fst (syncRoutes l user sc fc k w)) /\
  calls_before_done R (snd (syncRoutes l user sc fc k w)).
Proof.
  intros Hl Hw. destruct l as [|r rest].
  - destruct Hl as [Hl|Hk]; [contradiction|]. cbn [syncRoutes]. now apply Hk.
  - cbn [syncRoutes fst snd]. split; [reflexivity|]. split; [exact Hw|].
    cbn [calls_before_done]. intros w' Hw'.
    unfold uploadRouteToCloud, remote.
    destruct (network w' (netCalls w')); left; cbn [netCalls]; lia.
Qed.

(** An invocation that finds the instance idle and online, with a user
    signed in and something pending, makes a remote call before it
    returns, as long as nothing else writes the stores or signs the user
    out. *)
Lemma syncAllPending_calls w :
  syncInProgress w = false ->
  isOnline w = true ->
  0 < getPendingCount w0 ->
  R w ->
  netCalls (fst (syncAllPending w)) = netCalls w /\
  R (fst (syncAllPending w)) /\
  calls_before_done R (snd (syncAllPending w)).
Proof.
  intros Hf Ho Hc Hw. unfold syncAllPending. rewrite Hf, Ho. cbn [negb fst snd].
  split; [reflexivity|]. split; [exact Hw|].
  cbn [calls_before_done]. intros w1 Hw1.
  destruct (currentUser w1) as [user|] eqn:Hu; [|now destruct Hw1].
  right. split; [reflexivity|]. split; [exact Hw1|].
  cbn [calls_before_done]. intros w2 Hw2.
  right. split; [reflexivity|]. split; [exact Hw2|].
  cbn [calls_before_done]. intros w3 Hw3.
  assert (Hr : getPendingRoutes w2 = getPendingRoutes w0).
  { unfold getPendingRoutes. destruct Hw2 as (_ & -> & _). reflexivity. }
  assert (Hg : getPendingGuides w3 = getPendingGuides w0).
  { unfold getPendingGuides. destruct Hw3 as (_ & _ & ->). reflexivity. }
  rewrite Hr, Hg. fold (getPendingCount w0).
  destruct (getPendingCount w0 =? 0) eqn:Hz.
  { apply Nat.eqb_eq in Hz. lia. }
  assert (Hcalls :
    let c := syncRoutes (filter is_pending (getPendingRoutes w0)) user 0 0
               (fun sc fc =>
                  syncGuides (filter is_pending (getPendingGuides w0)) user sc fc
                    syncResults)
               (notify (toast_count info "Syncing items" (getPendingCount w0)) w3) in
    netCalls (fst c) = netCalls w3 /\ R (fst c) /\
    calls_before_done R (snd c)).
  { refine (syncRoutes_calls _ user 0 0 _
              (notify (toast_count info "Syncing items" (getPendingCount w0)) w3)
              _ Hw3).
    destruct (filter is_pending (getPendingRoutes w0)) as [|r rest] eqn:Hpr;
      [right|left; discriminate].
    intros sc' fc' w' Hw'. apply syncGuides_calls; [|exact Hw'].
    intros Hpg. unfold getPendingCount in Hc.
    rewrite Hpr, Hpg in Hc. cbn in Hc. lia. }
  cbn zeta in Hcalls.
  destruct (syncRoutes _ _ _ _ _ _) as [w4 t4]. cbn [fst snd] in Hcalls.
  right. exact Hcalls.
Qed.

Lemma first_will_call_act a c :
  pool_ok c -> first_will_call w0 c -> first_will_call w0 (act a c).
Proof.
  destruct c as [w pool]. intros Hok (p & Hp & Hcase). cbn [fst snd] in *.
  assert (Hlen : 0 < List.length pool).
  { apply nth_error_Some. congruence. }
  destruct a as [|i]; cbn [act].
  - (* Call *)
    destruct Hcase as [Hwr|[Hw Hc]].
    + destruct (syncAllPending w) as [w1 t]. exists p. cbn [fst snd].
      split; [|now left]. now rewrite nth_error_app1.
    + assert (Hd : is_done (task p) = false).
      { destruct (task p); [contradiction|reflexivity]. }
      destruct (Hok 0 p Hp Hd) as (Hflag & _). cbn [fst] in Hflag.
      rewrite (syncAllPending_busy w Hflag). exists p. cbn [fst snd].
      split; [now rewrite nth_error_app1|]. right. split; [exact Hw|exact Hc].
  - (* Resume i *)
    destruct (nth_error pool i) as [[[|k] n]|] eqn:Hi;
      try (exists p; now split).
    destruct (Nat.eq_dec i 0) as [->|Hne].
    + rewrite Hp in Hi. injection Hi as ->. cbn [writes task] in Hcase.
      destruct Hcase as [Hwr|[Hw Hc]].
      * destruct (k w) as [w1 t1]. eexists. cbn [fst snd].
        rewrite nth_error_set_nth_same by exact Hlen.
        split; [reflexivity|]. left. cbn [writes]. lia.
      * cbn [calls_before_done] in Hc. specialize (Hc w Hw).
        destruct (k w) as [w1 t1]. eexists. cbn [fst snd].
        rewrite nth_error_set_nth_same by exact Hlen.
        split; [reflexivity|]. cbn [writes task].
        destruct Hc as [Hlt|(Heq & Hw1 & Hc1)]; [left; lia|right; now split].
    + destruct Hcase as [Hwr|[Hw Hc]].
      * destruct (k w) as [w1 t1]. exists p. cbn [fst snd].
        rewrite nth_error_set_nth_other by congruence. split; [exact Hp|now left].
      * exfalso.
        assert (Hd : is_done (task p) = false).
        { destruct (task p); [contradiction|reflexivity]. }
        destruct (Hok i _ Hi eq_refl) as (_ & _ & Hothers).
        cbn [snd] in Hothers.
        rewrite (Hothers 0 p Hp ltac:(congruence)) in Hd. discriminate.
Qed.

Lemma first_will_call_interleave acts c :
  pool_ok c -> first_will_call w0 c -> first_will_call w0 (interleave acts c).
Proof.
  unfold interleave. revert c.
  induction acts as [|a acts IH]; intros c Hok Hc; cbn [fold_left]; [assumption|].
  apply IH; [now apply pool_ok_act|now apply first_will_call_act].
Qed.

End FirstPass.

(** A first invocation that has not returned was made while the instance
    was idle and online. *)
Lemma first_call_running w rs :
  running (interleave (Call :: map Resume rs) (w, [])) = true ->
  syncInProgress w = false /\ isOnline w = true.
Proof.
  intros Hrun.
  assert (Hdone : forall w1,
            syncAllPending w = (w1, done) ->
            running (interleave (Call :: map Resume rs) (w, [])) = false).
  { intros w1 Hs.
    pose proof (first_call_pool w rs) as Hlen.
    pose proof (returned_stays_interleave (map Resume rs) (act Call (w, [])) 0
                  (netCalls w1 - netCalls w)) as Hst.
    rewrite <- interleave_cons in Hst.
    destruct (interleave (Call :: map Resume rs) (w, [])) as [w2 pool].
    cbn [snd] in *. destruct pool as [|p [|q l]]; try discriminate.
    cbn [act] in Hst. rewrite Hs in Hst. cbn [snd app nth_error] in Hst.
    specialize (Hst eq_refl). injection Hst as ->. reflexivity. }
  destruct (syncInProgress w) eqn:Hf.
  { rewrite (Hdone _ (syncAllPending_busy w Hf)) in Hrun. discriminate. }
  destruct (isOnline w) eqn:Ho; [now split|].
  assert (Hs : syncAllPending w =
               (notify (toast error "No internet connection") w, done)).
  { unfold syncAllPending. now rewrite Hf, Ho. }
  rewrite (Hdone _ Hs) in Hrun. discriminate.
Qed.

(** C3 (amended).  An invocation of [syncAllPending] that finds
    [syncInProgress] set returns at once and only leaves the report
    'Sync already in progress...'.  In every interleaving of two
    invocations of which the second is made while the first has not
    returned, the second makes no remote call and changes no store, at its
    invocation or later, so at most one of the two passes performs remote
    writes.  When a user is signed in and a route or guide is pending as
    the first is invoked, exactly one of the two has performed remote
    writes once both have returned: the first. *)
Theorem concurrent_sync_second_is_noop :
  (forall w,
     syncInProgress w = true ->
     syncAllPending w =
     (notify (console log "Sync already in progress...") w, done)) /\
  (forall (w : World) (rs1 rs2 : list nat),
     let c1 := interleave (Call :: map Resume rs1) (w, []) in
     running c1 = true ->
     let c2 := act Call c1 in
     let c3 := interleave (map Resume rs2) c2 in
     fst c2 = notify (console log "Sync already in progress...") (fst c1) /\
     trace (fst c2) = trace (fst c1) /\
     netCalls (fst c2) = netCalls (fst c1) /\
     pending_routes (fst c2) = pending_routes (fst c1) /\
     pending_guides (fst c2) = pending_guides (fst c1) /\
     email_queue (fst c2) = email_queue (fst c1) /\
     nth_error (snd c2) 1 = Some (mkPass done 0) /\
     nth_error (snd c3) 1 = Some (mkPass done 0) /\
     writers c3 <= 1) /\
  (forall (w : World) (rs1 rs2 : list nat),
     currentUser w <> None ->
     0 < getPendingCount w ->
     let c1 := interleave (Call :: map Resume rs1) (w, []) in
     running c1 = true ->
     let c3 := interleave (map Resume rs2) (act Call c1) in
     running c3 = false ->
     writers c3 = 1 /\
     exists n, 0 < n /\ snd c3 = [mkPass done n; mkPass done 0]).
Proof.
  assert (Hsecond : forall (w : World) (rs1 rs2 : list nat),
            let c1 := interleave (Call :: map Resume rs1) (w, []) in
            running c1 = true ->
            let c2 := act Call c1 in
            let c3 := interleave (map Resume rs2) c2 in
            c2 = (notify (console log "Sync already in progress...") (fst c1),
                  snd c1 ++ [mkPass done 0]) /\
            nth_error (snd c2) 1 = Some (mkPass done 0) /\
            nth_error (snd c3) 1 = Some (mkPass done 0) /\
            List.length (snd c3) = 2).
  { intros w rs1 rs2 c1 Hrun c2 c3.
    pose proof (first_call_pool w rs1) as Hlen. fold c1 in Hlen.
    assert (Hc2 : c2 = (notify (console log "Sync already in progress...") (fst c1),
                        snd c1 ++ [mkPass done 0])).
    { apply (call_while_running (Call :: map Resume rs1) w Hrun). }
    assert (H2 : nth_error (snd c2) 1 = Some (mkPass done 0)).
    { rewrite Hc2. cbn [snd]. rewrite <- Hlen. apply nth_error_length_app. }
    split; [exact Hc2|]. split; [exact H2|]. split.
    - unfold c3. now apply returned_stays_interleave.
    - unfold c3. rewrite length_resume, Hc2. cbn [snd].
      rewrite length_app, Hlen. reflexivity. }
  split; [exact syncAllPending_busy|]. split.
  - intros w rs1 rs2 c1 Hrun c2 c3.
    destruct (Hsecond w rs1 rs2 Hrun) as (Hc2 & H2 & H3 & Hlen3).
    fold c1 c2 c3 in Hc2, H2, H3, Hlen3.
    rewrite Hc2 at 1 2 3 4 5 6. cbn [fst].
    repeat (split; [reflexivity|]).
    split; [exact H2|split; [exact H3|]].
    unfold writers. destruct (snd c3) as [|p [|q [|r l]]]; try discriminate.
    cbn [nth_error] in H3. injection H3 as ->.
    cbn [filter writes]. change (0 <? 0) with false.
    destruct (0 <? writes p); cbn [List.length]; lia.
  - intros w rs1 rs2 Hu Hc c1 Hrun c3 Hend.
    destruct (Hsecond w rs1 rs2 Hrun) as (_ & _ & H3 & Hlen3).
    fold c1 c3 in H3, Hlen3.
    destruct (first_call_running w rs1 Hrun) as [Hf Ho].
    assert (Hfirst : first_will_call w c3).
    { unfold c3, c1. rewrite interleave_cons.
      apply first_will_call_interleave.
      - apply pool_ok_act, pool_ok_interleave, pool_ok_act, pool_ok_empty.
      - apply first_will_call_act;
          [apply pool_ok_interleave, pool_ok_act, pool_ok_empty|].
        apply first_will_call_interleave; [apply pool_ok_act, pool_ok_empty|].
        pose proof (syncAllPending_calls w w Hf Ho Hc
                      (conj Hu (conj eq_refl eq_refl))) as Hcalls.
        cbn [act]. destruct (syncAllPending w) as [w1 t1].
        cbn [fst snd] in Hcalls.
        destruct Hcalls as (N & W & C). eexists. cbn [fst snd app nth_error].
        split; [reflexivity|]. right. now split. }
    destruct Hfirst as (p & Hp & Hcase).
    unfold running in Hend. unfold writers.
    destruct (snd c3) as [|p0 [|q [|r l]]]; try discriminate.
    cbn [nth_error] in H3, Hp. injection H3 as ->. injection Hp as ->.
    cbn [existsb task is_done negb] in Hend.
    rewrite orb_false_r in Hend. apply negb_false_iff in Hend.
    destruct p as [t n]. cbn [task writes] in *.
    destruct t; [|discriminate].
    destruct Hcase as [Hn|[_ []]].
    cbn [filter writes]. change (0 <? 0) with false.
    apply Nat.ltb_lt in Hn. rewrite Hn. split; [reflexivity|].
    exists n. apply Nat.ltb_lt in Hn. now split.
Qed.

Lemma concurrent_sync_second_is_noop_witness :
  running (interleave (Call :: map Resume [0; 0; 0]) (ready, [])) = true /\
  nth_error
    (snd (interleave (map Resume [1; 0; 1; 0; 0])
            (act Call (interleave (Call :: map Resume [0; 0; 0]) (ready, [])))))
    1 = Some (mkPass done 0) /\
  syncAllPending (set_syncInProgress true ready) =
  (notify (console log "Sync already in progress...")
     (set_syncInProgress true ready), done) /\
  running
    (interleave (map Resume [1; 0; 1; 0; 0])
       (act Call (interleave (Call :: map Resume [0; 0; 0]) (ready, [])))) = false /\
  writers
    (interleave (map Resume [1; 0; 1; 0; 0])
       (act Call (interleave (Call :: map Resume [0; 0; 0]) (ready, [])))) = 1.
Proof.
  destruct concurrent_sync_second_is_noop as (H1 & H2 & H3).
  split; [reflexivity|]. split.
  - destruct (H2 ready [0; 0; 0] [1; 0; 1; 0; 0] eq_refl)
      as (_ & _ & _ & _ & _ & _ & _ & H & _).
    exact H.
  - split; [apply H1; reflexivity|]. split; [reflexivity|].
    assert (Hc : 0 < getPendingCount ready) by (cbn; lia).
    exact (proj1 (H3 ready [0; 0; 0] [1; 0; 1; 0; 0]
                    ltac:(discriminate) Hc eq_refl eq_refl)).
Defined.

(** ** The poll fallback and the [online] listener *)

Lemma showPendingNotification_positive count w :
  0 < count ->
  showPendingNotification count w =
  setTimeout removeBanner 10000%N (notify (banner count) w).
Proof.
  intros Hc. unfold showPendingNotification.
  destruct (count =? 0) eqn:Hz; [|reflexivity].
  apply Nat.eqb_eq in Hz. lia.
Qed.

Lemma onOnline_flip w :
  0 < getPendingCount w ->
  onOnline w =
  processEmailQueue
    (setTimeout autoSync 3000%N
       (showPendingNotification (getPendingCount w) (set_isOnline true w))).
Proof.
  intros Hc. unfold onOnline.
  change (getPendingCount (set_isOnline true w)) with (getPendingCount w).
  apply Nat.ltb_lt in Hc. now rewrite Hc.
Qed.

Lemma connectivityPoll_flip w :
  isOnline w = false ->
  navigator_onLine w = true ->
  0 < getPendingCount w ->
  connectivityPoll w =
  processEmailQueue
    (run syncAllPending
       (showPendingNotification (getPendingCount w) (set_isOnline true w))).
Proof.
  intros Hoff Hnav Hc. unfold connectivityPoll. rewrite Hoff, Hnav.
  cbn [negb andb isOnline set_isOnline].
  change (getPendingCount (set_isOnline true w)) with (getPendingCount w).
  apply Nat.ltb_lt in Hc. now rewrite Hc.
Qed.

(** On the same flip the poll makes a remote call at once and schedules
    nothing, while the listener schedules the sync and makes no call. *)
Lemma poll_unlike_push :
  isOnline one_pending_route = false /\
  navigator_onLine one_pending_route = true /\
  getPendingCount one_pending_route = 1 /\
  scheduled_syncs (connectivityPoll one_pending_route) = [] /\
  trace (connectivityPoll one_pending_route) = [addDoc "routes" "Loop Trail" "u1"] /\
  scheduled_syncs (onOnline one_pending_route) = [mkTimer autoSync 3000%N] /\
  trace (onOnline one_pending_route) = [] /\
  ~ poll_like_push one_pending_route.
Proof.
  repeat (split; [reflexivity|]).
  intros H. destruct (H eq_refl eq_refl) as [H1 _].
  - cbn. lia.
  - vm_compute in H1. discriminate.
Qed.

(** C8.  The poll fallback does not handle the flip as the [online]
    listener does.  With pending items the listener shows the
    notification, schedules exactly one [syncAllPending] after 3000 ms and
    goes on to [processEmailQueue].  The poll shows the same notification
    but schedules nothing: it runs the pass at once, without the settle
    delay, and waits for it before [processEmailQueue], so that a signed-in
    instance uploads every pending record within the poll itself. *)
Theorem poll_syncs_immediately :
  forall (w : World),
    isOnline w = false ->
    navigator_onLine w = true ->
    0 < getPendingCount w ->
    let shown :=
      showPendingNotification (getPendingCount w) (set_isOnline true w) in
    onOnline w = processEmailQueue (setTimeout autoSync 3000%N shown) /\
    scheduled_syncs (onOnline w) = scheduled_syncs w ++ [mkTimer autoSync 3000%N] /\
    connectivityPoll w = processEmailQueue (run syncAllPending shown) /\
    scheduled_syncs (connectivityPoll w) = scheduled_syncs w /\
    (forall user,
       syncInProgress w = false ->
       currentUser w = Some user ->
       exists rest,
         trace (connectivityPoll w) =
         trace w ++
         uploads store_routes user (filter is_pending (getPendingRoutes w)) ++
         uploads store_guides user (filter is_pending (getPendingGuides w)) ++
         rest).
Proof.
  intros w Hoff Hnav Hc shown.
  assert (Hshown : shown = setTimeout removeBanner 10000%N
                             (notify (banner (getPendingCount w)) (set_isOnline true w))).
  { unfold shown. now apply showPendingNotification_positive. }
  rewrite (onOnline_flip w Hc), (connectivityPoll_flip w Hoff Hnav Hc).
  fold shown.
  split; [reflexivity|]. split; [|split; [reflexivity|split]].
  - unfold scheduled_syncs.
    destruct (processEmailQueue_frame (setTimeout autoSync 3000%N shown))
      as (_ & _ & -> & _).
    rewrite Hshown. cbn [timers setTimeout set_timers notify set_notices set_isOnline].
    rewrite !filter_app. cbn [filter is_autoSync callback].
    now rewrite app_nil_r.
  - unfold scheduled_syncs.
    destruct (processEmailQueue_frame (run syncAllPending shown))
      as (_ & _ & -> & _).
    destruct (run_syncAllPending_frame shown) as (-> & _).
    rewrite Hshown. cbn [timers setTimeout set_timers notify set_notices set_isOnline].
    rewrite filter_app. cbn [filter is_autoSync callback].
    now rewrite app_nil_r.
  - intros user Hflag Huser.
    destruct (processEmailQueue_frame (run syncAllPending shown))
      as (_ & _ & _ & _ & _ & _ & _ & _ & _ & _ & _ & _ & _ & rest & ->).
    assert (Hf : syncInProgress shown = false) by (rewrite Hshown; exact Hflag).
    assert (Ho : isOnline shown = true) by (rewrite Hshown; reflexivity).
    assert (Hu : currentUser shown = Some user) by (rewrite Hshown; exact Huser).
    assert (Hn : 0 < getPendingCount shown) by (rewrite Hshown; exact Hc).
    destruct (run_syncAllPending_effect shown user Hf Ho Hu Hn)
      as (_ & _ & rest' & ->).
    rewrite Hshown.
    change (trace (setTimeout removeBanner 10000%N
                     (notify (banner (getPendingCount w)) (set_isOnline true w))))
      with (trace w).
    exists (rest' ++ rest). now rewrite <- !app_assoc.
Qed.

Lemma poll_syncs_immediately_witness :
  isOnline one_pending_route = false /\
  navigator_onLine one_pending_route = true /\
  0 < getPendingCount one_pending_route /\
  scheduled_syncs (connectivityPoll one_pending_route) =
  scheduled_syncs one_pending_route.
Proof.
  assert (Hc : 0 < getPendingCount one_pending_route) by (cbn; lia).
  repeat (split; [first [reflexivity|assumption]|]).
  destruct (poll_syncs_immediately one_pending_route eq_refl eq_refl Hc)
    as (_ & _ & _ & H & _).
  exact H.
Defined.

(** ** Flat queues at the retry cap *)

(** C2.  The loops of [processPhotoQueue] and [processSurveyQueue] skip
    the items that are ['uploaded'] or ['submitted'] only.  An item with
    [status = 'failed'] and [retryCount = 3] is attempted again by the next
    pass: when the upload is rejected its [retryCount] becomes 4, when it
    is accepted the item becomes ['uploaded'] or ['submitted']. *)
Theorem failed_items_are_retried :
  Photo.status failed_photo = failed /\
  Photo.retryCount failed_photo = 3 /\
  Survey.status failed_survey = failed /\
  Survey.retryCount failed_survey = 3 /\
  (let w := processPhotoQueue (set_pendingPhotos [failed_photo] fresh) in
   trace w = [uploadString 1 "data:image/jpeg;base64"] /\
   map Photo.status (pendingPhotos w) = [failed] /\
   map Photo.retryCount (pendingPhotos w) = [4]) /\
  (let w := processPhotoQueue (set_pendingPhotos [failed_photo] fresh_up) in
   trace w = [uploadString 1 "data:image/jpeg;base64"; getDownloadURL 1] /\
   map Photo.status (pendingPhotos w) = [uploaded] /\
   map Photo.retryCount (pendingPhotos w) = [3]) /\
  (let w := processSurveyQueue (set_pendingSurveys [failed_survey] fresh) in
   trace w = [addSurveyDoc "answers" None 5] /\
   map Survey.status (pendingSurveys w) = [failed] /\
   map Survey.retryCount (pendingSurveys w) = [4]) /\
  (let w := processSurveyQueue (set_pendingSurveys [failed_survey] fresh_up) in
   trace w = [addSurveyDoc "answers" None 5] /\
   map Survey.status (pendingSurveys w) = [submitted] /\
   map Survey.retryCount (pendingSurveys w) = [3]).
Proof. vm_compute. repeat split. Qed.

(** The cap is not reached by accident: in general a rejected upload of
    an item that is not ['uploaded'] increments its count, whatever the
    count and the status were. *)
Lemma processPhoto_rejected photo w :
  Photo.status photo <> uploaded ->
  network w (netCalls w) = None ->
  fst (processPhoto photo w) = photo_retried photo /\
  trace (snd (processPhoto photo w)) =
    trace w ++ [uploadString (Photo.id photo) (Photo.data photo)].
Proof.
  intros Hst Hnet. unfold processPhoto, remote.
  apply status_eqb_neq in Hst. rewrite Hst, Hnet. now split.
Qed.

(** ** The delayed prune of the flat queues *)

(** C7.  The callback scheduled by [processPhotoQueue] writes back the
    array the pass had read, without its uploaded items; an item queued
    between the pass and the callback is not in that array and is dropped
    from [localStorage].  Here a photo is uploaded, the connection is
    lost, a second photo is queued, and the prune fires. *)
Theorem prune_drops_later_items :
  let w1 := processPhotoQueue (set_pendingPhotos [pending_photo] fresh_up) in
  let w2 := onOffline w1 in
  let w3 := snd (queuePhoto (mkPhotoData "second" None None None)
                   (mkContext None None None) w2) in
  let w4 := fire 0 w3 in
  map (fun p => (Photo.id p, Photo.status p)) (pendingPhotos w1) = [(1, uploaded)] /\
  map callback (timers w1) = [prunePhotos (pendingPhotos w1)] /\
  map (fun p => (Photo.id p, Photo.status p)) (pendingPhotos w3) =
    [(1, uploaded); (100, pending)] /\
  pendingPhotos w4 = [].
Proof. vm_compute. repeat split. Qed.

(** The same loss in the survey queue, with a survey whose submission was
    rejected: the prune restores the array of the pass and the survey
    queued later is gone. *)
Lemma prune_drops_later_surveys :
  let first := Survey.mk 1 "answers" None None 5 pending 0 None in
  let w1 := processSurveyQueue (set_pendingSurveys [first] fresh) in
  let w2 := onOffline w1 in
  let w3 := snd (queueSurvey "later answers" (mkContext None None None) w2) in
  let w4 := fire 0 w3 in
  map Survey.id (pendingSurveys w3) = [1; 100] /\
  map Survey.id (pendingSurveys w4) = [1].
Proof. vm_compute. repeat split. Qed.

(** What the prune does in general: the stored array becomes the array of
    the pass without its uploaded items, whatever was stored meanwhile. *)
Lemma prune_overwrites snapshot w :
  pendingPhotos (fire_callback (prunePhotos snapshot) w) =
  filter (fun p => negb (status_eqb (Photo.status p) uploaded)) snapshot.
Proof. reflexivity. Qed.

(** ** Scenarios *)

(** A route saved while offline is stored pending; after the [online]
    event and the settle delay the pass uploads it. *)
Example scenario_offline_then_online :
  let w1 := snd (saveRoute "Loop Trail" None (set_isOnline false fresh_up)) in
  let w2 := onOnline (set_environment true (Some alice) 9 w1) in
  let w3 := fire 1 w2 in
  map Pending.status (rows (pending_routes w1)) = [pending] /\
  trace w2 = [] /\
  map callback (timers w2) = [removeBanner; autoSync] /\
  trace w3 = [addDoc "routes" "Loop Trail" "u1"] /\
  map (fun r => (Pending.status r, Pending.cloudId r, Pending.uploadedAt r))
    (rows (pending_routes w3)) = [(uploaded, Some "doc", Some 9)].
Proof. vm_compute. repeat split. Qed.

(** A queued photo whose upload is rejected three times ends with
    [status = 'failed'] and [retryCount = 3]. *)
Example scenario_three_failures :
  let w1 := snd (queuePhoto (mkPhotoData "data:image/jpeg;base64" None None None)
                   (mkContext None None None) (set_isOnline false fresh)) in
  let w4 := processPhotoQueue (processPhotoQueue (processPhotoQueue w1)) in
  map (fun p => (Photo.status p, Photo.retryCount p)) (pendingPhotos w1) =
    [(pending, 0)] /\
  map (fun p => (Photo.status p, Photo.retryCount p)) (pendingPhotos w4) =
    [(failed, 3)] /\
  List.length (trace w4) = 3.
Proof. vm_compute. repeat split. Qed.

(** A route saved while online and signed in is uploaded inline; when the
    upload is rejected the save still resolves, with [cloudId: null]. *)
Example scenario_online_save :
  fst (saveRoute "Loop Trail" (Some alice) fresh_up) = mkSaved 1 (Some "doc") /\
  fst (saveRoute "Loop Trail" (Some alice) fresh) = mkSaved 1 None /\
  map Pending.status (rows (pending_routes (snd (saveRoute "Loop Trail" (Some alice) fresh))))
    = [pending].
Proof. vm_compute. repeat split. Qed.

(** * Further properties *)

(** ** Properties kept by every command *)

Lemma for_of_mut_preserves {A : Type} (P : World -> Prop)
  (body : A -> World -> A * World) xs :
  (forall x w, P w -> P (snd (body x w))) ->
  forall w, P w -> P (snd (for_of_mut body xs w)).
Proof.
  intros Hb. induction xs as [|x xs IH]; intros w Hw; cbn [for_of_mut snd];
    [assumption|].
  specialize (Hb x w Hw). destruct (body x w) as [x' w1]. cbn [snd] in Hb.
  specialize (IH w1 Hb). now destruct (for_of_mut body xs w1).
Qed.

Lemma fire_callback_prunePhotos l w :
  fire_callback (prunePhotos l) w =
  updatePendingIndicator (set_pendingPhotos (filter not_uploaded l) w).
Proof. reflexivity. Qed.

Lemma fire_callback_pruneSurveys l w :
  fire_callback (pruneSurveys l) w =
  updatePendingIndicator (set_pendingSurveys (filter not_submitted l) w).
Proof. reflexivity. Qed.

Section CmdStable.
Variable P : World -> Prop.
Hypothesis HP : cmd_stable P.

Ltac same_world :=
  match goal with
  | H : P ?w |- P _ =>
      apply (c_frame HP w); [repeat split|exact H]
  end.

Let Hsync : sync_stable P := c_sync HP.
Let Hemail : email_stable P := stable_email (c_sync HP).

Lemma keeps_processEmailQueue w : P w -> P (processEmailQueue w).
Proof.
  intros Hw. apply processEmailQueue_preserves;
    [apply (stable_notify Hsync)|exact Hw].
Qed.

Lemma keeps_saveRoute routeData user w :
  P w -> P (snd (saveRoute routeData user w)).
Proof.
  intros Hw. unfold saveRoute.
  pose proof (c_savePendingRoute HP (newPending routeData user w) w
                eq_refl eq_refl Hw) as H1.
  destruct (savePendingRoute (newPending routeData user w) w) as [localId w1].
  cbn [snd] in H1.
  pose proof (c_queueEmailBackup HP Route
                (with_key localId (newPending routeData user w)) w1 H1) as H2.
  destruct (queueEmailBackup Route _ w1) as [k w2]. cbn [snd] in H2.
  assert (Hlocal : forall n, P (processEmailQueue (notify n w2))).
  { intros n. apply keeps_processEmailQueue. now apply (stable_notify Hsync). }
  destruct (isOnline w2); [|apply Hlocal].
  destruct user as [u|]; [|apply Hlocal].
  unfold uploadRouteToCloud.
  pose proof (stable_remote Hemail (addDoc "routes" routeData (uid u)) w2 H2) as H3.
  destruct (remote (addDoc "routes" routeData (uid u)) w2) as [[c|] w3];
    cbn [fst snd] in *.
  - destruct (truthy c); cbn [snd].
    + apply (stable_notify Hsync). now apply (stable_markRouteUploaded Hsync).
    + now apply keeps_processEmailQueue.
  - apply keeps_processEmailQueue. now apply (stable_notify Hsync).
Qed.

Lemma keeps_saveTrailGuide guideData user w :
  P w -> P (snd (saveTrailGuide guideData user w)).
Proof.
  intros Hw. unfold saveTrailGuide.
  pose proof (c_savePendingGuide HP (newPending guideData user w) w
                eq_refl eq_refl Hw) as H1.
  destruct (savePendingGuide (newPending guideData user w) w) as [localId w1].
  cbn [snd] in H1.
  pose proof (c_queueEmailBackup HP Guide
                (with_key localId (newPending guideData user w)) w1 H1) as H2.
  destruct (queueEmailBackup Guide _ w1) as [k w2]. cbn [snd] in H2.
  assert (Hlocal : forall n, P (processEmailQueue (notify n w2))).
  { intros n. apply keeps_processEmailQueue. now apply (stable_notify Hsync). }
  destruct (isOnline w2); [|apply Hlocal].
  destruct user as [u|]; [|apply Hlocal].
  unfold uploadGuideToCloud.
  pose proof (stable_remote Hemail (addDoc "trail_guides" guideData (uid u)) w2 H2) as H3.
  destruct (remote (addDoc "trail_guides" guideData (uid u)) w2) as [[c|] w3];
    cbn [fst snd] in *.
  - destruct (truthy c); cbn [snd].
    + apply (stable_notify Hsync). now apply (stable_markGuideUploaded Hsync).
    + now apply keeps_processEmailQueue.
  - apply keeps_processEmailQueue. now apply (stable_notify Hsync).
Qed.

Lemma keeps_showPendingNotification count w :
  P w -> P (showPendingNotification count w).
Proof.
  intros Hw. unfold showPendingNotification.
  assert (Hshow : forall c, P (setTimeout removeBanner 10000%N (notify (banner c) w))).
  { intros c. apply (c_setTimeout HP); [now right|].
    now apply (stable_notify Hsync). }
  destruct (count =? 0); [destruct (0 <? getPendingCount w)|];
    try assumption; apply Hshow.
Qed.

Lemma keeps_onOnline w : P w -> P (onOnline w).
Proof.
  intros Hw. unfold onOnline. apply keeps_processEmailQueue.
  assert (H1 : P (set_isOnline true w)) by same_world.
  destruct (0 <? getPendingCount (set_isOnline true w)); [|assumption].
  apply (c_setTimeout HP); [now left|].
  now apply keeps_showPendingNotification.
Qed.

Lemma keeps_connectivityPoll w : P w -> P (connectivityPoll w).
Proof.
  intros Hw. unfold connectivityPoll.
  assert (H1 : P (set_isOnline (navigator_onLine w) w)) by same_world.
  destruct (negb (isOnline w) && _); [|assumption].
  apply keeps_processEmailQueue.
  destruct (0 <? _); [|assumption].
  apply run_syncAllPending_preserves; [exact Hsync|].
  now apply keeps_showPendingNotification.
Qed.

Lemma keeps_fire n w : P w -> P (fire n w).
Proof.
  intros Hw. unfold fire.
  destruct (nth_error (timers w) n) as [t|] eqn:Hn; [|assumption].
  pose proof (c_remove_timer HP n w Hw) as H1.
  destruct (callback t) as [| |l|l] eqn:Hcb.
  - cbn [fire_callback]. destruct (isOnline _); [|assumption].
    now apply run_syncAllPending_preserves; [exact Hsync|].
  - assumption.
  - rewrite fire_callback_prunePhotos.
    pose proof (c_prunePhotos HP n t l w Hn Hcb Hw) as H2.
    unfold updatePendingIndicator. now apply (stable_notify Hsync).
  - rewrite fire_callback_pruneSurveys.
    pose proof (c_pruneSurveys HP n t l w Hn Hcb Hw) as H2.
    unfold updatePendingIndicator. now apply (stable_notify Hsync).
Qed.

Lemma keeps_exec o w : P w -> P (exec o w).
Proof.
  intros Hw. destruct o; cbn [exec].
  - now apply keeps_saveRoute.
  - now apply keeps_saveTrailGuide.
  - now apply (stable_markRouteUploaded Hsync).
  - now apply (stable_markGuideUploaded Hsync).
  - now apply (stable_incrementRetryCount Hsync).
  - now apply run_syncAllPending_preserves; [exact Hsync|].
  - now apply keeps_processEmailQueue.
  - now apply keeps_onOnline.
  - unfold onOffline. apply (stable_notify Hsync). same_world.
  - now apply keeps_connectivityPoll.
  - now apply keeps_fire.
  - same_world.
Qed.

Lemma keeps_uploadSingleRoute id w : P w -> P (uploadSingleRoute id w).
Proof.
  intros Hw. unfold uploadSingleRoute.
  destruct (currentUser w) as [user|]; [|now apply (stable_notify Hsync)].
  destruct (find _ (getPendingRoutes w)) as [r|];
    [|now apply (stable_notify Hsync)].
  unfold uploadRouteToCloud.
  pose proof (stable_remote Hemail (addDoc "routes" (Pending.data r) (uid user))
                _ (stable_notify Hsync (toast info "Uploading...") w Hw)) as H1.
  destruct (remote _ (notify (toast info "Uploading...") w)) as [[c|] w2];
    cbn [snd] in H1; apply (stable_notify Hsync); [|assumption].
  now apply (stable_markRouteUploaded Hsync).
Qed.

Lemma keeps_uploadSingleGuide id w : P w -> P (uploadSingleGuide id w).
Proof.
  intros Hw. unfold uploadSingleGuide.
  destruct (currentUser w) as [user|]; [|now apply (stable_notify Hsync)].
  destruct (find _ (getPendingGuides w)) as [r|];
    [|now apply (stable_notify Hsync)].
  unfold uploadGuideToCloud.
  pose proof (stable_remote Hemail (addDoc "trail_guides" (Pending.data r) (uid user))
                _ (stable_notify Hsync (toast info "Uploading...") w Hw)) as H1.
  destruct (remote _ (notify (toast info "Uploading...") w)) as [[c|] w2];
    cbn [snd] in H1; apply (stable_notify Hsync); [|assumption].
  now apply (stable_markGuideUploaded Hsync).
Qed.

Lemma keeps_clearUploaded confirmed w : P w -> P (clearUploaded confirmed w).
Proof.
  intros Hw. unfold clearUploaded. destruct (negb confirmed); [assumption|].
  apply (stable_notify Hsync).
  apply for_of_preserves; [intros x w'; apply (c_deleteLocalGuide HP)|].
  apply for_of_preserves; [intros x w'; apply (c_deleteLocalRoute HP)|].
  assumption.
Qed.

Lemma keeps_loadEmailJS b w : P w -> P (loadEmailJS b w).
Proof.
  intros Hw. unfold loadEmailJS.
  destruct (emailJsLoaded w); [assumption|].
  destruct (emailjs_defined w); [same_world|].
  destruct b; [|now apply (stable_notify Hsync)].
  destruct (truthy _); [same_world|].
  apply (stable_notify Hsync). same_world.
Qed.

Lemma keeps_queuePhoto photoData context w :
  P w -> P (snd (queuePhoto photoData context w)).
Proof.
  intros Hw. unfold queuePhoto. cbn [snd].
  set (p := Photo.mk _ _ _ _ _ _ _ _ _ _ _ _).
  assert (H1 : P (set_idSupply (S (idSupply w)) w)) by same_world.
  pose proof (c_push_photo HP p _ eq_refl eq_refl H1) as H2.
  pose proof (stable_notify Hsync
                (toast info "Photo saved offline - will upload when connected")
                _ H2) as H3.
  assert (H4 : P (updatePendingIndicator
                    (notify (toast info "Photo saved offline - will upload when connected")
                       (set_pendingPhotos
                          (pendingPhotos (set_idSupply (S (idSupply w)) w) ++ [p])
                          (set_idSupply (S (idSupply w)) w))))).
  { unfold updatePendingIndicator. now apply (stable_notify Hsync). }
  destruct (isOnline _); [|exact H4].
  now apply (c_processPhotoQueue HP).
Qed.

Lemma keeps_queueSurvey surveyData context w :
  P w -> P (snd (queueSurvey surveyData context w)).
Proof.
  intros Hw. unfold queueSurvey. cbn [snd].
  set (p := Survey.mk _ _ _ _ _ _ _ _).
  assert (H1 : P (set_idSupply (S (idSupply w)) w)) by same_world.
  pose proof (c_push_survey HP p _ eq_refl eq_refl H1) as H2.
  pose proof (stable_notify Hsync
                (toast info "Survey saved offline - will submit when connected")
                _ H2) as H3.
  assert (H4 : P (updatePendingIndicator
                    (notify (toast info "Survey saved offline - will submit when connected")
                       (set_pendingSurveys
                          (pendingSurveys (set_idSupply (S (idSupply w)) w) ++ [p])
                          (set_idSupply (S (idSupply w)) w))))).
  { unfold updatePendingIndicator. now apply (stable_notify Hsync). }
  destruct (isOnline _); [|exact H4].
  now apply (c_processSurveyQueue HP).
Qed.

Lemma keeps_perform c w : P w -> P (perform c w).
Proof.
  intros Hw. destruct c; cbn [perform].
  - now apply keeps_exec.
  - now apply keeps_uploadSingleRoute.
  - now apply keeps_uploadSingleGuide.
  - unfold deleteRoute. destruct (negb confirmed); [assumption|].
    apply (stable_notify Hsync). now apply (c_deleteLocalRoute HP).
  - unfold deleteGuide. destruct (negb confirmed); [assumption|].
    apply (stable_notify Hsync). now apply (c_deleteLocalGuide HP).
  - now apply keeps_clearUploaded.
  - now apply keeps_queuePhoto.
  - now apply keeps_queueSurvey.
  - now apply (c_processPhotoQueue HP).
  - now apply (c_processSurveyQueue HP).
  - now apply keeps_loadEmailJS.
  - unfold initialize.
    pose proof (keeps_loadEmailJS scriptLoads w Hw) as H1.
    destruct (0 <? _); [|assumption].
    destruct (isOnline _); [|assumption].
    now apply keeps_showPendingNotification.
Qed.

Lemma keeps_perform_all cs w : P w -> P (perform_all cs w).
Proof.
  unfold perform_all. revert w.
  induction cs as [|c cs IH]; intros w Hw; cbn [fold_left]; [assumption|].
  apply IH. now apply keeps_perform.
Qed.

End CmdStable.

(** ** Deleting from an object store *)

Section DeleteFacts.
Context {R : Type} `{KeyPath R}.

Lemma get_delete_same k (s : ObjectStore R) : get k (delete k s) = None.
Proof.
  apply get_None. cbn [delete rows]. intros Hin. apply in_map_iff in Hin.
  destruct Hin as [x [Hk Hx]]. apply filter_In in Hx. destruct Hx as [_ Hx].
  apply negb_true_iff, has_key_false in Hx. contradiction.
Qed.

Lemma get_delete_other k k' (s : ObjectStore R) :
  k' <> k -> get k' (delete k s) = get k' s.
Proof.
  intros Hne. unfold get. cbn [delete rows].
  induction (rows s) as [|x l IH]; cbn [filter find]; [reflexivity|].
  destruct (has_key k x) eqn:Hx; cbn [negb find].
  - apply has_key_true in Hx.
    assert (has_key k' x = false) as -> by (apply has_key_false; congruence).
    exact IH.
  - destruct (has_key k' x); [reflexivity|exact IH].
Qed.

Lemma store_wf_delete k (s : ObjectStore R) :
  store_wf s -> store_wf (delete k s).
Proof.
  intros [Hnd Hlt]. split; cbn [delete rows keyGen].
  - now apply NoDup_map_filter.
  - apply Forall_forall. intros x Hx. apply filter_In in Hx.
    eapply Forall_forall in Hlt; [exact Hlt|tauto].
Qed.

Lemma Forall_delete (Q : R -> Prop) k (s : ObjectStore R) :
  Forall Q (rows s) -> Forall Q (rows (delete k s)).
Proof.
  intros Hall. cbn [delete rows]. apply Forall_forall. intros x Hx.
  apply filter_In in Hx. eapply Forall_forall in Hall; [exact Hall|tauto].
Qed.

(** With unique keys, [delete] removes the one record stored under the
    key and keeps the others in order. *)
Lemma delete_absent k (s : ObjectStore R) :
  get k s = None -> delete k s = s.
Proof.
  intros Hg. destruct s as [g l]. unfold delete. cbn [keyGen rows]. f_equal.
  apply get_None in Hg. cbn [rows] in Hg.
  induction l as [|x l IH]; cbn [filter]; [reflexivity|].
  cbn [map In] in Hg.
  assert (has_key k x = false) as -> by (apply has_key_false; tauto).
  cbn [negb]. f_equal. apply IH. tauto.
Qed.

End DeleteFacts.

(** ** Invariants over every command *)

Lemma processPhoto_same_data photo w :
  let w' := snd (processPhoto photo w) in
  same_data w w' /\ now w' = now w /\ network w' = network w /\
  isOnline w' = isOnline w /\ notices w' = notices w /\
  syncInProgress w' = syncInProgress w.
Proof.
  unfold processPhoto, remote.
  destruct (status_eqb (Photo.status photo) uploaded); [now repeat split|].
  destruct (network w (netCalls w)); [|now repeat split].
  cbn [netCalls network].
  destruct (network w (S (netCalls w))); now repeat split.
Qed.

Lemma processSurvey_same_data survey w :
  let w' := snd (processSurvey survey w) in
  same_data w w' /\ now w' = now w /\ network w' = network w /\
  isOnline w' = isOnline w /\ notices w' = notices w /\
  syncInProgress w' = syncInProgress w.
Proof.
  unfold processSurvey, remote.
  destruct (status_eqb (Survey.status survey) submitted); [now repeat split|].
  destruct (network w (netCalls w)); now repeat split.
Qed.

Lemma processPhotoQueue_same_stores w : same_stores w (processPhotoQueue w).
Proof.
  unfold processPhotoQueue.
  destruct (List.length (pendingPhotos w) =? 0); [now repeat split|].
  assert (Hloop : same_stores w (snd (for_of_mut processPhoto (pendingPhotos w) w))).
  { apply for_of_mut_preserves; [|now repeat split].
    intros x w' (H1 & H2 & H3).
    destruct (processPhoto_same_data x w') as ((G1 & G2 & G3 & _) & _).
    repeat split; congruence. }
  destruct (for_of_mut processPhoto (pendingPhotos w) w) as [l' w1]. exact Hloop.
Qed.

Lemma processSurveyQueue_same_stores w : same_stores w (processSurveyQueue w).
Proof.
  unfold processSurveyQueue.
  destruct (List.length (pendingSurveys w) =? 0); [now repeat split|].
  assert (Hloop : same_stores w (snd (for_of_mut processSurvey (pendingSurveys w) w))).
  { apply for_of_mut_preserves; [|now repeat split].
    intros x w' (H1 & H2 & H3).
    destruct (processSurvey_same_data x w') as ((G1 & G2 & G3 & _) & _).
    repeat split; congruence. }
  destruct (for_of_mut processSurvey (pendingSurveys w) w) as [l' w1]. exact Hloop.
Qed.

(** A property of the three object stores that every store operation
    keeps is kept by every command. *)
Lemma cmd_stable_of_stores (P : World -> Prop) :
  op_stable P ->
  (forall id w, P w -> P (deleteLocalRoute id w)) ->
  (forall id w, P w -> P (deleteLocalGuide id w)) ->
  cmd_stable P.
Proof.
  intros Hop Hdr Hdg.
  assert (Hst : forall w w', same_stores w w' -> P w -> P w').
  { intros w w' (H1 & H2 & H3). now apply (op_stores Hop). }
  constructor; try (intros; eapply Hst; [|eassumption]; now repeat split).
  - exact (op_sync Hop).
  - intros w w' (H1 & H2 & H3 & _). now apply (op_stores Hop).
  - exact (op_savePendingRoute Hop).
  - exact (op_savePendingGuide Hop).
  - exact (op_queueEmailBackup Hop).
  - exact Hdr.
  - exact Hdg.
  - intros w Hw. eapply Hst; [apply processPhotoQueue_same_stores|exact Hw].
  - intros w Hw. eapply Hst; [apply processSurveyQueue_same_stores|exact Hw].
Qed.

Lemma artifacts_ok_cmd_stable : cmd_stable artifacts_ok.
Proof.
  apply cmd_stable_of_stores; [exact artifacts_ok_op_stable| |].
  - intros id w [Hr Hg]. split; [|exact Hg]. now apply Forall_delete.
  - intros id w [Hr Hg]. split; [exact Hr|]. now apply Forall_delete.
Qed.

Lemma world_wf_cmd_stable : cmd_stable world_wf.
Proof.
  apply cmd_stable_of_stores; [exact world_wf_op_stable| |].
  - intros id w (H1 & H2 & H3). split; [|split; assumption].
    now apply store_wf_delete.
  - intros id w (H1 & H2 & H3). split; [assumption|split; [|assumption]].
    now apply store_wf_delete.
Qed.

Lemma world_wf_perform_all cs w : world_wf w -> world_wf (perform_all cs w).
Proof. apply keeps_perform_all. exact world_wf_cmd_stable. Qed.

(** X1.  Every command of the instance, the single uploads, the deletions,
    [clearUploaded], the photo and survey queues, [loadEmailJS] and
    [initialize] included, keeps each route and guide record in exactly one
    of its two states and keeps the keys of the three stores unique and
    below the key generator. *)
Theorem every_command_keeps_invariants :
  forall (cs : list Command) (w : World),
    artifacts_ok w ->
    world_wf w ->
    let w' := perform_all cs w in
    (forall r,
       In r (rows (pending_routes w')) \/ In r (rows (pending_guides w')) ->
       exactly_one
         (Pending.status r = pending /\ Pending.cloudId r = None)
         (Pending.status r = uploaded /\ Pending.cloudId r <> None /\
          Pending.uploadedAt r <> None)) /\
    NoDup (map Pending.localId (rows (pending_routes w'))) /\
    NoDup (map Pending.localId (rows (pending_guides w'))) /\
    NoDup (map Email.id (rows (email_queue w'))) /\
    Forall (fun r => Pending.localId r < keyGen (pending_routes w'))
      (rows (pending_routes w')) /\
    Forall (fun r => Pending.localId r < keyGen (pending_guides w'))
      (rows (pending_guides w')) /\
    Forall (fun e => Email.id e < keyGen (email_queue w'))
      (rows (email_queue w')).
Proof.
  intros cs w Hok Hwf w'.
  pose proof (keeps_perform_all _ artifacts_ok_cmd_stable cs w Hok) as [Hr Hg].
  pose proof (world_wf_perform_all cs w Hwf) as ([N1 F1] & [N2 F2] & [N3 F3]).
  fold w' in Hr, Hg, N1, N2, N3, F1, F2, F3.
  split; [|repeat split; assumption].
  intros r [Hin|Hin].
  - exact (proj1 (Forall_forall _ _) Hr r Hin).
  - exact (proj1 (Forall_forall _ _) Hg r Hin).
Qed.

Lemma every_command_keeps_invariants_witness :
  artifacts_ok fresh_up /\ world_wf fresh_up /\
  NoDup (map Pending.localId (rows (pending_routes
    (perform_all [cmd_op (op_saveRoute "Loop Trail" (Some alice));
                  cmd_op (op_saveRoute "Ridge" None);
                  cmd_uploadSingleRoute 2; cmd_clearUploaded true;
                  cmd_deleteRoute true 2] fresh_up)))).
Proof.
  assert (H1 : artifacts_ok fresh_up) by (split; constructor).
  assert (H2 : world_wf fresh_up) by (repeat split; constructor).
  split; [exact H1|split; [exact H2|]].
  destruct (every_command_keeps_invariants
              [cmd_op (op_saveRoute "Loop Trail" (Some alice));
               cmd_op (op_saveRoute "Ridge" None);
               cmd_uploadSingleRoute 2; cmd_clearUploaded true;
               cmd_deleteRoute true 2] fresh_up H1 H2) as (_ & H & _).
  exact H.
Defined.

(** ** The history of a record *)

Lemma evolves_refl r : evolves r r.
Proof. repeat split; auto. Qed.

Lemma evolves_uploaded r0 r c t : evolves r0 r -> evolves r0 (set_uploaded c t r).
Proof.
  intros (H1 & H2 & H3 & H4 & H5 & H6 & H7 & H8). repeat split; auto.
Qed.

Lemma evolves_retried r0 r t : evolves r0 r -> evolves r0 (set_retried t r).
Proof.
  intros (H1 & H2 & H3 & H4 & H5 & H6 & H7 & H8). repeat split; auto.
  cbn. lia.
Qed.

Lemma store_history_modify id r0 k f s :
  (forall r, key (f r) = key r) ->
  (forall r, evolves r0 r -> evolves r0 (f r)) ->
  store_history id r0 s -> store_history id r0 (modify k f s).
Proof.
  intros Hk Hf (Hwf & Hlt & Hev). split; [|split].
  - now apply store_wf_modify.
  - now rewrite keyGen_modify.
  - intros r Hr. destruct (Nat.eq_dec id k) as [->|Hne].
    + rewrite get_modify_same in Hr by assumption.
      destruct (get k s) as [r1|]; [|discriminate].
      injection Hr as <-. now apply Hf, Hev.
    + rewrite get_modify_other in Hr by assumption. now apply Hev.
Qed.

Lemma store_history_add id r0 r s :
  store_history id r0 s -> store_history id r0 (snd (add r s)).
Proof.
  intros (Hwf & Hlt & Hev). split; [|split].
  - now apply store_wf_add.
  - cbn. lia.
  - intros r1 Hr. rewrite get_add_old in Hr by lia. now apply Hev.
Qed.

Lemma store_history_delete id r0 k s :
  store_history id r0 s -> store_history id r0 (delete k s).
Proof.
  intros (Hwf & Hlt & Hev). split; [|split].
  - now apply store_wf_delete.
  - exact Hlt.
  - intros r Hr. destruct (Nat.eq_dec id k) as [->|Hne].
    + rewrite get_delete_same in Hr. discriminate.
    + rewrite get_delete_other in Hr by assumption. now apply Hev.
Qed.

Lemma history_cmd_stable sn id r0 : cmd_stable (history sn id r0).
Proof.
  apply cmd_stable_of_stores.
  - constructor; [constructor; [constructor|..]|..]; unfold history.
    + intros e w Hw. exact Hw.
    + intros k w Hw. rewrite markEmailSent_modify. now destruct sn.
    + intros k w Hw. rewrite incrementEmailRetry_modify. now destruct sn.
    + intros n w Hw. exact Hw.
    + intros b w Hw. exact Hw.
    + intros k c w Hw. rewrite markRouteUploaded_modify.
      destruct sn; cbn [store_of pending_routes pending_guides set_pending_routes];
        [|exact Hw].
      apply store_history_modify; [reflexivity| |exact Hw].
      intros r. apply evolves_uploaded.
    + intros k c w Hw. rewrite markGuideUploaded_modify.
      destruct sn; cbn [store_of pending_routes pending_guides set_pending_guides];
        [exact Hw|].
      apply store_history_modify; [reflexivity| |exact Hw].
      intros r. apply evolves_uploaded.
    + intros [] k w Hw.
      * rewrite incrementRetryCount_routes.
        destruct sn; cbn [store_of pending_routes pending_guides set_pending_routes];
          [|exact Hw].
        apply store_history_modify; [reflexivity| |exact Hw].
        intros r. apply evolves_retried.
      * rewrite incrementRetryCount_guides.
        destruct sn; cbn [store_of pending_routes pending_guides set_pending_guides];
          [exact Hw|].
        apply store_history_modify; [reflexivity| |exact Hw].
        intros r. apply evolves_retried.
    + intros w w' H1 H2 _. destruct sn; cbn [store_of]; now rewrite ?H1, ?H2.
    + intros r w _ _ Hw. destruct sn; [|exact Hw]. now apply store_history_add.
    + intros r w _ _ Hw. destruct sn; [exact Hw|]. now apply store_history_add.
    + intros type data w Hw. now destruct sn.
  - intros k w Hw. unfold history in *. destruct sn; [|exact Hw].
    now apply store_history_delete.
  - intros k w Hw. unfold history in *. destruct sn; [exact Hw|].
    now apply store_history_delete.
Qed.

(** X2.  Whatever commands follow, the record stored under a local id is
    never replaced by another one: as long as it is stored, its payload,
    owner and creation time are those it was saved with, its retry count
    has not decreased and, once uploaded, it stays uploaded.  A local id
    is never given to a second record, also after a deletion. *)
Theorem record_history :
  forall (sn : StoreName) (id : nat) (r0 : Pending.t) (cs : list Command)
         (w : World),
    store_wf (store_of sn w) ->
    get id (store_of sn w) = Some r0 ->
    forall r,
      get id (store_of sn (perform_all cs w)) = Some r ->
      Pending.data r = Pending.data r0 /\
      Pending.userId r = Pending.userId r0 /\
      Pending.userEmail r = Pending.userEmail r0 /\
      Pending.userName r = Pending.userName r0 /\
      Pending.timestamp r = Pending.timestamp r0 /\
      Pending.retryCount r0 <= Pending.retryCount r /\
      (Pending.status r0 = uploaded -> Pending.status r = uploaded).
Proof.
  intros sn id r0 cs w Hwf Hget r Hr.
  assert (H0 : history sn id r0 w).
  { split; [exact Hwf|split].
    - destruct (get_Some _ _ _ Hget) as [Hin Hk]. destruct Hwf as [_ Hlt].
      eapply Forall_forall in Hlt; [|exact Hin]. cbn in Hlt. rewrite <- Hk.
      exact Hlt.
    - intros r1 Hr1. rewrite Hget in Hr1. injection Hr1 as <-.
      apply evolves_refl. }
  pose proof (keeps_perform_all _ (history_cmd_stable sn id r0) cs w H0)
    as (_ & _ & Hev).
  destruct (Hev r Hr) as (_ & H). exact H.
Qed.

Lemma record_history_witness :
  store_wf (store_of store_routes ready) /\
  (exists r0, get 1 (store_of store_routes ready) = Some r0) /\
  exists r,
    get 1 (store_of store_routes
             (perform_all [cmd_uploadSingleRoute 1; cmd_op op_syncAllPending;
                           cmd_clearUploaded true] ready)) = Some r /\
    Pending.data r = "Loop Trail" /\
    0 <= Pending.retryCount r.
Proof.
  assert (Hwf : store_wf (store_of store_routes ready)).
  { split; cbn.
    - constructor; [intros []|constructor].
    - constructor; [cbn; lia|constructor]. }
  split; [exact Hwf|]. split; [eexists; reflexivity|].
  eexists. split; [reflexivity|].
  destruct (record_history store_routes 1 _
              [cmd_uploadSingleRoute 1; cmd_op op_syncAllPending;
               cmd_clearUploaded true] ready Hwf eq_refl _ eq_refl)
    as (H1 & _ & _ & _ & _ & H2 & _).
  split; [exact H1|exact H2].
Defined.

(** ** A pass in which every upload is accepted *)

Lemma key_injective {R : Type} `{KeyPath R} (l : list R) a b :
  NoDup (map key l) -> In a l -> In b l -> key a = key b -> a = b.
Proof.
  intros Hnd Ha Hb Hk.
  pose proof (find_unique (key a) l a Hnd Ha eq_refl) as H1.
  pose proof (find_unique (key a) l b Hnd Hb (eq_sym Hk)) as H2.
  congruence.
Qed.

Lemma for_of_syncItem_keys sn user l :
  forall w,
    map key (rows (store_of sn (for_of (syncItem sn user) l w))) =
    map key (rows (store_of sn w)) /\
    (store_wf (store_of sn w) ->
     store_wf (store_of sn (for_of (syncItem sn user) l w))).
Proof.
  induction l as [|x l IH]; intros w; cbn [for_of]; [now split|].
  destruct (IH (syncItem sn user x w)) as [H1 H2].
  rewrite H1, syncItem_store. split.
  - apply keys_modify. intros r. apply settle_key.
  - intros Hwf. apply H2. rewrite syncItem_store.
    apply store_wf_modify; [|exact Hwf]. intros r. apply settle_key.
Qed.

(** When each upload of the loop is accepted, every record of the store
    is uploaded after it. *)
Lemma for_of_syncItem_all_accepted sn user w :
  store_wf (store_of sn w) ->
  Forall artifact_ok (rows (store_of sn w)) ->
  let l := filter is_pending (rows (store_of sn w)) in
  (forall i, i < List.length l -> network w (netCalls w + i) <> None) ->
  Forall (fun r => Pending.status r = uploaded)
    (rows (store_of sn (for_of (syncItem sn user) l w))).
Proof.
  intros Hwf Hok l Hnet. apply Forall_forall. intros r' Hr'.
  destruct (for_of_syncItem_keys sn user l w) as [Hkeys Hwf'].
  specialize (Hwf' Hwf).
  pose proof (In_get _ _ Hwf' Hr') as Hget'.
  assert (Hk : In (key r') (map key (rows (store_of sn w)))).
  { rewrite <- Hkeys. now apply in_map. }
  apply in_map_iff in Hk. destruct Hk as [r [Hkr Hr]].
  pose proof (In_get _ _ Hwf Hr) as Hget.
  assert (Hndl : NoDup (map key l)).
  { apply NoDup_map_filter. exact (proj1 Hwf). }
  destruct (is_pending r) eqn:Hp.
  - assert (Hin : In r l) by (apply filter_In; now split).
    destruct (In_nth_error _ _ Hin) as [i Hi].
    pose proof (for_of_syncItem_nth sn user l Hndl i r w Hi) as Hn.
    rewrite Hget in Hn. rewrite Hkr, Hget' in Hn. cbn [option_map] in Hn.
    assert (Hlt : i < List.length l) by (apply nth_error_Some; congruence).
    specialize (Hnet i Hlt).
    destruct (network w (netCalls w + i)) as [c|]; [|congruence].
    injection Hn as ->. reflexivity.
  - assert (Hnot : ~ In (key r) (map key l)).
    { intros Hin. apply in_map_iff in Hin. destruct Hin as [r2 [Hk2 Hr2]].
      apply filter_In in Hr2. destruct Hr2 as [Hr2 Hp2].
      assert (r2 = r) by (eapply key_injective; [exact (proj1 Hwf)|..]; eauto).
      subst. congruence. }
    pose proof (for_of_syncItem_untouched sn user (key r) l Hnot w) as Hu.
    rewrite Hget in Hu. rewrite Hkr, Hget' in Hu. injection Hu as ->.
    pose proof (proj1 (Forall_forall _ _) Hok r Hr) as [[[Hs _] _]|[_ [Hs _]]].
    + unfold is_pending in Hp. apply status_eqb_neq in Hp. contradiction.
    + exact Hs.
Qed.

Lemma none_pending l :
  Forall (fun r => Pending.status r = uploaded) l -> filter is_pending l = [].
Proof.
  intros Hall. apply filter_nil_when. intros r Hr.
  unfold is_pending. rewrite (proj1 (Forall_forall _ _) Hall r Hr). reflexivity.
Qed.

(** X3.  A pass of [syncAllPending] in which every upload is accepted
    leaves no pending record: every route and guide is uploaded and
    [getPendingCount] is 0. *)
Theorem accepted_pass_uploads_all :
  forall (w : World) (user : User),
    syncInProgress w = false ->
    isOnline w = true ->
    currentUser w = Some user ->
    world_wf w ->
    artifacts_ok w ->
    (forall i, i < getPendingCount w -> network w (netCalls w + i) <> None) ->
    let w' := run syncAllPending w in
    getPendingCount w' = 0 /\
    Forall (fun r => Pending.status r = uploaded) (rows (pending_routes w')) /\
    Forall (fun r => Pending.status r = uploaded) (rows (pending_guides w')).
Proof.
  intros w user Hflag Hon Huser (Hwr & Hwg & _) [Hor Hog] Hnet w'.
  assert (Hall : Forall (fun r => Pending.status r = uploaded) (rows (pending_routes w')) /\
                 Forall (fun r => Pending.status r = uploaded) (rows (pending_guides w'))).
  { destruct (Nat.eq_dec (getPendingCount w) 0) as [Hz|Hnz].
    - destruct (run_syncAllPending_idle w (or_intror (or_intror (or_intror Hz))))
        as (_ & _ & Hr & Hg & _).
      unfold w'. rewrite Hr, Hg. unfold getPendingCount in Hz.
      assert (Hpr : filter is_pending (rows (pending_routes w)) = [])
        by (apply length_zero_iff_nil; unfold getPendingRoutes, getAll in Hz; lia).
      assert (Hpg : filter is_pending (rows (pending_guides w)) = [])
        by (apply length_zero_iff_nil; unfold getPendingGuides, getAll in Hz; lia).
      pose proof (for_of_syncItem_all_accepted store_routes user w Hwr Hor) as H1.
      pose proof (for_of_syncItem_all_accepted store_guides user w Hwg Hog) as H2.
      cbn [store_of] in H1, H2. rewrite Hpr in H1. rewrite Hpg in H2.
      split; [apply H1|apply H2]; intros i Hi; cbn in Hi; lia.
    - assert (Hc : 0 < getPendingCount w) by lia.
      destruct (run_syncAllPending_effect w user Hflag Hon Huser Hc)
        as (Hr & Hg & _).
      unfold w'. rewrite Hr, Hg.
      set (w0 := notify (toast_count info "Syncing items" (getPendingCount w))
                   (set_syncInProgress true w)).
      set (pr := filter is_pending (getPendingRoutes w)).
      set (pg := filter is_pending (getPendingGuides w)).
      set (w1 := for_of (syncItem store_routes user) pr w0).
      assert (Hlen : getPendingCount w = List.length pr + List.length pg)
        by reflexivity.
      split.
      + apply (for_of_syncItem_all_accepted store_routes user w0 Hwr Hor).
        intros i Hi. apply Hnet. change (i < List.length pr) in Hi. lia.
      + destruct (for_of_syncItem_net store_routes user pr w0) as (N1 & _ & N3 & _).
        fold w1 in N1, N3.
        pose proof (for_of_syncItem_other_store store_routes store_guides user
                      pr ltac:(discriminate) w0) as Hsame.
        fold w1 in Hsame. cbn [store_of] in Hsame.
        change (pending_guides w0) with (pending_guides w) in Hsame.
        pose proof (for_of_syncItem_all_accepted store_guides user w1) as H2.
        cbn [store_of] in H2. rewrite Hsame in H2.
        apply H2; [exact Hwg|exact Hog|].
        intros i Hi. rewrite N1, N3.
        change (network w0) with (network w). change (netCalls w0) with (netCalls w).
        rewrite <- Nat.add_assoc. apply Hnet.
        change (i < List.length pg) in Hi. lia. }
  destruct Hall as [H1 H2]. split; [|split; assumption].
  unfold getPendingCount, getPendingRoutes, getPendingGuides, getAll.
  now rewrite (none_pending _ H1), (none_pending _ H2).
Qed.

Lemma ready_up_wf : world_wf ready_up.
Proof.
  repeat split; cbn; try (constructor; [intros []|constructor]);
    try constructor; try (cbn; lia); constructor.
Qed.

Lemma accepted_pass_uploads_all_witness :
  syncInProgress ready_up = false /\
  isOnline ready_up = true /\
  currentUser ready_up = Some alice /\
  getPendingCount ready_up = 1 /\
  getPendingCount (run syncAllPending ready_up) = 0.
Proof.
  repeat (split; [reflexivity|]).
  assert (Hok : artifacts_ok ready_up).
  { split; [|constructor]. constructor; [|constructor].
    left. split; [now split|]. intros [H _]. discriminate. }
  destruct (accepted_pass_uploads_all ready_up alice eq_refl eq_refl eq_refl
              ready_up_wf Hok) as [H _].
  - intros i _. cbn. discriminate.
  - exact H.
Defined.

(** ** Uploading a single record *)

Lemma find_localId w id :
  find (fun r => Pending.localId r =? id) (getPendingRoutes w) =
  get id (pending_routes w).
Proof. reflexivity. Qed.

Lemma find_localId_guides w id :
  find (fun r => Pending.localId r =? id) (getPendingGuides w) =
  get id (pending_guides w).
Proof. reflexivity. Qed.

(** X4.  [uploadSingleRoute] and [uploadSingleGuide] make no remote call
    when nobody is signed in or the record is not stored, and when the
    upload is rejected they leave the three stores as they were: unlike
    [syncAllPending] they do not increment [retryCount]. *)
Theorem single_upload_failure :
  forall (id : nat) (w : World),
    (currentUser w = None \/ get id (pending_routes w) = None ->
       same_stores w (uploadSingleRoute id w) /\
       trace (uploadSingleRoute id w) = trace w) /\
    (currentUser w = None \/ get id (pending_guides w) = None ->
       same_stores w (uploadSingleGuide id w) /\
       trace (uploadSingleGuide id w) = trace w) /\
    (forall user r,
       currentUser w = Some user ->
       get id (pending_routes w) = Some r ->
       network w (netCalls w) = None ->
       same_stores w (uploadSingleRoute id w) /\
       trace (uploadSingleRoute id w) =
         trace w ++ [addDoc "routes" (Pending.data r) (uid user)]) /\
    (forall user g,
       currentUser w = Some user ->
       get id (pending_guides w) = Some g ->
       network w (netCalls w) = None ->
       same_stores w (uploadSingleGuide id w) /\
       trace (uploadSingleGuide id w) =
         trace w ++ [addDoc "trail_guides" (Pending.data g) (uid user)]).
Proof.
  intros id w. split; [|split; [|split]].
  - intros Hc. unfold uploadSingleRoute. rewrite find_localId.
    destruct (currentUser w) as [u|]; [|now repeat split].
    destruct Hc as [Hc|Hc]; [discriminate|]. rewrite Hc. now repeat split.
  - intros Hc. unfold uploadSingleGuide. rewrite find_localId_guides.
    destruct (currentUser w) as [u|]; [|now repeat split].
    destruct Hc as [Hc|Hc]; [discriminate|]. rewrite Hc. now repeat split.
  - intros user r Hu Hg Hn. unfold uploadSingleRoute.
    rewrite find_localId, Hu, Hg. unfold uploadRouteToCloud, remote.
    cbn [network netCalls notify set_notices]. rewrite Hn. now repeat split.
  - intros user g Hu Hg Hn. unfold uploadSingleGuide.
    rewrite find_localId_guides, Hu, Hg. unfold uploadGuideToCloud, remote.
    cbn [network netCalls notify set_notices]. rewrite Hn. now repeat split.
Qed.

Lemma single_upload_failure_witness :
  currentUser ready = Some alice /\
  network ready (netCalls ready) = None /\
  (exists r, get 1 (pending_routes ready) = Some r /\
     get 1 (pending_routes (uploadSingleRoute 1 ready)) = Some r /\
     Pending.retryCount r = 0) /\
  trace (uploadSingleGuide 7 ready) = trace ready.
Proof.
  split; [reflexivity|]. split; [reflexivity|].
  destruct (single_upload_failure 1 ready) as (_ & _ & H & _).
  destruct (single_upload_failure 7 ready) as (_ & G & _).
  split.
  - eexists. split; [reflexivity|].
    destruct (H alice _ eq_refl eq_refl eq_refl) as [(Hr & _) _].
    rewrite Hr. split; reflexivity.
  - apply G. right. reflexivity.
Defined.

(** X5.  When the upload is accepted, [uploadSingleRoute] and
    [uploadSingleGuide] store the record as uploaded with the new cloud id,
    whatever its status was: a record that is already uploaded is uploaded
    a second time and its cloud id replaced.  No other record changes. *)
Theorem single_upload_success :
  forall (id : nat) (w : World) (user : User) (cloudId : CloudId),
    currentUser w = Some user ->
    network w (netCalls w) = Some cloudId ->
    (forall r,
       get id (pending_routes w) = Some r ->
       let w' := uploadSingleRoute id w in
       get id (pending_routes w') = Some (set_uploaded cloudId (now w) r) /\
       trace w' = trace w ++ [addDoc "routes" (Pending.data r) (uid user)] /\
       (forall k, k <> id -> get k (pending_routes w') = get k (pending_routes w)) /\
       pending_guides w' = pending_guides w) /\
    (forall g,
       get id (pending_guides w) = Some g ->
       let w' := uploadSingleGuide id w in
       get id (pending_guides w') = Some (set_uploaded cloudId (now w) g) /\
       trace w' = trace w ++ [addDoc "trail_guides" (Pending.data g) (uid user)] /\
       (forall k, k <> id -> get k (pending_guides w') = get k (pending_guides w)) /\
       pending_routes w' = pending_routes w).
Proof.
  intros id w user cloudId Hu Hn. split.
  - intros r Hg. unfold uploadSingleRoute.
    rewrite find_localId, Hu, Hg. unfold uploadRouteToCloud, remote.
    cbn [network netCalls notify set_notices]. rewrite Hn.
    rewrite markRouteUploaded_modify.
    cbn [pending_routes pending_guides trace now notify set_notices
         set_pending_routes].
    split; [|split; [reflexivity|split; [|reflexivity]]].
    + rewrite get_modify_same by reflexivity. now rewrite Hg.
    + intros k Hk. now apply get_modify_other.
  - intros g Hg. unfold uploadSingleGuide.
    rewrite find_localId_guides, Hu, Hg. unfold uploadGuideToCloud, remote.
    cbn [network netCalls notify set_notices]. rewrite Hn.
    rewrite markGuideUploaded_modify.
    cbn [pending_routes pending_guides trace now notify set_notices
         set_pending_guides].
    split; [|split; [reflexivity|split; [|reflexivity]]].
    + rewrite get_modify_same by reflexivity. now rewrite Hg.
    + intros k Hk. now apply get_modify_other.
Qed.

Lemma single_upload_success_witness :
  currentUser ready_up = Some alice /\
  network ready_up (netCalls ready_up) = Some "doc" /\
  (exists r, get 1 (pending_routes ready_up) = Some r /\
     get 1 (pending_routes (uploadSingleRoute 1 ready_up)) =
       Some (set_uploaded "doc" (now ready_up) r)) /\
  (* a second call uploads the uploaded record again *)
  List.length (trace (uploadSingleRoute 1 (uploadSingleRoute 1 ready_up))) = 2.
Proof.
  split; [reflexivity|]. split; [reflexivity|].
  destruct (single_upload_success 1 ready_up alice "doc" eq_refl eq_refl)
    as [H _].
  split.
  - eexists. split; [reflexivity|].
    exact (proj1 (H _ eq_refl)).
  - destruct (single_upload_success 1 (uploadSingleRoute 1 ready_up) alice "doc"
                eq_refl eq_refl) as [H2 _].
    destruct (H2 _ eq_refl) as (_ & Ht & _). rewrite Ht.
    destruct (H _ eq_refl) as (_ & Ht1 & _). rewrite Ht1. reflexivity.
Defined.

(** ** Deleting records *)

Lemma filter_filter {A : Type} (p q : A -> bool) l :
  filter p (filter q l) = filter (fun x => q x && p x) l.
Proof.
  induction l as [|x l IH]; cbn [filter]; [reflexivity|].
  destruct (q x); cbn [filter andb]; [destruct (p x)|]; now rewrite IH.
Qed.

Lemma in_keys_In k ids : in_keys k ids = true <-> In k ids.
Proof.
  unfold in_keys. rewrite existsb_exists. split.
  - intros [x [Hx Hk]]. apply Nat.eqb_eq in Hk. now subst.
  - intros Hin. exists k. split; [assumption|apply Nat.eqb_refl].
Qed.

Lemma for_of_deleteLocalRoute l :
  forall w,
    let w' := for_of (fun r => deleteLocalRoute (Pending.localId r)) l w in
    rows (pending_routes w') =
      filter (fun x => negb (in_keys (key x) (map key l))) (rows (pending_routes w)) /\
    keyGen (pending_routes w') = keyGen (pending_routes w) /\
    pending_guides w' = pending_guides w /\
    email_queue w' = email_queue w /\
    trace w' = trace w /\ notices w' = notices w.
Proof.
  induction l as [|r l IH]; intros w; cbn [for_of map].
  - repeat split. cbn [in_keys existsb negb].
    induction (rows (pending_routes w)) as [|x xs IHx]; cbn [filter];
      [reflexivity|now rewrite <- IHx].
  - destruct (IH (deleteLocalRoute (Pending.localId r) w))
      as (H1 & H2 & H3 & H4 & H5 & H6).
    cbn zeta in *. rewrite H1, H2, H3, H4, H5, H6.
    repeat split. cbn [deleteLocalRoute pending_routes set_pending_routes delete rows].
    rewrite filter_filter. apply filter_ext. intros x.
    unfold in_keys. cbn [existsb]. unfold has_key.
    change (key r) with (Pending.localId r).
    rewrite (Nat.eqb_sym (key x) (Pending.localId r)).
    now rewrite negb_orb.
Qed.

Lemma for_of_deleteLocalGuide l :
  forall w,
    let w' := for_of (fun r => deleteLocalGuide (Pending.localId r)) l w in
    rows (pending_guides w') =
      filter (fun x => negb (in_keys (key x) (map key l))) (rows (pending_guides w)) /\
    keyGen (pending_guides w') = keyGen (pending_guides w) /\
    pending_routes w' = pending_routes w /\
    email_queue w' = email_queue w /\
    trace w' = trace w /\ notices w' = notices w.
Proof.
  induction l as [|r l IH]; intros w; cbn [for_of map].
  - repeat split. cbn [in_keys existsb negb].
    induction (rows (pending_guides w)) as [|x xs IHx]; cbn [filter];
      [reflexivity|now rewrite <- IHx].
  - destruct (IH (deleteLocalGuide (Pending.localId r) w))
      as (H1 & H2 & H3 & H4 & H5 & H6).
    cbn zeta in *. rewrite H1, H2, H3, H4, H5, H6.
    repeat split. cbn [deleteLocalGuide pending_guides set_pending_guides delete rows].
    rewrite filter_filter. apply filter_ext. intros x.
    unfold in_keys. cbn [existsb]. unfold has_key.
    change (key r) with (Pending.localId r).
    rewrite (Nat.eqb_sym (key x) (Pending.localId r)).
    now rewrite negb_orb.
Qed.

(** With unique keys, deleting the records selected by [p] by their keys
    removes exactly the selected records. *)
Lemma filter_by_selected_keys (p : Pending.t -> bool) (l : list Pending.t) :
  NoDup (map key l) ->
  filter (fun x => negb (in_keys (key x) (map key (filter p l)))) l =
  filter (fun x => negb (p x)) l.
Proof.
  intros Hnd. apply filter_ext_in. intros x Hx. f_equal.
  destruct (p x) eqn:Hp.
  - apply in_keys_In. apply in_map. apply filter_In. now split.
  - destruct (in_keys (key x) (map key (filter p l))) eqn:Hk; [|reflexivity].
    apply in_keys_In, in_map_iff in Hk. destruct Hk as [y [Hky Hy]].
    apply filter_In in Hy. destruct Hy as [Hy Hpy].
    assert (y = x) by (eapply key_injective; eauto). subst. congruence.
Qed.

Lemma pending_not_uploaded l :
  filter is_pending (filter (fun r => negb (is_uploaded r)) l) =
  filter is_pending l.
Proof.
  rewrite filter_filter. apply filter_ext. intros r.
  unfold is_uploaded, is_pending. now destruct (Pending.status r).
Qed.

(** X6.  Once confirmed, [clearUploaded] deletes exactly the uploaded
    routes and guides: the other records stay, unchanged and in order, the
    pending count is the same, the key generators are not reset and no
    remote call is made.  When the confirmation is declined nothing
    changes. *)
Theorem clearUploaded_removes_uploaded :
  forall (w : World),
    world_wf w ->
    let w' := clearUploaded true w in
    rows (pending_routes w') =
      filter (fun r => negb (is_uploaded r)) (rows (pending_routes w)) /\
    rows (pending_guides w') =
      filter (fun r => negb (is_uploaded r)) (rows (pending_guides w)) /\
    keyGen (pending_routes w') = keyGen (pending_routes w) /\
    keyGen (pending_guides w') = keyGen (pending_guides w) /\
    email_queue w' = email_queue w /\
    trace w' = trace w /\
    getPendingCount w' = getPendingCount w /\
    clearUploaded false w = w.
Proof.
  intros w (Hwr & Hwg & _) w'. unfold w', clearUploaded. cbn [negb].
  set (ur := filter is_uploaded (getPendingRoutes w)).
  set (ug := filter is_uploaded (getPendingGuides w)).
  destruct (for_of_deleteLocalRoute ur w) as (R1 & R2 & R3 & R4 & R5 & _).
  set (w1 := for_of (fun r => deleteLocalRoute (Pending.localId r)) ur w) in *.
  destruct (for_of_deleteLocalGuide ug w1) as (G1 & G2 & G3 & G4 & G5 & _).
  set (w2 := for_of (fun r => deleteLocalGuide (Pending.localId r)) ug w1) in *.
  cbn zeta in *.
  assert (Hr : rows (pending_routes w2) =
               filter (fun r => negb (is_uploaded r)) (rows (pending_routes w))).
  { rewrite G3, R1. apply filter_by_selected_keys. exact (proj1 Hwr). }
  assert (Hg : rows (pending_guides w2) =
               filter (fun r => negb (is_uploaded r)) (rows (pending_guides w))).
  { rewrite G1, R3. apply filter_by_selected_keys. exact (proj1 Hwg). }
  cbn [pending_routes pending_guides email_queue trace notify set_notices].
  repeat split.
  - exact Hr.
  - exact Hg.
  - now rewrite G3, R2.
  - now rewrite G2, R3.
  - now rewrite G4, R4.
  - now rewrite G5, R5.
  - unfold getPendingCount, getPendingRoutes, getPendingGuides, getAll.
    cbn [pending_routes pending_guides notify set_notices].
    now rewrite Hr, Hg, !pending_not_uploaded.
Qed.

Lemma clearUploaded_removes_uploaded_witness :
  world_wf (uploadSingleRoute 1 ready_up) /\
  List.length (rows (pending_routes (uploadSingleRoute 1 ready_up))) = 1 /\
  rows (pending_routes (clearUploaded true (uploadSingleRoute 1 ready_up))) = [].
Proof.
  assert (Hwf : world_wf (uploadSingleRoute 1 ready_up)).
  { apply (keeps_perform _ world_wf_cmd_stable (cmd_uploadSingleRoute 1)).
    exact ready_up_wf. }
  split; [exact Hwf|]. split; [reflexivity|].
  destruct (clearUploaded_removes_uploaded _ Hwf) as (H & _).
  rewrite H. reflexivity.
Defined.

(** X7.  After [deleteLocalRoute(id)] or [deleteLocalGuide(id)] the id is
    not stored any more, every other record is found as before, in
    particular an id that was not stored leaves the instance unchanged;
    the next save does not reuse the id, it takes the number of the key
    generator, which deletions do not lower. *)
Theorem delete_then_lookup :
  forall (id : nat) (w : World),
    (get id (pending_routes (deleteLocalRoute id w)) = None /\
     (forall k, k <> id ->
        get k (pending_routes (deleteLocalRoute id w)) = get k (pending_routes w)) /\
     (get id (pending_routes w) = None -> deleteLocalRoute id w = w) /\
     (forall payload user,
        saved_localId (fst (saveRoute payload user (deleteLocalRoute id w))) =
        keyGen (pending_routes w))) /\
    (get id (pending_guides (deleteLocalGuide id w)) = None /\
     (forall k, k <> id ->
        get k (pending_guides (deleteLocalGuide id w)) = get k (pending_guides w)) /\
     (get id (pending_guides w) = None -> deleteLocalGuide id w = w) /\
     (forall payload user,
        saved_localId (fst (saveTrailGuide payload user (deleteLocalGuide id w))) =
        keyGen (pending_guides w))).
Proof.
  intros id w. split; (split; [|split; [|split]]).
  - apply get_delete_same.
  - intros k Hk. now apply get_delete_other.
  - intros Hg. unfold deleteLocalRoute. rewrite (delete_absent _ _ Hg).
    now destruct w.
  - intros payload user. unfold saveRoute, savePendingRoute, queueEmailBackup.
    cbn [add fst snd].
    repeat match goal with
           | |- context [match ?x with _ => _ end] => destruct x
           end; reflexivity.
  - apply get_delete_same.
  - intros k Hk. now apply get_delete_other.
  - intros Hg. unfold deleteLocalGuide. rewrite (delete_absent _ _ Hg).
    now destruct w.
  - intros payload user. unfold saveTrailGuide, savePendingGuide, queueEmailBackup.
    cbn [add fst snd].
    repeat match goal with
           | |- context [match ?x with _ => _ end] => destruct x
           end; reflexivity.
Qed.

Lemma delete_then_lookup_witness :
  get 1 (pending_routes ready) <> None /\
  get 1 (pending_routes (deleteLocalRoute 1 ready)) = None /\
  deleteLocalRoute 5 ready = ready /\
  saved_localId (fst (saveRoute "Ridge" None (deleteLocalRoute 1 ready))) = 2.
Proof.
  destruct (delete_then_lookup 1 ready) as [(H1 & _ & _ & H4) _].
  destruct (delete_then_lookup 5 ready) as [(_ & _ & H3 & _) _].
  split; [discriminate|]. split; [exact H1|]. split.
  - apply H3. reflexivity.
  - rewrite H4. reflexivity.
Defined.

(** ** The outbox over every operation *)

(** *** Steps that leave the outbox alone *)

Lemma quiet_same w w' :
  email_queue w' = email_queue w -> trace w' = trace w -> outbox_quiet w w'.
Proof. intros E T. split; [exact E|]. intros id. now rewrite T. Qed.

Lemma quiet_remote e w :
  (forall id, is_send_for id e = false) -> outbox_quiet w (snd (remote e w)).
Proof.
  intros He. split; [reflexivity|]. intros id. cbn [remote snd trace].
  rewrite sends_for_app. unfold sends_for at 2. cbn [filter]. rewrite He.
  cbn [List.length]. lia.
Qed.

(** Whatever survives the quiet steps that leave [syncInProgress] alone,
    a pass of the pump, a new entry and a sync pass survives every
    operation of the instance: nothing else writes the outbox, calls the
    relay or sets the flag. *)
Section OutboxStable.
Variable P : World -> Prop.
Hypothesis HQ : forall w w',
  outbox_quiet w w' -> syncInProgress w' = syncInProgress w -> P w -> P w'.
Hypothesis HD : forall w, P w -> P (processEmailQueue w).
Hypothesis HA : forall type data w, P w -> P (snd (queueEmailBackup type data w)).
Hypothesis HRUN : forall w, P w -> P (run syncAllPending w).

Lemma outbox_same w w' :
  email_queue w' = email_queue w -> trace w' = trace w ->
  syncInProgress w' = syncInProgress w -> P w -> P w'.
Proof. intros E T F. apply HQ; [now apply quiet_same|exact F]. Qed.

Lemma outbox_notify n w : P w -> P (notify n w).
Proof. now apply outbox_same. Qed.

Lemma outbox_remote e w :
  (forall id, is_send_for id e = false) -> P w -> P (snd (remote e w)).
Proof. intros He. apply HQ; [now apply quiet_remote|reflexivity]. Qed.

Lemma outbox_markRouteUploaded k c w : P w -> P (markRouteUploaded k c w).
Proof.
  intros Hw. unfold markRouteUploaded.
  destruct (get k (pending_routes w)); [|exact Hw].
  now apply (outbox_same w).
Qed.

Lemma outbox_markGuideUploaded k c w : P w -> P (markGuideUploaded k c w).
Proof.
  intros Hw. unfold markGuideUploaded.
  destruct (get k (pending_guides w)); [|exact Hw].
  now apply (outbox_same w).
Qed.

Lemma outbox_incrementRetryCount sn k w : P w -> P (incrementRetryCount sn k w).
Proof.
  intros Hw. unfold incrementRetryCount.
  destruct sn; [destruct (get k (pending_routes w))|destruct (get k (pending_guides w))];
    try exact Hw; now apply (outbox_same w).
Qed.

Lemma outbox_syncItem sn user r w : P w -> P (syncItem sn user r w).
Proof.
  intros Hw. unfold syncItem.
  pose proof (outbox_remote (addDoc (collection_of sn) (Pending.data r) (uid user))
                w (fun _ => eq_refl) Hw) as H1.
  destruct (remote _ w) as [[c|] w1]; cbn [snd] in H1.
  - destruct sn; cbn [markUploaded];
      [now apply outbox_markRouteUploaded|now apply outbox_markGuideUploaded].
  - now apply outbox_incrementRetryCount.
Qed.

Lemma outbox_saveRoute routeData user w :
  P w -> P (snd (saveRoute routeData user w)).
Proof.
  intros Hw. unfold saveRoute.
  assert (H1 : P (snd (savePendingRoute (newPending routeData user w) w)))
    by now apply (outbox_same w).
  destruct (savePendingRoute (newPending routeData user w) w) as [localId w1].
  cbn [snd] in H1.
  pose proof (HA Route (with_key localId (newPending routeData user w)) w1 H1)
    as H2.
  destruct (queueEmailBackup Route _ w1) as [k w2]. cbn [snd] in H2.
  assert (Hlocal : forall n, P (processEmailQueue (notify n w2))).
  { intros n. apply HD. now apply outbox_notify. }
  destruct (isOnline w2); [|apply Hlocal].
  destruct user as [u|]; [|apply Hlocal].
  unfold uploadRouteToCloud.
  pose proof (outbox_remote (addDoc "routes" routeData (uid u)) w2
                (fun _ => eq_refl) H2) as H3.
  destruct (remote (addDoc "routes" routeData (uid u)) w2) as [[c|] w3];
    cbn [fst snd] in *.
  - destruct (truthy c); cbn [snd].
    + apply outbox_notify. now apply outbox_markRouteUploaded.
    + now apply HD.
  - apply HD. now apply outbox_notify.
Qed.

Lemma outbox_saveTrailGuide guideData user w :
  P w -> P (snd (saveTrailGuide guideData user w)).
Proof.
  intros Hw. unfold saveTrailGuide.
  assert (H1 : P (snd (savePendingGuide (newPending guideData user w) w)))
    by now apply (outbox_same w).
  destruct (savePendingGuide (newPending guideData user w) w) as [localId w1].
  cbn [snd] in H1.
  pose proof (HA Guide (with_key localId (newPending guideData user w)) w1 H1)
    as H2.
  destruct (queueEmailBackup Guide _ w1) as [k w2]. cbn [snd] in H2.
  assert (Hlocal : forall n, P (processEmailQueue (notify n w2))).
  { intros n. apply HD. now apply outbox_notify. }
  destruct (isOnline w2); [|apply Hlocal].
  destruct user as [u|]; [|apply Hlocal].
  unfold uploadGuideToCloud.
  pose proof (outbox_remote (addDoc "trail_guides" guideData (uid u)) w2
                (fun _ => eq_refl) H2) as H3.
  destruct (remote (addDoc "trail_guides" guideData (uid u)) w2) as [[c|] w3];
    cbn [fst snd] in *.
  - destruct (truthy c); cbn [snd].
    + apply outbox_notify. now apply outbox_markGuideUploaded.
    + now apply HD.
  - apply HD. now apply outbox_notify.
Qed.

Lemma outbox_showPendingNotification count w :
  P w -> P (showPendingNotification count w).
Proof.
  intros Hw. unfold showPendingNotification.
  destruct (count =? 0); [destruct (0 <? getPendingCount w)|];
    try assumption; now apply (outbox_same w).
Qed.

Lemma outbox_onOnline w : P w -> P (onOnline w).
Proof.
  intros Hw. unfold onOnline. apply HD.
  assert (H1 : P (set_isOnline true w)) by now apply (outbox_same w).
  destruct (0 <? getPendingCount (set_isOnline true w)); [|assumption].
  apply (outbox_same (showPendingNotification
                        (getPendingCount (set_isOnline true w))
                        (set_isOnline true w)));
    [reflexivity|reflexivity|reflexivity|].
  now apply outbox_showPendingNotification.
Qed.

Lemma outbox_connectivityPoll w : P w -> P (connectivityPoll w).
Proof.
  intros Hw. unfold connectivityPoll.
  assert (H1 : P (set_isOnline (navigator_onLine w) w))
    by now apply (outbox_same w).
  destruct (negb (isOnline w) && _); [|assumption].
  apply HD.
  destruct (0 <? _); [|assumption].
  apply HRUN.
  now apply outbox_showPendingNotification.
Qed.

Lemma outbox_fire n w : P w -> P (fire n w).
Proof.
  intros Hw. unfold fire.
  destruct (nth_error (timers w) n) as [t|]; [|assumption].
  assert (H1 : P (set_timers (remove_nth n (timers w)) w))
    by now apply (outbox_same w).
  destruct (callback t) as [| |l|l].
  - cbn [fire_callback]. destruct (isOnline _); [|assumption].
    now apply HRUN.
  - assumption.
  - rewrite fire_callback_prunePhotos.
    now apply (outbox_same (set_timers (remove_nth n (timers w)) w)).
  - rewrite fire_callback_pruneSurveys.
    now apply (outbox_same (set_timers (remove_nth n (timers w)) w)).
Qed.

Lemma outbox_exec o w : P w -> P (exec o w).
Proof.
  intros Hw. destruct o; cbn [exec].
  - now apply outbox_saveRoute.
  - now apply outbox_saveTrailGuide.
  - now apply outbox_markRouteUploaded.
  - now apply outbox_markGuideUploaded.
  - now apply outbox_incrementRetryCount.
  - now apply HRUN.
  - now apply HD.
  - now apply outbox_onOnline.
  - now apply (outbox_same w).
  - now apply outbox_connectivityPoll.
  - now apply outbox_fire.
  - now apply (outbox_same w).
Qed.

Lemma outbox_uploadSingleRoute k w : P w -> P (uploadSingleRoute k w).
Proof.
  intros Hw. unfold uploadSingleRoute.
  destruct (currentUser w) as [user|]; [|now apply outbox_notify].
  destruct (find _ (getPendingRoutes w)) as [r|]; [|now apply outbox_notify].
  unfold uploadRouteToCloud.
  pose proof (outbox_remote (addDoc "routes" (Pending.data r) (uid user))
                _ (fun _ => eq_refl)
                (outbox_notify (toast info "Uploading...") w Hw)) as H1.
  destruct (remote _ (notify (toast info "Uploading...") w)) as [[c|] w2];
    cbn [snd] in H1; apply outbox_notify; [|assumption].
  now apply outbox_markRouteUploaded.
Qed.

Lemma outbox_uploadSingleGuide k w : P w -> P (uploadSingleGuide k w).
Proof.
  intros Hw. unfold uploadSingleGuide.
  destruct (currentUser w) as [user|]; [|now apply outbox_notify].
  destruct (find _ (getPendingGuides w)) as [r|]; [|now apply outbox_notify].
  unfold uploadGuideToCloud.
  pose proof (outbox_remote (addDoc "trail_guides" (Pending.data r) (uid user))
                _ (fun _ => eq_refl)
                (outbox_notify (toast info "Uploading...") w Hw)) as H1.
  destruct (remote _ (notify (toast info "Uploading...") w)) as [[c|] w2];
    cbn [snd] in H1; apply outbox_notify; [|assumption].
  now apply outbox_markGuideUploaded.
Qed.

Lemma outbox_clearUploaded confirmed w : P w -> P (clearUploaded confirmed w).
Proof.
  intros Hw. unfold clearUploaded. destruct (negb confirmed); [assumption|].
  apply outbox_notify.
  apply for_of_preserves;
    [intros x w' Hw'; now apply (outbox_same w')|].
  apply for_of_preserves;
    [intros x w' Hw'; now apply (outbox_same w')|].
  assumption.
Qed.

Lemma outbox_loadEmailJS b w : P w -> P (loadEmailJS b w).
Proof.
  intros Hw. unfold loadEmailJS.
  destruct (emailJsLoaded w); [assumption|].
  destruct (emailjs_defined w); [now apply (outbox_same w)|].
  destruct b; [|now apply outbox_notify].
  destruct (truthy _); now apply (outbox_same w).
Qed.

Lemma outbox_processPhoto photo w : P w -> P (snd (processPhoto photo w)).
Proof.
  intros Hw. unfold processPhoto.
  destruct (status_eqb _ uploaded); [exact Hw|].
  pose proof (outbox_remote (uploadString (Photo.id photo) (Photo.data photo))
                w (fun _ => eq_refl) Hw) as H1.
  destruct (remote _ w) as [[u|] w1]; cbn [snd] in *; [|exact H1].
  pose proof (outbox_remote (getDownloadURL (Photo.id photo)) w1
                (fun _ => eq_refl) H1) as H2.
  destruct (remote _ w1) as [[d|] w2]; cbn [snd] in *; exact H2.
Qed.

Lemma outbox_processSurvey survey w : P w -> P (snd (processSurvey survey w)).
Proof.
  intros Hw. unfold processSurvey.
  destruct (status_eqb _ submitted); [exact Hw|].
  assert (H1 : forall e, (forall id, is_send_for id e = false) ->
                 P (snd (let (r, w1) := remote e w in
                         match r with
                         | Some _ => (survey_submitted (now w1) survey, w1)
                         | None => (survey_retried survey, w1)
                         end))).
  { intros e He. pose proof (outbox_remote e w He Hw) as H.
    destruct (remote e w) as [[u|] w1]; exact H. }
  destruct (opt_or_null (Survey.routeId survey)); apply H1; intros; reflexivity.
Qed.

Lemma outbox_processPhotoQueue w : P w -> P (processPhotoQueue w).
Proof.
  intros Hw. unfold processPhotoQueue.
  destruct (List.length (pendingPhotos w) =? 0); [exact Hw|].
  pose proof (for_of_mut_preserves P processPhoto (pendingPhotos w)
                outbox_processPhoto w Hw) as H1.
  destruct (for_of_mut processPhoto (pendingPhotos w) w) as [l w1].
  cbn [snd] in H1. now apply (outbox_same w1).
Qed.

Lemma outbox_processSurveyQueue w : P w -> P (processSurveyQueue w).
Proof.
  intros Hw. unfold processSurveyQueue.
  destruct (List.length (pendingSurveys w) =? 0); [exact Hw|].
  pose proof (for_of_mut_preserves P processSurvey (pendingSurveys w)
                outbox_processSurvey w Hw) as H1.
  destruct (for_of_mut processSurvey (pendingSurveys w) w) as [l w1].
  cbn [snd] in H1. now apply (outbox_same w1).
Qed.

Lemma outbox_queuePhoto photoData context w :
  P w -> P (snd (queuePhoto photoData context w)).
Proof.
  intros Hw. unfold queuePhoto. cbn [snd].
  match goal with
  | |- P (if _ then processPhotoQueue ?w4 else _) =>
      assert (H4 : P w4) by now apply (outbox_same w)
  end.
  destruct (isOnline _); [|exact H4].
  now apply outbox_processPhotoQueue.
Qed.

Lemma outbox_queueSurvey surveyData context w :
  P w -> P (snd (queueSurvey surveyData context w)).
Proof.
  intros Hw. unfold queueSurvey. cbn [snd].
  match goal with
  | |- P (if _ then processSurveyQueue ?w4 else _) =>
      assert (H4 : P w4) by now apply (outbox_same w)
  end.
  destruct (isOnline _); [|exact H4].
  now apply outbox_processSurveyQueue.
Qed.

Lemma outbox_perform c w : P w -> P (perform c w).
Proof.
  intros Hw. destruct c; cbn [perform].
  - now apply outbox_exec.
  - now apply outbox_uploadSingleRoute.
  - now apply outbox_uploadSingleGuide.
  - unfold deleteRoute. destruct (negb confirmed); [assumption|].
    now apply (outbox_same w).
  - unfold deleteGuide. destruct (negb confirmed); [assumption|].
    now apply (outbox_same w).
  - now apply outbox_clearUploaded.
  - now apply outbox_queuePhoto.
  - now apply outbox_queueSurvey.
  - now apply outbox_processPhotoQueue.
  - now apply outbox_processSurveyQueue.
  - now apply outbox_loadEmailJS.
  - unfold initialize.
    pose proof (outbox_loadEmailJS scriptLoads w Hw) as H1.
    destruct (0 <? _); [|assumption].
    destruct (isOnline _); [|assumption].
    now apply outbox_showPendingNotification.
Qed.

Lemma outbox_perform_all cs w : P w -> P (perform_all cs w).
Proof.
  unfold perform_all. revert w.
  induction cs as [|c cs IH]; intros w Hw; cbn [fold_left]; [assumption|].
  apply IH. now apply outbox_perform.
Qed.

End OutboxStable.

(** *** No operation drains the outbox *)

Lemma kept_quiet id e0 t0 w w' :
  outbox_quiet w w' -> outbox_kept id e0 t0 w -> outbox_kept id e0 t0 w'.
Proof.
  intros [E S] (Hwf & Hget & Hs). unfold outbox_kept. rewrite E.
  split; [exact Hwf|]. split; [exact Hget|].
  intros k. now rewrite S.
Qed.

Lemma kept_processEmailQueue id e0 t0 w :
  outbox_kept id e0 t0 w -> outbox_kept id e0 t0 (processEmailQueue w).
Proof.
  apply kept_quiet. destruct (processEmailQueue_inert w) as (E & T & _).
  now apply quiet_same.
Qed.

Lemma kept_queueEmailBackup id e0 t0 type data w :
  outbox_kept id e0 t0 w ->
  outbox_kept id e0 t0 (snd (queueEmailBackup type data w)).
Proof.
  intros (Hwf & Hget & Hs).
  set (item := Email.mk 0 type data (now w) false 0 None).
  assert (Hq : email_queue (snd (queueEmailBackup type data w)) =
               snd (add item (email_queue w))) by reflexivity.
  unfold outbox_kept. rewrite Hq.
  change (trace (snd (queueEmailBackup type data w))) with (trace w).
  split; [now apply store_wf_add|]. split; [|exact Hs].
  rewrite get_add_old; [exact Hget|].
  apply get_Some in Hget. destruct Hget as [Hin Hk]. destruct Hwf as [_ Hlt].
  eapply Forall_forall in Hlt; [|exact Hin]. cbn beta in Hlt. lia.
Qed.

Lemma kept_run_syncAllPending id e0 t0 w :
  outbox_kept id e0 t0 w -> outbox_kept id e0 t0 (run syncAllPending w).
Proof.
  intros Hw.
  assert (Hsame : forall w1 w2,
            email_queue w2 = email_queue w1 -> trace w2 = trace w1 ->
            outbox_kept id e0 t0 w1 -> outbox_kept id e0 t0 w2).
  { intros w1 w2 E T. apply kept_quiet. now apply quiet_same. }
  assert (Hidle : syncInProgress w = true \/ isOnline w = false \/
                  currentUser w = None \/ getPendingCount w = 0 ->
                  outbox_kept id e0 t0 (run syncAllPending w)).
  { intros H. destruct (run_syncAllPending_idle w H) as (T & _ & _ & _ & E).
    now apply (Hsame w). }
  destruct (syncInProgress w) eqn:Hf; [apply Hidle; now left|].
  destruct (isOnline w) eqn:Ho; [|apply Hidle; right; now left].
  destruct (currentUser w) as [user|] eqn:Hu;
    [|apply Hidle; right; right; now left].
  destruct (Nat.eq_dec (getPendingCount w) 0) as [Hz|Hz];
    [apply Hidle; right; right; now right|].
  destruct (run_syncAllPending_busy w user Hf Ho Hu ltac:(lia)) as (sc & fc & ->).
  match goal with
  | |- outbox_kept _ _ _ (set_syncInProgress false ?w3) =>
      apply (Hsame w3); [reflexivity|reflexivity|]
  end.
  apply kept_processEmailQueue.
  match goal with
  | |- outbox_kept _ _ _ (report sc fc ?w1) =>
      destruct (report_frame sc fc w1) as (_ & _ & E & T & _);
      apply (Hsame w1 _ E T)
  end.
  assert (Hitem : forall sn r w1,
            outbox_kept id e0 t0 w1 ->
            outbox_kept id e0 t0 (syncItem sn user r w1)).
  { intros sn r w1.
    apply (outbox_syncItem (outbox_kept id e0 t0)
             (fun w2 w3 Hq _ => kept_quiet id e0 t0 w2 w3 Hq)). }
  apply for_of_preserves; [intros; now apply Hitem|].
  apply for_of_preserves; [intros; now apply Hitem|].
  now apply (Hsame w).
Qed.

(** X8.  Whatever the instance is asked to do, one operation after the
    other, an entry of the outbox stays exactly as it is stored and
    [emailjs.send] is never called: the drain is the only caller of the
    loop that sends, marks and counts retries, and its query throws.  A
    backup entry, queued with [sent = false], is therefore never sent and
    never removed. *)
Theorem outbox_is_never_drained :
  forall (cs : list Command) (w : World) (id : nat) (e : Email.t),
    store_wf (email_queue w) ->
    get id (email_queue w) = Some e ->
    get id (email_queue (perform_all cs w)) = Some e /\
    forall k, sends_for k (trace (perform_all cs w)) = sends_for k (trace w).
Proof.
  intros cs w id e Hwf He.
  assert (H0 : outbox_kept id e (trace w) w).
  { split; [exact Hwf|]. split; [exact He|]. reflexivity. }
  pose proof (outbox_perform_all (outbox_kept id e (trace w))
                (fun w1 w2 Hq _ => kept_quiet id e _ w1 w2 Hq)
                (kept_processEmailQueue id e _)
                (kept_queueEmailBackup id e _)
                (kept_run_syncAllPending id e _) cs w H0)
    as (_ & G1 & G2).
  split; assumption.
Qed.

Lemma outbox_is_never_drained_witness :
  let cs := [cmd_op op_processEmailQueue; cmd_op op_onOnline;
             cmd_op op_syncAllPending;
             cmd_op (op_saveRoute "Ridge" (Some alice));
             cmd_op op_connectivityPoll; cmd_op op_processEmailQueue] in
  emailJsLoaded relay_down = true /\
  isOnline relay_down = true /\
  configured (emailjs relay_down) = true /\
  exists e,
    get 1 (email_queue relay_down) = Some e /\
    Email.sent e = false /\
    get 1 (email_queue (perform_all cs relay_down)) = Some e.
Proof.
  cbn zeta. do 3 (split; [reflexivity|]).
  eexists. split; [vm_compute; reflexivity|]. split; [reflexivity|].
  assert (Hwf : store_wf (email_queue relay_down)).
  { split; vm_compute.
    - constructor; [intros []|constructor].
    - repeat constructor. }
  refine (proj1 (outbox_is_never_drained _ relay_down 1 _ Hwf _)).
  vm_compute. reflexivity.
Defined.

(** ** The flat queues *)

Lemma Forall_remove_nth {A : Type} (Q : A -> Prop) n (l : list A) :
  Forall Q l -> Forall Q (remove_nth n l).
Proof.
  revert n. induction l as [|x l IH]; intros n Hl; destruct n; cbn [remove_nth];
    try assumption; inversion Hl; subst; [assumption|].
  constructor; [assumption|now apply IH].
Qed.

Lemma Forall_filter {A : Type} (Q : A -> Prop) (f : A -> bool) (l : list A) :
  Forall Q l -> Forall Q (filter f l).
Proof.
  intros Hl. apply Forall_forall. intros x Hx. apply filter_In in Hx.
  exact (proj1 (Forall_forall _ _) Hl x (proj1 Hx)).
Qed.

Lemma for_of_mut_Forall {A : Type} (Q : A -> Prop)
  (body : A -> World -> A * World) xs :
  (forall x w, Q x -> Q (fst (body x w))) ->
  forall w, Forall Q xs -> Forall Q (fst (for_of_mut body xs w)).
Proof.
  intros Hb. induction xs as [|x xs IH]; intros w Hxs; cbn [for_of_mut];
    [constructor|].
  inversion Hxs as [|? ? Hx Hrest]; subst.
  specialize (Hb x w Hx). destruct (body x w) as [x' w1]. cbn [fst] in Hb.
  specialize (IH w1 Hrest). destruct (for_of_mut body xs w1) as [l' w2].
  cbn [fst] in *. now constructor.
Qed.

Lemma photo_retried_ok p : photo_ok p -> Photo.status p <> uploaded ->
  photo_ok (photo_retried p).
Proof.
  unfold photo_ok, photo_retried.
  cbn [Photo.status Photo.retryCount Photo.downloadUrl Photo.uploadedAt].
  intros Hp Hs. destruct (3 <=? Photo.retryCount p + 1) eqn:Hc.
  - apply Nat.leb_le in Hc. exact Hc.
  - apply Nat.leb_gt in Hc.
    destruct (Photo.status p); try contradiction; lia.
Qed.

Lemma processPhoto_ok p w : photo_ok p -> photo_ok (fst (processPhoto p w)).
Proof.
  intros Hp. unfold processPhoto.
  destruct (status_eqb (Photo.status p) uploaded) eqn:Hs; [exact Hp|].
  apply status_eqb_neq in Hs.
  destruct (remote _ w) as [[u|] w1]; [|now apply photo_retried_ok].
  destruct (remote _ w1) as [[d|] w2]; [|now apply photo_retried_ok].
  cbn [fst]. unfold photo_ok, photo_uploaded.
  cbn [Photo.status Photo.downloadUrl Photo.uploadedAt]. split; discriminate.
Qed.

Lemma survey_retried_ok s : survey_ok s -> Survey.status s <> submitted ->
  survey_ok (survey_retried s).
Proof.
  unfold survey_ok, survey_retried.
  cbn [Survey.status Survey.retryCount Survey.submittedAt].
  intros Hp Hs. destruct (3 <=? Survey.retryCount s + 1) eqn:Hc.
  - apply Nat.leb_le in Hc. exact Hc.
  - apply Nat.leb_gt in Hc.
    destruct (Survey.status s); try contradiction; lia.
Qed.

Lemma processSurvey_ok s w : survey_ok s -> survey_ok (fst (processSurvey s w)).
Proof.
  intros Hp. unfold processSurvey.
  destruct (status_eqb (Survey.status s) submitted) eqn:Hs; [exact Hp|].
  apply status_eqb_neq in Hs.
  destruct (remote _ w) as [[u|] w1]; [|now apply survey_retried_ok].
  cbn [fst]. unfold survey_ok, survey_submitted.
  cbn [Survey.status Survey.submittedAt]. discriminate.
Qed.

Lemma for_of_mut_processPhoto_same_data l w :
  same_data w (snd (for_of_mut processPhoto l w)).
Proof.
  apply for_of_mut_preserves; [|now repeat split].
  intros x w' (H1 & H2 & H3 & H4 & H5 & H6).
  destruct (processPhoto_same_data x w') as ((G1 & G2 & G3 & G4 & G5 & G6) & _).
  repeat split; congruence.
Qed.

Lemma for_of_mut_processSurvey_same_data l w :
  same_data w (snd (for_of_mut processSurvey l w)).
Proof.
  apply for_of_mut_preserves; [|now repeat split].
  intros x w' (H1 & H2 & H3 & H4 & H5 & H6).
  destruct (processSurvey_same_data x w') as ((G1 & G2 & G3 & G4 & G5 & G6) & _).
  repeat split; congruence.
Qed.

Lemma queues_ok_frame w w' :
  pendingPhotos w' = pendingPhotos w ->
  pendingSurveys w' = pendingSurveys w ->
  timers w' = timers w ->
  queues_ok w -> queues_ok w'.
Proof. unfold queues_ok. now intros -> -> ->. Qed.

Lemma queues_ok_cmd_stable : cmd_stable queues_ok.
Proof.
  constructor.
  - constructor; [constructor|..]; intros; unfold_transactions;
      try (eapply queues_ok_frame; [| | |eassumption]; reflexivity).
    destruct sn; unfold_transactions;
      (eapply queues_ok_frame; [| | |eassumption]; reflexivity).
  - intros w w' (_ & _ & _ & H1 & H2 & H3). now apply queues_ok_frame.
  - intros r w _ _. now apply queues_ok_frame.
  - intros r w _ _. now apply queues_ok_frame.
  - intros type data w. now apply queues_ok_frame.
  - intros id w. now apply queues_ok_frame.
  - intros id w. now apply queues_ok_frame.
  - intros cb ms w Hcb (H1 & H2 & H3). split; [exact H1|split; [exact H2|]].
    cbn [timers setTimeout set_timers]. apply Forall_app. split; [exact H3|].
    constructor; [|constructor]. unfold timer_ok. cbn [callback].
    now destruct Hcb as [-> | ->].
  - intros n w (H1 & H2 & H3). split; [exact H1|split; [exact H2|]].
    now apply Forall_remove_nth.
  - intros n t l w Hn Hcb (H1 & H2 & H3). split; [|split; [exact H2|]].
    + apply Forall_filter. apply nth_error_In in Hn.
      pose proof (proj1 (Forall_forall _ _) H3 t Hn) as Ht.
      unfold timer_ok in Ht. now rewrite Hcb in Ht.
    + now apply Forall_remove_nth.
  - intros n t l w Hn Hcb (H1 & H2 & H3). split; [exact H1|split].
    + apply Forall_filter. apply nth_error_In in Hn.
      pose proof (proj1 (Forall_forall _ _) H3 t Hn) as Ht.
      unfold timer_ok in Ht. now rewrite Hcb in Ht.
    + now apply Forall_remove_nth.
  - intros p w Hs Hr (H1 & H2 & H3). split; [|split; assumption].
    cbn [pendingPhotos set_pendingPhotos]. apply Forall_app.
    split; [exact H1|]. constructor; [|constructor].
    unfold photo_ok. rewrite Hs, Hr. lia.
  - intros s w Hs Hr (H1 & H2 & H3). split; [exact H1|split; [|exact H3]].
    cbn [pendingSurveys set_pendingSurveys]. apply Forall_app.
    split; [exact H2|]. constructor; [|constructor].
    unfold survey_ok. rewrite Hs, Hr. lia.
  - intros w (H1 & H2 & H3). unfold processPhotoQueue.
    destruct (List.length (pendingPhotos w) =? 0); [now repeat split|].
    pose proof (for_of_mut_Forall photo_ok processPhoto (pendingPhotos w)
                  processPhoto_ok w H1) as Hl.
    pose proof (for_of_mut_processPhoto_same_data (pendingPhotos w) w)
      as (_ & _ & _ & _ & G2 & G3).
    destruct (for_of_mut processPhoto (pendingPhotos w) w) as [l' w1].
    cbn [fst snd] in *. split; [exact Hl|split].
    + change (Forall survey_ok (pendingSurveys w1)). now rewrite G2.
    + change (Forall timer_ok (timers w1 ++ [mkTimer (prunePhotos l') 5000%N])).
      rewrite G3. apply Forall_app. split; [exact H3|].
      constructor; [exact Hl|constructor].
  - intros w (H1 & H2 & H3). unfold processSurveyQueue.
    destruct (List.length (pendingSurveys w) =? 0); [now repeat split|].
    pose proof (for_of_mut_Forall survey_ok processSurvey (pendingSurveys w)
                  processSurvey_ok w H2) as Hl.
    pose proof (for_of_mut_processSurvey_same_data (pendingSurveys w) w)
      as (_ & _ & _ & G1 & _ & G3).
    destruct (for_of_mut processSurvey (pendingSurveys w) w) as [l' w1].
    cbn [fst snd] in *. split; [|split; [exact Hl|]].
    + change (Forall photo_ok (pendingPhotos w1)). now rewrite G1.
    + change (Forall timer_ok (timers w1 ++ [mkTimer (pruneSurveys l') 5000%N])).
      rewrite G3. apply Forall_app. split; [exact H3|].
      constructor; [exact Hl|constructor].
Qed.

(** X9.  Whatever the instance is asked to do, the status of a queued
    photo or survey agrees with its retry count: a pending item has been
    rejected fewer than three times, a failed one at least three times, an
    uploaded photo has its download URL and a submitted survey its
    submission time.  The arrays kept by the scheduled prunes satisfy the
    same, so a prune that writes one back keeps it. *)
Theorem queue_status_invariant :
  forall (cs : list Command) (w : World),
    queues_ok w ->
    let w' := perform_all cs w in
    (forall p, In p (pendingPhotos w') ->
       (Photo.status p = pending -> Photo.retryCount p < 3) /\
       (Photo.status p = failed -> 3 <= Photo.retryCount p) /\
       (Photo.status p = uploaded ->
          Photo.downloadUrl p <> None /\ Photo.uploadedAt p <> None) /\
       Photo.status p <> submitted) /\
    (forall s, In s (pendingSurveys w') ->
       (Survey.status s = pending -> Survey.retryCount s < 3) /\
       (Survey.status s = failed -> 3 <= Survey.retryCount s) /\
       (Survey.status s = submitted -> Survey.submittedAt s <> None) /\
       Survey.status s <> uploaded).
Proof.
  intros cs w Hw w'.
  pose proof (keeps_perform_all _ queues_ok_cmd_stable cs w Hw) as (H1 & H2 & _).
  fold w' in H1, H2. split.
  - intros p Hp. pose proof (proj1 (Forall_forall _ _) H1 p Hp) as Hok.
    unfold photo_ok in Hok. destruct (Photo.status p);
      repeat split; try discriminate; try tauto; intros _; tauto.
  - intros s Hs. pose proof (proj1 (Forall_forall _ _) H2 s Hs) as Hok.
    unfold survey_ok in Hok. destruct (Survey.status s);
      repeat split; try discriminate; try tauto; intros _; tauto.
Qed.

Lemma queues_ok_fresh : queues_ok fresh.
Proof. repeat split; constructor. Qed.

Lemma queue_status_invariant_witness :
  let w' := perform_all
              [cmd_op op_onOffline;
               cmd_queuePhoto (mkPhotoData "data:image/jpeg;base64" None None None)
                 (mkContext None None None);
               cmd_processPhotoQueue; cmd_processPhotoQueue;
               cmd_processPhotoQueue; cmd_processPhotoQueue]
              fresh in
  map (fun p => (Photo.status p, Photo.retryCount p)) (pendingPhotos w') =
    [(failed, 4)] /\
  forall p, In p (pendingPhotos w') ->
    Photo.status p = failed -> 3 <= Photo.retryCount p.
Proof.
  split; [reflexivity|]. intros p Hp.
  destruct (queue_status_invariant
              [cmd_op op_onOffline;
               cmd_queuePhoto (mkPhotoData "data:image/jpeg;base64" None None None)
                 (mkContext None None None);
               cmd_processPhotoQueue; cmd_processPhotoQueue;
               cmd_processPhotoQueue; cmd_processPhotoQueue]
              fresh queues_ok_fresh) as [H _].
  exact (proj1 (proj2 (H p Hp))).
Defined.

(** *** A pass in which every call is accepted *)

Lemma processPhoto_skips p w :
  not_uploaded p = false -> processPhoto p w = (p, w).
Proof.
  unfold not_uploaded, processPhoto. intros H.
  apply negb_false_iff in H. now rewrite H.
Qed.

Lemma processPhoto_accepted p w :
  not_uploaded p = true ->
  network w (netCalls w) <> None ->
  network w (S (netCalls w)) <> None ->
  Photo.status (fst (processPhoto p w)) = uploaded /\
  Photo.id (fst (processPhoto p w)) = Photo.id p /\
  netCalls (snd (processPhoto p w)) = S (S (netCalls w)) /\
  network (snd (processPhoto p w)) = network w.
Proof.
  unfold not_uploaded, processPhoto, remote. intros H H1 H2.
  apply negb_true_iff in H. rewrite H.
  destruct (network w (netCalls w)); [|contradiction].
  cbn [network netCalls].
  destruct (network w (S (netCalls w))); [|contradiction].
  now repeat split.
Qed.

Lemma for_of_mut_processPhoto_accepted l :
  forall w,
    (forall i, i < 2 * List.length (filter not_uploaded l) ->
       network w (netCalls w + i) <> None) ->
    Forall (fun p => Photo.status p = uploaded) (fst (for_of_mut processPhoto l w)) /\
    map Photo.id (fst (for_of_mut processPhoto l w)) = map Photo.id l /\
    netCalls (snd (for_of_mut processPhoto l w)) =
      netCalls w + 2 * List.length (filter not_uploaded l).
Proof.
  induction l as [|p l IH]; intros w Hnet; cbn [for_of_mut filter].
  - cbn [fst snd map List.length]. split; [constructor|]. split; [reflexivity|lia].
  - cbn [filter] in Hnet. destruct (not_uploaded p) eqn:Hp.
    + cbn [List.length] in Hnet.
      destruct (processPhoto_accepted p w Hp) as (A1 & A2 & A3 & A4).
      { rewrite <- (Nat.add_0_r (netCalls w)). apply Hnet. lia. }
      { rewrite <- Nat.add_1_r. apply Hnet. lia. }
      destruct (processPhoto p w) as [p' w1]. cbn [fst snd] in *.
      destruct (IH w1) as (B1 & B2 & B3).
      { intros i Hi. rewrite A3, A4.
        replace (S (S (netCalls w)) + i) with (netCalls w + (2 + i)) by lia.
        apply Hnet. lia. }
      destruct (for_of_mut processPhoto l w1) as [l' w2]. cbn [fst snd] in *.
      split; [now constructor|]. split.
      * cbn [map]. now rewrite A2, B2.
      * rewrite B3, A3. cbn [List.length]. lia.
    + rewrite (processPhoto_skips p w Hp).
      destruct (IH w Hnet) as (B1 & B2 & B3).
      destruct (for_of_mut processPhoto l w) as [l' w2]. cbn [fst snd] in *.
      split; [constructor; [|exact B1]|].
      * unfold not_uploaded in Hp. apply negb_false_iff in Hp.
        now apply status_eqb_eq in Hp.
      * split; [cbn [map]; now rewrite B2|exact B3].
Qed.

Lemma processSurvey_skips s w :
  not_submitted s = false -> processSurvey s w = (s, w).
Proof.
  unfold not_submitted, processSurvey. intros H.
  apply negb_false_iff in H. now rewrite H.
Qed.

Lemma processSurvey_accepted s w :
  not_submitted s = true ->
  network w (netCalls w) <> None ->
  Survey.status (fst (processSurvey s w)) = submitted /\
  Survey.id (fst (processSurvey s w)) = Survey.id s /\
  netCalls (snd (processSurvey s w)) = S (netCalls w) /\
  network (snd (processSurvey s w)) = network w.
Proof.
  unfold not_submitted, processSurvey, remote. intros H H1.
  apply negb_true_iff in H. rewrite H.
  destruct (network w (netCalls w)); [|contradiction].
  now repeat split.
Qed.

Lemma for_of_mut_processSurvey_accepted l :
  forall w,
    (forall i, i < List.length (filter not_submitted l) ->
       network w (netCalls w + i) <> None) ->
    Forall (fun s => Survey.status s = submitted)
      (fst (for_of_mut processSurvey l w)) /\
    map Survey.id (fst (for_of_mut processSurvey l w)) = map Survey.id l /\
    netCalls (snd (for_of_mut processSurvey l w)) =
      netCalls w + List.length (filter not_submitted l).
Proof.
  induction l as [|p l IH]; intros w Hnet; cbn [for_of_mut filter].
  - cbn [fst snd map List.length]. split; [constructor|]. split; [reflexivity|lia].
  - cbn [filter] in Hnet. destruct (not_submitted p) eqn:Hp.
    + cbn [List.length] in Hnet.
      destruct (processSurvey_accepted p w Hp) as (A1 & A2 & A3 & A4).
      { rewrite <- (Nat.add_0_r (netCalls w)). apply Hnet. lia. }
      destruct (processSurvey p w) as [p' w1]. cbn [fst snd] in *.
      destruct (IH w1) as (B1 & B2 & B3).
      { intros i Hi. rewrite A3, A4.
        replace (S (netCalls w) + i) with (netCalls w + (1 + i)) by lia.
        apply Hnet. lia. }
      destruct (for_of_mut processSurvey l w1) as [l' w2]. cbn [fst snd] in *.
      split; [now constructor|]. split.
      * cbn [map]. now rewrite A2, B2.
      * rewrite B3, A3. cbn [List.length]. lia.
    + rewrite (processSurvey_skips p w Hp).
      destruct (IH w Hnet) as (B1 & B2 & B3).
      destruct (for_of_mut processSurvey l w) as [l' w2]. cbn [fst snd] in *.
      split; [constructor; [|exact B1]|].
      * unfold not_submitted in Hp. apply negb_false_iff in Hp.
        now apply status_eqb_eq in Hp.
      * split; [cbn [map]; now rewrite B2|exact B3].
Qed.

Lemma remove_nth_last {A : Type} (l : list A) (x : A) :
  remove_nth (List.length l) (l ++ [x]) = l.
Proof.
  induction l as [|y l IH]; cbn [List.length app remove_nth]; [reflexivity|].
  now rewrite IH.
Qed.

Lemma filter_none_left {A : Type} (f : A -> bool) (Q : A -> Prop) l :
  (forall x, Q x -> f x = false) -> Forall Q l -> filter f l = [].
Proof.
  intros Hf Hl. apply filter_nil_when. intros x Hx. apply Hf.
  exact (proj1 (Forall_forall _ _) Hl x Hx).
Qed.

(** X10.  A pass of [processPhotoQueue] or [processSurveyQueue] in which
    every call is accepted keeps the items of the queue in place, marks
    each of them uploaded or submitted, makes two calls for a photo and
    one for a survey that was not yet done; when the prune it schedules
    fires next, the queue is empty and the timer is gone. *)
Theorem accepted_pass_then_prune :
  forall (w : World),
    ((forall i, i < 2 * List.length (filter not_uploaded (pendingPhotos w)) ->
        network w (netCalls w + i) <> None) ->
     let w1 := processPhotoQueue w in
     let w2 := fire (List.length (timers w)) w1 in
     map Photo.id (pendingPhotos w1) = map Photo.id (pendingPhotos w) /\
     Forall (fun p => Photo.status p = uploaded) (pendingPhotos w1) /\
     netCalls w1 =
       netCalls w + 2 * List.length (filter not_uploaded (pendingPhotos w)) /\
     pendingPhotos w2 = [] /\
     timers w2 = timers w) /\
    ((forall i, i < List.length (filter not_submitted (pendingSurveys w)) ->
        network w (netCalls w + i) <> None) ->
     let w1 := processSurveyQueue w in
     let w2 := fire (List.length (timers w)) w1 in
     map Survey.id (pendingSurveys w1) = map Survey.id (pendingSurveys w) /\
     Forall (fun s => Survey.status s = submitted) (pendingSurveys w1) /\
     netCalls w1 =
       netCalls w + List.length (filter not_submitted (pendingSurveys w)) /\
     pendingSurveys w2 = [] /\
     timers w2 = timers w).
Proof.
  intros w. split.
  - intros Hnet. cbn zeta. unfold processPhotoQueue.
    destruct (pendingPhotos w) as [|p0 l0] eqn:Hq.
    + cbn [List.length Nat.eqb filter map]. rewrite Hq.
      split; [reflexivity|]. split; [constructor|]. split; [lia|].
      unfold fire. rewrite (proj2 (nth_error_None _ _)) by lia.
      now split.
    + change (List.length (p0 :: l0) =? 0) with false. cbn iota.
      destruct (for_of_mut_processPhoto_accepted (p0 :: l0) w Hnet)
        as (B1 & B2 & B3).
      pose proof (for_of_mut_processPhoto_same_data (p0 :: l0) w)
        as (_ & _ & _ & _ & _ & G3).
      destruct (for_of_mut processPhoto (p0 :: l0) w) as [l' w1].
      cbn [fst snd] in *.
      split; [exact B2|]. split; [exact B1|]. split; [exact B3|].
      unfold fire.
      change (timers (setTimeout (prunePhotos l') 5000%N (set_pendingPhotos l' w1)))
        with (timers w1 ++ [mkTimer (prunePhotos l') 5000%N]).
      rewrite G3, nth_error_length_app. cbn [callback].
      rewrite fire_callback_prunePhotos. split.
      * cbn [pendingPhotos updatePendingIndicator notify set_notices
             set_pendingPhotos].
        apply (filter_none_left _ _ _ (fun p H => proj2 (negb_false_iff _)
                 (proj2 (status_eqb_eq _ _) H)) B1).
      * cbn [timers updatePendingIndicator notify set_notices set_pendingPhotos
             set_timers].
        apply remove_nth_last.
  - intros Hnet. cbn zeta. unfold processSurveyQueue.
    destruct (pendingSurveys w) as [|p0 l0] eqn:Hq.
    + cbn [List.length Nat.eqb filter map]. rewrite Hq.
      split; [reflexivity|]. split; [constructor|]. split; [lia|].
      unfold fire. rewrite (proj2 (nth_error_None _ _)) by lia.
      now split.
    + change (List.length (p0 :: l0) =? 0) with false. cbn iota.
      destruct (for_of_mut_processSurvey_accepted (p0 :: l0) w Hnet)
        as (B1 & B2 & B3).
      pose proof (for_of_mut_processSurvey_same_data (p0 :: l0) w)
        as (_ & _ & _ & _ & _ & G3).
      destruct (for_of_mut processSurvey (p0 :: l0) w) as [l' w1].
      cbn [fst snd] in *.
      split; [exact B2|]. split; [exact B1|]. split; [exact B3|].
      unfold fire.
      change (timers (setTimeout (pruneSurveys l') 5000%N (set_pendingSurveys l' w1)))
        with (timers w1 ++ [mkTimer (pruneSurveys l') 5000%N]).
      rewrite G3, nth_error_length_app. cbn [callback].
      rewrite fire_callback_pruneSurveys. split.
      * cbn [pendingSurveys updatePendingIndicator notify set_notices
             set_pendingSurveys].
        apply (filter_none_left _ _ _ (fun p H => proj2 (negb_false_iff _)
                 (proj2 (status_eqb_eq _ _) H)) B1).
      * cbn [timers updatePendingIndicator notify set_notices set_pendingSurveys
             set_timers].
        apply remove_nth_last.
Qed.

Lemma accepted_pass_then_prune_witness :
  let w := set_pendingSurveys [failed_survey]
             (set_pendingPhotos [pending_photo] fresh_up) in
  pendingPhotos (fire 0 (processPhotoQueue w)) = [] /\
  pendingSurveys (fire 0 (processSurveyQueue w)) = [].
Proof.
  cbn zeta.
  destruct (accepted_pass_then_prune
              (set_pendingSurveys [failed_survey]
                 (set_pendingPhotos [pending_photo] fresh_up))) as [HP HS].
  split.
  - refine (proj1 (proj2 (proj2 (proj2 (HP _))))).
    intros i _. cbn. discriminate.
  - refine (proj1 (proj2 (proj2 (proj2 (HS _))))).
    intros i _. cbn. discriminate.
Defined.

(** ** While the instance holds itself offline *)

Section Offline.
Variables (t0 : list Event) (n0 : nat).

Lemma offline_frame w w' :
  isOnline w' = isOnline w -> trace w' = trace w -> netCalls w' = netCalls w ->
  offline_at t0 n0 w -> offline_at t0 n0 w'.
Proof. unfold offline_at. now intros -> -> ->. Qed.

Lemma offline_processEmailQueue w :
  offline_at t0 n0 w -> offline_at t0 n0 (processEmailQueue w).
Proof. intros Hw. now rewrite processEmailQueue_offline by apply Hw. Qed.

Lemma offline_saveRoute routeData user w :
  offline_at t0 n0 w -> offline_at t0 n0 (snd (saveRoute routeData user w)).
Proof.
  intros Hw. unfold saveRoute, savePendingRoute, queueEmailBackup.
  cbn [add fst snd]. cbn [isOnline set_email_queue set_pending_routes].
  rewrite (proj1 Hw). cbn [snd]. apply offline_processEmailQueue.
  now apply (offline_frame w).
Qed.

Lemma offline_saveTrailGuide guideData user w :
  offline_at t0 n0 w -> offline_at t0 n0 (snd (saveTrailGuide guideData user w)).
Proof.
  intros Hw. unfold saveTrailGuide, savePendingGuide, queueEmailBackup.
  cbn [add fst snd]. cbn [isOnline set_email_queue set_pending_guides].
  rewrite (proj1 Hw). cbn [snd]. apply offline_processEmailQueue.
  now apply (offline_frame w).
Qed.

Lemma offline_run_syncAllPending w :
  offline_at t0 n0 w -> offline_at t0 n0 (run syncAllPending w).
Proof.
  intros Hw.
  destruct (run_syncAllPending_idle w (or_intror (or_introl (proj1 Hw))))
    as (T & N & _).
  destruct (run_syncAllPending_frame w) as (_ & O & _).
  now apply (offline_frame w).
Qed.

Lemma offline_fire n w : offline_at t0 n0 w -> offline_at t0 n0 (fire n w).
Proof.
  intros Hw. unfold fire.
  destruct (nth_error (timers w) n) as [t|]; [|assumption].
  assert (H1 : offline_at t0 n0 (set_timers (remove_nth n (timers w)) w))
    by now apply (offline_frame w).
  destruct (callback t) as [| |l|l].
  - cbn [fire_callback]. rewrite (proj1 H1). exact H1.
  - exact H1.
  - rewrite fire_callback_prunePhotos. now apply (offline_frame w).
  - rewrite fire_callback_pruneSurveys. now apply (offline_frame w).
Qed.

Lemma offline_perform c w :
  respects_offline c = true ->
  offline_at t0 n0 w -> offline_at t0 n0 (perform c w).
Proof.
  intros Hc Hw. destruct c as [o| | | | | | | | | | |]; cbn [perform];
    try discriminate.
  - destruct o; cbn [exec]; try discriminate.
    + now apply offline_saveRoute.
    + now apply offline_saveTrailGuide.
    + rewrite markRouteUploaded_modify. now apply (offline_frame w).
    + rewrite markGuideUploaded_modify. now apply (offline_frame w).
    + destruct storeName;
        [rewrite incrementRetryCount_routes|rewrite incrementRetryCount_guides];
        now apply (offline_frame w).
    + now apply offline_run_syncAllPending.
    + now apply offline_processEmailQueue.
    + split; [reflexivity|exact (proj2 Hw)].
    + now apply offline_fire.
    + now apply (offline_frame w).
  - unfold deleteRoute. destruct (negb confirmed); [assumption|].
    now apply (offline_frame w).
  - unfold deleteGuide. destruct (negb confirmed); [assumption|].
    now apply (offline_frame w).
  - unfold clearUploaded. destruct (negb confirmed); [assumption|].
    match goal with
    | |- offline_at _ _ (notify _ ?w2) =>
        assert (H2 : offline_at t0 n0 w2); [|now apply (offline_frame w2)]
    end.
    apply for_of_preserves;
      [intros x w' Hw'; now apply (offline_frame w')|].
    apply for_of_preserves;
      [intros x w' Hw'; now apply (offline_frame w')|].
    assumption.
  - unfold queuePhoto. cbn [snd].
    match goal with
    | |- offline_at _ _ (if isOnline ?w4 then _ else _) =>
        assert (H4 : offline_at t0 n0 w4) by now apply (offline_frame w)
    end.
    rewrite (proj1 H4). exact H4.
  - unfold queueSurvey. cbn [snd].
    match goal with
    | |- offline_at _ _ (if isOnline ?w4 then _ else _) =>
        assert (H4 : offline_at t0 n0 w4) by now apply (offline_frame w)
    end.
    rewrite (proj1 H4). exact H4.
  - unfold loadEmailJS.
    destruct (emailJsLoaded w); [assumption|].
    destruct (emailjs_defined w); [now apply (offline_frame w)|].
    destruct scriptLoads; [|now apply (offline_frame w)].
    destruct (truthy _); now apply (offline_frame w).
  - unfold initialize.
    assert (H1 : offline_at t0 n0 (loadEmailJS scriptLoads w)).
    { unfold loadEmailJS.
      destruct (emailJsLoaded w); [assumption|].
      destruct (emailjs_defined w); [now apply (offline_frame w)|].
      destruct scriptLoads; [|now apply (offline_frame w)].
      destruct (truthy _); now apply (offline_frame w). }
    destruct (0 <? _); [|assumption].
    rewrite (proj1 H1). exact H1.
Qed.

End Offline.

(** X11.  While [isOnline] is false, saving, queueing, a sync request, a
    drain of the email queue, the timers, deleting, clearing, loading the
    relay and initialising make no remote call and leave the flag false,
    in any order and number.  Only the connectivity handlers set the flag,
    and only the single uploads and direct drains of the photo and survey
    queues call the network without testing it. *)
Theorem offline_makes_no_call :
  forall (cs : list Command) (w : World),
    isOnline w = false ->
    forallb respects_offline cs = true ->
    isOnline (perform_all cs w) = false /\
    trace (perform_all cs w) = trace w /\
    netCalls (perform_all cs w) = netCalls w.
Proof.
  intros cs w Hoff Hcs.
  assert (H : offline_at (trace w) (netCalls w) (perform_all cs w));
    [|exact H].
  assert (H0 : offline_at (trace w) (netCalls w) w) by now repeat split.
  revert H0. generalize (trace w) (netCalls w). intros t0 n0.
  unfold perform_all. revert w Hoff.
  induction cs as [|c cs IH]; intros w Hoff H0; cbn [fold_left]; [exact H0|].
  cbn [forallb] in Hcs. apply andb_true_iff in Hcs. destruct Hcs as [Hc Hcs].
  pose proof (offline_perform t0 n0 c w Hc H0) as H1.
  apply (IH Hcs); [exact (proj1 H1)|exact H1].
Qed.

Lemma offline_makes_no_call_witness :
  let cs := [cmd_op (op_saveRoute "Loop Trail" (Some alice));
             cmd_op (op_environment true (Some alice) 9);
             cmd_op op_syncAllPending;
             cmd_queuePhoto (mkPhotoData "data:image/jpeg;base64" None None None)
               (mkContext None None None);
             cmd_op op_processEmailQueue;
             cmd_clearUploaded true] in
  trace (perform_all cs (set_isOnline false relay_ready)) = [] /\
  getPendingCount (perform_all cs (set_isOnline false relay_ready)) = 1.
Proof.
  cbn zeta. split; [|reflexivity].
  exact (proj1 (proj2 (offline_makes_no_call
           [cmd_op (op_saveRoute "Loop Trail" (Some alice));
            cmd_op (op_environment true (Some alice) 9);
            cmd_op op_syncAllPending;
            cmd_queuePhoto (mkPhotoData "data:image/jpeg;base64" None None None)
              (mkContext None None None);
            cmd_op op_processEmailQueue;
            cmd_clearUploaded true]
           (set_isOnline false relay_ready) eq_refl eq_refl))).
Defined.

(** ** Saving while online *)

Lemma saveRoute_online payload u w :
  isOnline w = true ->
  store_wf (pending_routes w) ->
  let id := keyGen (pending_routes w) in
  let r := with_key id (newPending payload (Some u) w) in
  let w' := snd (saveRoute payload (Some u) w) in
  let entry := with_key (keyGen (email_queue w))
                 (Email.mk 0 Route r (now w) false 0 None) in
  (forall c, network w (netCalls w) = Some c -> truthy c = true ->
     fst (saveRoute payload (Some u) w) = mkSaved id (Some c) /\
     get id (pending_routes w') = Some (set_uploaded c (now w) r) /\
     trace w' = trace w ++ [addDoc "routes" payload (uid u)] /\
     rows (email_queue w') = rows (email_queue w) ++ [entry]) /\
  (network w (netCalls w) = None \/
   (exists c, network w (netCalls w) = Some c /\ truthy c = false) ->
     fst (saveRoute payload (Some u) w) = mkSaved id None /\
     get id (pending_routes w') = Some r /\
     Pending.status r = pending /\ Pending.retryCount r = 0 /\
     trace w' = trace w ++ [addDoc "routes" payload (uid u)] /\
     rows (email_queue w') = rows (email_queue w) ++ [entry]).
Proof.
  intros Hon Hwf id r w' entry. unfold w'. clear w'.
  unfold saveRoute, savePendingRoute, queueEmailBackup.
  cbn [add fst snd]. cbn [isOnline set_email_queue set_pending_routes].
  rewrite Hon. unfold uploadRouteToCloud, remote.
  cbn [network netCalls set_email_queue set_pending_routes].
  assert (Hnew : get id (snd (add (newPending payload (Some u) w) (pending_routes w)))
                 = Some r) by now apply get_add_new.
  split.
  - intros c Hc Ht. rewrite Hc, Ht. cbn [fst snd].
    split; [reflexivity|]. rewrite markRouteUploaded_modify.
    cbn [pending_routes trace email_queue now notify set_notices set_pending_routes].
    split; [|split; reflexivity].
    rewrite get_modify_same by (intros y; apply set_uploaded_key).
    change (option_map (set_uploaded c (now w))
              (get id (snd (add (newPending payload (Some u) w) (pending_routes w))))
            = Some (set_uploaded c (now w) r)).
    now rewrite Hnew.
  - intros Hrej.
    assert (Hdrain : forall X,
              pending_routes X =
                snd (add (newPending payload (Some u) w) (pending_routes w)) ->
              trace X = trace w ++ [addDoc "routes" payload (uid u)] ->
              rows (email_queue X) = rows (email_queue w) ++ [entry] ->
              get id (pending_routes (processEmailQueue X)) = Some r /\
              Pending.status r = pending /\ Pending.retryCount r = 0 /\
              trace (processEmailQueue X) =
                trace w ++ [addDoc "routes" payload (uid u)] /\
              rows (email_queue (processEmailQueue X)) =
                rows (email_queue w) ++ [entry]).
    { intros X HX HT HE.
      destruct (processEmailQueue_frame X) as (E1 & _ & _ & _).
      destruct (processEmailQueue_inert X) as (E2 & T2 & _).
      rewrite E1, HX, E2, T2. split; [exact Hnew|]. split; [reflexivity|].
      split; [reflexivity|]. split; assumption. }
    destruct Hrej as [Hc|[c [Hc Ht]]]; rewrite Hc; [|rewrite Ht]; cbn [fst snd];
      (split; [reflexivity|]); apply Hdrain; reflexivity.
Qed.

Lemma saveTrailGuide_online payload u w :
  isOnline w = true ->
  store_wf (pending_guides w) ->
  let id := keyGen (pending_guides w) in
  let r := with_key id (newPending payload (Some u) w) in
  let w' := snd (saveTrailGuide payload (Some u) w) in
  let entry := with_key (keyGen (email_queue w))
                 (Email.mk 0 Guide r (now w) false 0 None) in
  (forall c, network w (netCalls w) = Some c -> truthy c = true ->
     fst (saveTrailGuide payload (Some u) w) = mkSaved id (Some c) /\
     get id (pending_guides w') = Some (set_uploaded c (now w) r) /\
     trace w' = trace w ++ [addDoc "trail_guides" payload (uid u)] /\
     rows (email_queue w') = rows (email_queue w) ++ [entry]) /\
  (network w (netCalls w) = None \/
   (exists c, network w (netCalls w) = Some c /\ truthy c = false) ->
     fst (saveTrailGuide payload (Some u) w) = mkSaved id None /\
     get id (pending_guides w') = Some r /\
     Pending.status r = pending /\ Pending.retryCount r = 0 /\
     trace w' = trace w ++ [addDoc "trail_guides" payload (uid u)] /\
     rows (email_queue w') = rows (email_queue w) ++ [entry]).
Proof.
  intros Hon Hwf id r w' entry. unfold w'. clear w'.
  unfold saveTrailGuide, savePendingGuide, queueEmailBackup.
  cbn [add fst snd]. cbn [isOnline set_email_queue set_pending_guides].
  rewrite Hon. unfold uploadGuideToCloud, remote.
  cbn [network netCalls set_email_queue set_pending_guides].
  assert (Hnew : get id (snd (add (newPending payload (Some u) w) (pending_guides w)))
                 = Some r) by now apply get_add_new.
  split.
  - intros c Hc Ht. rewrite Hc, Ht. cbn [fst snd].
    split; [reflexivity|]. rewrite markGuideUploaded_modify.
    cbn [pending_guides trace email_queue now notify set_notices set_pending_guides].
    split; [|split; reflexivity].
    rewrite get_modify_same by (intros y; apply set_uploaded_key).
    change (option_map (set_uploaded c (now w))
              (get id (snd (add (newPending payload (Some u) w) (pending_guides w))))
            = Some (set_uploaded c (now w) r)).
    now rewrite Hnew.
  - intros Hrej.
    assert (Hdrain : forall X,
              pending_guides X =
                snd (add (newPending payload (Some u) w) (pending_guides w)) ->
              trace X = trace w ++ [addDoc "trail_guides" payload (uid u)] ->
              rows (email_queue X) = rows (email_queue w) ++ [entry] ->
              get id (pending_guides (processEmailQueue X)) = Some r /\
              Pending.status r = pending /\ Pending.retryCount r = 0 /\
              trace (processEmailQueue X) =
                trace w ++ [addDoc "trail_guides" payload (uid u)] /\
              rows (email_queue (processEmailQueue X)) =
                rows (email_queue w) ++ [entry]).
    { intros X HX HT HE.
      destruct (processEmailQueue_frame X) as (_ & E1 & _ & _).
      destruct (processEmailQueue_inert X) as (E2 & T2 & _).
      rewrite E1, HX, E2, T2. split; [exact Hnew|]. split; [reflexivity|].
      split; [reflexivity|]. split; assumption. }
    destruct Hrej as [Hc|[c [Hc Ht]]]; rewrite Hc; [|rewrite Ht]; cbn [fst snd];
      (split; [reflexivity|]); apply Hdrain; reflexivity.
Qed.

(** X12.  [saveRoute] and [saveTrailGuide] for a signed-in user while
    online.  When the upload is accepted with a non-empty id the record is
    stored as uploaded with that id and the save resolves with it.  When
    the upload is rejected, or returns an empty id, the save still
    resolves, with [cloudId: null]; the record stays pending with
    [retryCount] 0, so the rejected upload is not counted.  In both cases
    the only remote call of the save is the upload, and one backup entry is
    added to the outbox, unsent and holding the record as it was before the
    upload. *)
Theorem online_save_outcomes :
  forall (payload : Data) (u : User) (w : World),
    isOnline w = true ->
    world_wf w ->
    (let id := keyGen (pending_routes w) in
     let r := with_key id (newPending payload (Some u) w) in
     let w' := snd (saveRoute payload (Some u) w) in
     let entry := with_key (keyGen (email_queue w))
                    (Email.mk 0 Route r (now w) false 0 None) in
     (forall c, network w (netCalls w) = Some c -> truthy c = true ->
        fst (saveRoute payload (Some u) w) = mkSaved id (Some c) /\
        get id (pending_routes w') = Some (set_uploaded c (now w) r) /\
        trace w' = trace w ++ [addDoc "routes" payload (uid u)] /\
        rows (email_queue w') = rows (email_queue w) ++ [entry]) /\
     (network w (netCalls w) = None \/
      (exists c, network w (netCalls w) = Some c /\ truthy c = false) ->
        fst (saveRoute payload (Some u) w) = mkSaved id None /\
        get id (pending_routes w') = Some r /\
        Pending.status r = pending /\ Pending.retryCount r = 0 /\
        trace w' = trace w ++ [addDoc "routes" payload (uid u)] /\
        rows (email_queue w') = rows (email_queue w) ++ [entry])) /\
    (let id := keyGen (pending_guides w) in
     let r := with_key id (newPending payload (Some u) w) in
     let w' := snd (saveTrailGuide payload (Some u) w) in
     let entry := with_key (keyGen (email_queue w))
                    (Email.mk 0 Guide r (now w) false 0 None) in
     (forall c, network w (netCalls w) = Some c -> truthy c = true ->
        fst (saveTrailGuide payload (Some u) w) = mkSaved id (Some c) /\
        get id (pending_guides w') = Some (set_uploaded c (now w) r) /\
        trace w' = trace w ++ [addDoc "trail_guides" payload (uid u)] /\
        rows (email_queue w') = rows (email_queue w) ++ [entry]) /\
     (network w (netCalls w) = None \/
      (exists c, network w (netCalls w) = Some c /\ truthy c = false) ->
        fst (saveTrailGuide payload (Some u) w) = mkSaved id None /\
        get id (pending_guides w') = Some r /\
        Pending.status r = pending /\ Pending.retryCount r = 0 /\
        trace w' = trace w ++ [addDoc "trail_guides" payload (uid u)] /\
        rows (email_queue w') = rows (email_queue w) ++ [entry])).
Proof.
  intros payload u w Hon (Hr & Hg & _). split.
  - now apply saveRoute_online.
  - now apply saveTrailGuide_online.
Qed.

Lemma online_save_outcomes_witness :
  fst (saveRoute "Loop Trail" (Some alice) fresh_up) = mkSaved 1 (Some "doc") /\
  trace (snd (saveRoute "Loop Trail" (Some alice) fresh_up)) =
    [addDoc "routes" "Loop Trail" "u1"] /\
  fst (saveTrailGuide "Guide" (Some alice) fresh) = mkSaved 1 None /\
  map Pending.retryCount
    (rows (pending_guides (snd (saveTrailGuide "Guide" (Some alice) fresh)))) = [0].
Proof.
  assert (Hup : world_wf fresh_up).
  { repeat split; constructor. }
  destruct (online_save_outcomes "Loop Trail" alice fresh_up eq_refl Hup)
    as [[H _] _].
  destruct (H "doc" eq_refl eq_refl) as (H1 & _ & H3 & _).
  destruct (online_save_outcomes "Guide" alice fresh eq_refl world_wf_fresh)
    as [_ [_ G]].
  destruct (G (or_introl eq_refl)) as (G1 & _).
  split; [exact H1|]. split; [exact H3|]. split; [exact G1|reflexivity].
Defined.

(** ** The flag of the sync pass *)

Lemma run_syncAllPending_flag w :
  syncInProgress (run syncAllPending w) = syncInProgress w.
Proof.
  destruct (syncInProgress w) eqn:Hf.
  { unfold run, syncAllPending. rewrite Hf. exact Hf. }
  destruct (isOnline w) eqn:Ho.
  2:{ unfold run, syncAllPending. rewrite Hf, Ho. exact Hf. }
  destruct (currentUser w) as [user|] eqn:Hu.
  2:{ unfold run, syncAllPending. rewrite Hf, Ho. cbn [negb complete].
      cbn [currentUser set_syncInProgress]. rewrite Hu. reflexivity. }
  destruct (Nat.eq_dec (getPendingCount w) 0) as [Hz|Hz].
  - unfold run, syncAllPending. rewrite Hf, Ho. cbn [negb complete].
    cbn [currentUser set_syncInProgress]. rewrite Hu. cbn [complete].
    change (getPendingRoutes (set_syncInProgress true w)) with (getPendingRoutes w).
    change (getPendingGuides (set_syncInProgress true w)) with (getPendingGuides w).
    fold (getPendingCount w). rewrite Hz. reflexivity.
  - destruct (run_syncAllPending_busy w user Hf Ho Hu ltac:(lia))
      as (sc & fc & ->).
    reflexivity.
Qed.

(** X13.  Every operation of the instance, run to its end, leaves
    [syncInProgress] as it found it: a pass of [syncAllPending] clears the
    flag on every path, whether uploads fail, nobody is signed in or
    nothing is pending, and no other operation writes it. *)
Theorem sync_flag_is_released :
  forall (cs : list Command) (w : World),
    syncInProgress (perform_all cs w) = syncInProgress w.
Proof.
  intros cs w.
  apply (outbox_perform_all (fun w' => syncInProgress w' = syncInProgress w)).
  - intros w1 w2 _ F Hw. now rewrite F.
  - intros w1 Hw.
    destruct (processEmailQueue_frame w1) as (_ & _ & _ & _ & _ & F & _).
    now rewrite F.
  - intros type data w1 Hw. exact Hw.
  - intros w1 Hw. now rewrite run_syncAllPending_flag.
  - reflexivity.
Qed.

(** ** The variables of the email template *)

Lemma substring_0_length n :
  forall s, String.length (substring 0 n s) = Nat.min n (String.length s).
Proof.
  induction n as [|n IH]; intros [|c s]; cbn [substring String.length Nat.min];
    try reflexivity.
  now rewrite IH.
Qed.

Lemma substring_0_prefix n :
  forall s, exists rest, s = String.append (substring 0 n s) rest.
Proof.
  induction n as [|n IH]; intros [|c s]; cbn [substring].
  - now exists EmptyString.
  - now exists (String c s).
  - now exists EmptyString.
  - destruct (IH s) as [rest Hrest]. exists rest.
    cbn [String.append]. now rewrite <- Hrest.
Qed.

Lemma substring_0_all n :
  forall s, String.length s <= n -> substring 0 n s = s.
Proof.
  induction n as [|n IH]; intros [|c s]; cbn [substring String.length];
    intros Hlen; try reflexivity; [lia|].
  rewrite IH by lia. reflexivity.
Qed.

Lemma or_else_truthy s d : truthy d = true -> truthy (or_else s d) = true.
Proof. unfold or_else. intros Hd. now destruct (truthy s) eqn:Hs. Qed.

(** X14.  The backup handed to the relay carries at most the first 5000
    characters of the record as text: a longer record is cut, a shorter
    one is sent whole.  The name and the address of the user are never
    empty, [Anonymous] and [Not provided] stand in, and the type and the
    local id are those of the entry. *)
Theorem backup_is_truncated :
  forall (stringify : Pending.t -> string) (backupEmail : string)
         (item : Email.t),
    let p := templateParams stringify backupEmail item in
    let text := stringify (Email.data item) in
    String.length (backup_data p) = Nat.min content_limit (String.length text) /\
    (exists rest, text = String.append (backup_data p) rest) /\
    (String.length text <= content_limit -> backup_data p = text) /\
    truthy (user_name p) = true /\
    truthy (user_email p) = true /\
    to_email p = backupEmail /\
    content_type p = Email.type item /\
    local_id p = Pending.localId (Email.data item).
Proof.
  intros stringify backupEmail item. cbn zeta. unfold templateParams.
  cbn [backup_data user_name user_email to_email content_type local_id].
  split; [apply substring_0_length|].
  split; [apply substring_0_prefix|].
  split; [apply substring_0_all|].
  split; [now apply or_else_truthy|].
  split; [|now repeat split].
  unfold opt_or_else. destruct (Pending.userEmail (Email.data item));
    [now apply or_else_truthy|reflexivity].
Qed.

Lemma backup_is_truncated_witness :
  let p := templateParams (fun r => Pending.data r) "backup@example.org"
             (Email.mk 1 Route (newPending "Loop Trail" None fresh) 7 false 0 None) in
  backup_data p = "Loop Trail" /\ user_name p = "Anonymous" /\
  user_email p = "Not provided".
Proof.
  cbn zeta.
  destruct (backup_is_truncated (fun r => Pending.data r) "backup@example.org"
              (Email.mk 1 Route (newPending "Loop Trail" None fresh) 7 false 0 None))
    as (_ & _ & H & _).
  split; [|split; reflexivity].
  apply H. apply Nat.leb_le. vm_compute. reflexivity.
Defined.

(** ** The connectivity handlers *)

Lemma showPendingNotification_isOnline count w :
  isOnline (showPendingNotification count w) = isOnline w.
Proof.
  unfold showPendingNotification.
  destruct (count =? 0); [destruct (0 <? getPendingCount w)|]; reflexivity.
Qed.

(** X15.  The connectivity handlers make [isOnline] follow the platform:
    the poll copies [navigator.onLine], the [online] listener sets the flag
    and the [offline] listener clears it.  A poll that does not find the
    instance back online changes nothing else, so a connection lost
    between two events is noticed without the toast of the [offline]
    listener; neither way of going offline touches the stores, the queues
    or the network. *)
Theorem connectivity_tracks_platform :
  forall (w : World),
    isOnline (connectivityPoll w) = navigator_onLine w /\
    isOnline (onOnline w) = true /\
    isOnline (onOffline w) = false /\
    (isOnline w = true \/ navigator_onLine w = false ->
       connectivityPoll w = set_isOnline (navigator_onLine w) w) /\
    same_data w (onOffline w) /\
    trace (onOffline w) = trace w /\
    notices (onOffline w) =
      notices w ++ [toast warning "Offline - data will sync when connected"].
Proof.
  intros w. split; [|split; [|split; [reflexivity|split; [|now repeat split]]]].
  - unfold connectivityPoll.
    destruct (negb (isOnline w) && isOnline (set_isOnline (navigator_onLine w) w))
      eqn:Hflip; [|reflexivity].
    match goal with
    | |- isOnline (processEmailQueue ?w2) = _ =>
        destruct (processEmailQueue_frame w2) as (_ & _ & _ & _ & F & _);
        rewrite F
    end.
    destruct (0 <? _); [|reflexivity].
    match goal with
    | |- isOnline (run syncAllPending ?w2) = _ =>
        destruct (run_syncAllPending_frame w2) as (_ & F2 & _); rewrite F2
    end.
    now rewrite showPendingNotification_isOnline.
  - unfold onOnline.
    match goal with
    | |- isOnline (processEmailQueue ?w2) = _ =>
        destruct (processEmailQueue_frame w2) as (_ & _ & _ & _ & F & _);
        rewrite F
    end.
    destruct (0 <? _); [|reflexivity].
    cbn [isOnline setTimeout set_timers]. now rewrite showPendingNotification_isOnline.
  - intros Hno. unfold connectivityPoll. cbn [isOnline set_isOnline].
    destruct Hno as [-> | ->]; [reflexivity|].
    now rewrite andb_false_r.
Qed.

Lemma connectivity_tracks_platform_witness :
  let w := set_environment false (Some alice) 9 ready in
  isOnline w = true /\
  isOnline (connectivityPoll w) = false /\
  notices (connectivityPoll w) = notices w /\
  trace (connectivityPoll w) = trace w.
Proof.
  cbn zeta. split; [reflexivity|].
  destruct (connectivity_tracks_platform
              (set_environment false (Some alice) 9 ready)) as (H1 & _ & _ & H4 & _).
  split; [exact H1|]. rewrite (H4 (or_introl eq_refl)). split; reflexivity.
Defined.

(** ** Start-up *)

Lemma loadEmailJS_frame b w :
  same_data w (loadEmailJS b w) /\
  trace (loadEmailJS b w) = trace w /\
  netCalls (loadEmailJS b w) = netCalls w /\
  isOnline (loadEmailJS b w) = isOnline w /\
  emailJsLoaded (loadEmailJS b w) =
    emailJsLoaded w || emailjs_defined w || (b && truthy (publicKey (emailjs w))).
Proof.
  unfold loadEmailJS.
  destruct (emailJsLoaded w) eqn:Hl; [now repeat split|].
  destruct (emailjs_defined w) eqn:Hd; [now repeat split|].
  destruct b; [|now repeat split].
  cbn [emailjs set_emailjs_defined].
  destruct (truthy (publicKey (emailjs w))); cbn; now repeat split.
Qed.

(** X16.  [initialize] only loads the relay and notifies: it makes no
    remote call, writes no store and no queue, and schedules no sync,
    unlike the [online] listener.  The banner, with the timer that removes
    it, is shown exactly when something is pending and the instance is
    online.  The relay counts as loaded when it was loaded before, when
    the page already defines it, or when the script loads and a public key
    is configured. *)
Theorem initialize_only_notifies :
  forall (scriptLoads : bool) (w : World),
    let w' := initialize scriptLoads w in
    trace w' = trace w /\
    netCalls w' = netCalls w /\
    same_stores w w' /\
    pendingPhotos w' = pendingPhotos w /\
    pendingSurveys w' = pendingSurveys w /\
    scheduled_syncs w' = scheduled_syncs w /\
    emailJsLoaded w' =
      emailJsLoaded w || emailjs_defined w ||
      (scriptLoads && truthy (publicKey (emailjs w))) /\
    (0 < getPendingCount w -> isOnline w = true ->
       timers w' = timers w ++ [mkTimer removeBanner 10000%N] /\
       exists before,
         notices w' = before ++ [banner (getPendingCount w)]) /\
    (getPendingCount w = 0 \/ isOnline w = false -> timers w' = timers w).
Proof.
  intros b w. cbn zeta. unfold initialize.
  destruct (loadEmailJS_frame b w)
    as ((S1 & S2 & S3 & S4 & S5 & S6) & T & N & O & L).
  assert (Hc : getPendingCount (loadEmailJS b w) = getPendingCount w).
  { unfold getPendingCount, getPendingRoutes, getPendingGuides.
    now rewrite S1, S2. }
  rewrite Hc, O.
  destruct (0 <? getPendingCount w) eqn:Hpos.
  - apply Nat.ltb_lt in Hpos. destruct (isOnline w) eqn:Hon.
    + unfold showPendingNotification.
      destruct (getPendingCount w =? 0) eqn:Hz;
        [apply Nat.eqb_eq in Hz; lia|].
      cbn [trace netCalls pendingPhotos pendingSurveys timers notices
           emailJsLoaded setTimeout set_timers notify set_notices].
      split; [exact T|]. split; [exact N|].
      split; [repeat split; assumption|].
      split; [exact S4|]. split; [exact S5|]. split.
      * unfold scheduled_syncs.
        cbn [timers setTimeout set_timers notify set_notices].
        rewrite filter_app, S6. cbn [filter is_autoSync callback].
        apply app_nil_r.
      * split; [exact L|]. split.
        -- intros _ _. rewrite S6. split; [reflexivity|].
           now exists (notices (loadEmailJS b w)).
        -- intros [Hz'|Hoff]; [lia|discriminate].
    + split; [exact T|]. split; [exact N|].
      split; [repeat split; assumption|].
      split; [exact S4|]. split; [exact S5|].
      split; [unfold scheduled_syncs; now rewrite S6|].
      split; [exact L|]. split; [intros _ Hoff; discriminate|].
      intros _. exact S6.
  - apply Nat.ltb_ge in Hpos.
    split; [exact T|]. split; [exact N|].
    split; [repeat split; assumption|].
    split; [exact S4|]. split; [exact S5|].
    split; [unfold scheduled_syncs; now rewrite S6|].
    split; [exact L|]. split; [intros Hp; lia|].
    intros _. exact S6.
Qed.

Lemma initialize_only_notifies_witness :
  0 < getPendingCount ready /\
  isOnline ready = true /\
  map callback (timers (initialize true ready)) = [removeBanner] /\
  map callback (timers (onOnline ready)) = [removeBanner; autoSync].
Proof.
  assert (Hc : 0 < getPendingCount ready) by (cbn; lia).
  split; [exact Hc|]. split; [reflexivity|].
  destruct (initialize_only_notifies true ready)
    as (_ & _ & _ & _ & _ & _ & _ & H & _).
  destruct (H Hc eq_refl) as [Ht _]. rewrite Ht. split; reflexivity.
Defined.
